(** * Soccer xG simulator: the match outcome simulation engine

    A shallow embedding of [xg_simulator.py] (classes [Match] and
    [MatchSimulator], functions [calculate_expected_goals] and
    [predict_score_probability]) and of the part of [soccer_xg_sim_dlp.py]
    ([Team]) that it reads.

    Python floats are kept abstract behind the interface [PyFloat], which
    has two instances.  Over the real numbers the code is read in exact
    arithmetic; a statement made there says so.  Over IEEE binary64 the model
    computes what the interpreter computes: it is used to run the code on
    concrete inputs and, with the specification of the primitive floats, for
    statements about all doubles.  Statements that do not depend on the
    arithmetic are made for every instance. *)

From Stdlib Require Import ZArith List String Bool Lia.
From Stdlib Require Import Reals Lra.
From Stdlib Require Import PrimFloat SpecFloat FloatOps FloatAxioms.
From Stdlib Require Import DecimalString.
From Stdlib Require Import Ascii Decimal DecimalPos DecimalZ.
From Stdlib Require Import Permutation Sorted.
From Stdlib Require QArith_base.
Import ListNotations.

Set Implicit Arguments.
Set Warnings "-inexact-float".

(** ** Exceptions *)

Inductive PyError : Type :=
| ZeroDivisionError
| ValueError.

Inductive Exc (A : Type) : Type :=
| Ok (a : A)
| Raise (e : PyError).

Arguments Ok {A} a.
Arguments Raise {A} e.

Definition bind {A B : Type} (c : Exc A) (k : A -> Exc B) : Exc B :=
  match c with
  | Ok a => k a
  | Raise e => Raise e
  end.

Declare Scope exc_scope.
Delimit Scope exc_scope with exc.
Notation "x <- c ;; k" := (bind c (fun x => k))
  (at level 100, c at next level, right associativity) : exc_scope.
Notation "' p <- c ;; k" := (bind c (fun p => k))
  (at level 100, p pattern, c at next level, right associativity) : exc_scope.
Open Scope exc_scope.

(** ** The float interface *)

Class PyFloat (F : Type) : Type := {
  fmul : F -> F -> F;
  (** the quotient; Python reaches it only through [pydiv] *)
  fquot : F -> F -> F;
  (** [x == 0] *)
  fis_zero : F -> bool;
  (** conversion of a Python [int] *)
  of_int : Z -> F;
  (** the literals [1.0] and [1.2] *)
  lit_1_0 : F;
  lit_1_2 : F
}.

(** Python's true division [x / y]: a zero divisor raises. *)
Definition pydiv {F} `{PyFloat F} (x y : F) : Exc F :=
  if fis_zero y then Raise ZeroDivisionError else Ok (fquot x y).

Definition Req_zero (x : R) : bool :=
  if Req_dec_T x 0%R then true else false.

#[export] Instance PyFloat_R : PyFloat R := {
  fmul := Rmult;
  fquot := Rdiv;
  fis_zero := Req_zero;
  of_int := IZR;
  lit_1_0 := 1%R;
  lit_1_2 := (12 / 10)%R
}.

(** Conversion of an integer to binary64 by Horner's rule on its bits; every
    step is exact while the integer is below [2^53], which covers the trial
    counts and goal sums the simulator divides. *)
Fixpoint float_of_pos (p : positive) : float :=
  match p with
  | xH => 1%float
  | xO q => PrimFloat.mul 2%float (float_of_pos q)
  | xI q => PrimFloat.add (PrimFloat.mul 2%float (float_of_pos q)) 1%float
  end.

Definition float_of_Z (z : Z) : float :=
  match z with
  | Z0 => 0%float
  | Zpos p => float_of_pos p
  | Zneg p => PrimFloat.opp (float_of_pos p)
  end.

#[export] Instance PyFloat_binary64 : PyFloat float := {
  fmul := PrimFloat.mul;
  fquot := PrimFloat.div;
  fis_zero := fun x => PrimFloat.eqb x 0%float;
  of_int := float_of_Z;
  lit_1_0 := 1%float;
  lit_1_2 := 1.2%float
}.

(** ** Teams ([soccer_xg_sim_dlp.py])

    Of the attributes that [Team.__init__] sets, the simulator reads the
    name, the season and three statistics; the others are left out. *)

Record Team (F : Type) : Type := mkTeam {
  name : string;
  season : string;
  avg_xg_for : F;
  xg_efficiency : F;
  defensive_efficiency : F
}.

Definition get_display_name {F} (t : Team F) : string :=
  (name t ++ " (" ++ season t ++ ")")%string.

Section ExpectedGoals.
Context {F : Type} `{PyFloat F}.

(** [calculate_expected_goals], lines 295-337. *)
Definition calculate_expected_goals
    (team opponent : Team F) (is_home neutral_venue : bool) : Exc F :=
  let base_xg := avg_xg_for team in
  base_xg <-
    (if negb neutral_venue then
       let home_advantage := lit_1_2 in
       if is_home then Ok (fmul base_xg home_advantage)
       else pydiv base_xg home_advantage
     else Ok base_xg) ;;
  let xg_with_efficiency := fmul base_xg (xg_efficiency team) in
  let opponent_defensive_factor := defensive_efficiency opponent in
  opponent_defensive_factor <-
    (if negb neutral_venue then
       let home_advantage := lit_1_2 in
       if is_home then pydiv opponent_defensive_factor home_advantage
       else Ok (fmul opponent_defensive_factor home_advantage)
     else Ok opponent_defensive_factor) ;;
  pydiv xg_with_efficiency opponent_defensive_factor.

End ExpectedGoals.

(** ** Insertion-ordered dictionaries

    A Python [dict] keeps its keys in the order of their first insertion and
    an assignment to a key already present updates the value in place, so a
    dictionary is a list of pairs without repeated keys, oldest key first. *)

Section Dict.
Variables (K V : Type) (keq : K -> K -> bool).

Definition dict : Type := list (K * V).

(** [d.get(k, default)] *)
Fixpoint dict_get (d : dict) (k : K) (default : V) : V :=
  match d with
  | [] => default
  | (k', v') :: rest => if keq k' k then v' else dict_get rest k default
  end.

(** [d[k] = v] *)
Fixpoint dict_set (d : dict) (k : K) (v : V) : dict :=
  match d with
  | [] => [(k, v)]
  | (k', v') :: rest =>
      if keq k' k then (k', v) :: rest else (k', v') :: dict_set rest k v
  end.

(** [d.items()] *)
Definition dict_items (d : dict) : list (K * V) := d.

Definition dict_keys (d : dict) : list K := map fst d.
Definition dict_values (d : dict) : list V := map snd d.

Fixpoint dict_mem (d : dict) (k : K) : bool :=
  match d with
  | [] => false
  | (k', _) :: rest => if keq k' k then true else dict_mem rest k
  end.
End Dict.

(** [d[k] = d.get(k, 0) + 1] *)
Definition dict_incr {K} (keq : K -> K -> bool) (d : dict K Z) (k : K) : dict K Z :=
  dict_set keq d k (dict_get keq d k 0%Z + 1)%Z.

(** [sum(d.values())] *)
Definition dict_total {K} (d : dict K Z) : Z :=
  fold_right Z.add 0%Z (dict_values d).

(** ** [sorted(xs, key=..., reverse=True)]

    Python's sort is stable, also under [reverse=True]: elements with equal
    keys keep their original order.  The built-in is modelled by a stable
    insertion sort into descending key order; [sorted_desc_unique] below
    shows that any stable descending sort returns the same list. *)

Section Sorted.
Variables (A : Type) (key : A -> Z).

Fixpoint insert_desc (x : A) (l : list A) : list A :=
  match l with
  | [] => [x]
  | y :: rest =>
      if (key y <=? key x)%Z then x :: y :: rest
      else y :: insert_desc x rest
  end.

Definition sorted_desc (l : list A) : list A :=
  fold_right insert_desc [] l.

(** [x] may stand before [y] in a list in descending key order. *)
Definition desc (x y : A) : Prop := (key y <= key x)%Z.

(** The elements whose key is [c], in their order in the list. *)
Definition with_key (c : Z) (l : list A) : list A :=
  filter (fun z => (key z =? c)%Z) l.
End Sorted.

(** [str(n)] for an integer, as an f-string prints it. *)
Definition str_int (z : Z) : string := NilZero.string_of_int (Z.to_int z).

(** ** A match ([class Match]) *)

Record Match (F : Type) : Type := mkMatch {
  home_team : Team F;
  away_team : Team F;
  home_goals : Z;
  away_goals : Z;
  played : bool;
  neutral_venue : bool;
  home_advantage_factor : F
}.

(** The dictionary returned by [Match.get_result]. *)
Record MatchResult : Type := mkMatchResult {
  mr_home_team : string;
  mr_away_team : string;
  mr_home_goals : Z;
  mr_away_goals : Z;
  mr_result : string;
  mr_score_line : string
}.

(** An entry of [most_common_scores]. *)
Record ScoreEntry (F : Type) : Type := mkScoreEntry {
  score : string;
  count : Z;
  prob : F
}.

(** The [results] dictionary of [run_simulations] while the loop runs;
    [total_home_goals] and [total_away_goals] are its entries 'home_goals'
    and 'away_goals'. *)
Record Tally : Type := mkTally {
  home_wins : Z;
  away_wins : Z;
  draws : Z;
  total_home_goals : Z;
  total_away_goals : Z;
  score_counts : dict string Z;
  home_goal_counts : dict Z Z;
  away_goal_counts : dict Z Z
}.

(** The [results] dictionary as [run_simulations] returns it: the entries
    of the loop ([tally]) and those added by lines 198-209. *)
Record Results (F : Type) : Type := mkResults {
  r_home_team : string;
  r_away_team : string;
  venue_type : string;
  num_simulations : Z;
  tally : Tally;
  avg_home_goals : F;
  avg_away_goals : F;
  home_win_prob : F;
  away_win_prob : F;
  draw_prob : F;
  most_common_scores : list (ScoreEntry F)
}.

Record MatchSimulator (F : Type) : Type := mkMatchSimulator {
  last_simulation_results : option (Results F)
}.

(** [for _ in range(n): body] over a state, stopping at the first exception. *)
Fixpoint for_range {St : Type} (n : nat) (body : St -> Exc St) (s : St) : Exc St :=
  match n with
  | O => Ok s
  | S n' => s' <- body s ;; for_range n' body s'
  end.

(** A list comprehension whose element expression may raise. *)
Fixpoint map_exc {A B : Type} (f : A -> Exc B) (l : list A) : Exc (list B) :=
  match l with
  | [] => Ok []
  | x :: rest => y <- f x ;; ys <- map_exc f rest ;; Ok (y :: ys)
  end.

(** ** The simulator

    [np.random.poisson] reads and advances NumPy's global generator: it is a
    parameter [poisson] over an abstract generator state [Rng], and may raise
    (NumPy rejects a negative or NaN mean).  [scipy.stats.poisson.pmf] is the
    parameter [pmf]. *)

Section Simulator.
Context {F : Type} `{PyFloat F}.
Variable Rng : Type.
Variable poisson : F -> Rng -> Exc (Z * Rng).
Variable pmf : Z -> F -> F.

(** [Match.__init__]; the attribute [variance_factor] is never read and is
    left out. *)
Definition Match_init (home away : Team F) (neutral : bool) : Match F :=
  {| home_team := home;
     away_team := away;
     home_goals := 0;
     away_goals := 0;
     played := false;
     neutral_venue := neutral;
     home_advantage_factor := if neutral then lit_1_0 else lit_1_2 |}.

Definition set_neutral_venue (self : Match F) (is_neutral : bool) : Match F :=
  {| home_team := home_team self;
     away_team := away_team self;
     home_goals := home_goals self;
     away_goals := away_goals self;
     played := played self;
     neutral_venue := is_neutral;
     home_advantage_factor := if is_neutral then lit_1_0 else lit_1_2 |}.

(** [Match.simulate], lines 52-80: the two expected-goals values. *)
Definition simulate_expected_goals (self : Match F) : Exc (F * F) :=
  let base_home_xg := avg_xg_for (home_team self) in
  let home_xg_with_advantage :=
    fmul base_home_xg (home_advantage_factor self) in
  let home_xg_with_efficiency :=
    fmul home_xg_with_advantage (xg_efficiency (home_team self)) in
  let away_defensive_factor := defensive_efficiency (away_team self) in
  away_defensive_factor <-
    (if negb (neutral_venue self) then
       inv <- pydiv (of_int 1) (home_advantage_factor self) ;;
       Ok (fmul away_defensive_factor inv)
     else Ok away_defensive_factor) ;;
  expected_home_goals <- pydiv home_xg_with_efficiency away_defensive_factor ;;
  let base_away_xg := avg_xg_for (away_team self) in
  away_xg_with_disadvantage <-
    (if negb (neutral_venue self) then
       pydiv base_away_xg (home_advantage_factor self)
     else Ok base_away_xg) ;;
  let away_xg_with_efficiency :=
    fmul away_xg_with_disadvantage (xg_efficiency (away_team self)) in
  let home_defensive_factor := defensive_efficiency (home_team self) in
  let home_defensive_factor :=
    if negb (neutral_venue self)
    then fmul home_defensive_factor (home_advantage_factor self)
    else home_defensive_factor in
  expected_away_goals <- pydiv away_xg_with_efficiency home_defensive_factor ;;
  Ok (expected_home_goals, expected_away_goals).

(** [Match.simulate]: the expected goals, then lines 83-86.  The value is
    what the call returns; the state in which a call that raises leaves the
    object is [simulate_leaves] below. *)
Definition simulate (self : Match F) (rng : Rng) : Exc (Match F * Rng) :=
  '(expected_home_goals, expected_away_goals) <- simulate_expected_goals self ;;
  '(hg, rng) <- poisson expected_home_goals rng ;;
  '(ag, rng) <- poisson expected_away_goals rng ;;
  Ok ({| home_team := home_team self;
         away_team := away_team self;
         home_goals := hg;
         away_goals := ag;
         played := true;
         neutral_venue := neutral_venue self;
         home_advantage_factor := home_advantage_factor self |}, rng).

(** [Match.get_result] *)
Definition get_result (self : Match F) : Exc MatchResult :=
  if negb (played self) then Raise ValueError
  else
    Ok {| mr_home_team := get_display_name (home_team self);
          mr_away_team := get_display_name (away_team self);
          mr_home_goals := home_goals self;
          mr_away_goals := away_goals self;
          mr_result :=
            if (home_goals self >? away_goals self)%Z then "Home Win"
            else if (away_goals self >? home_goals self)%Z then "Away Win"
            else "Draw";
          mr_score_line :=
            (str_int (home_goals self) ++ "-" ++ str_int (away_goals self))%string
       |}.

(** [MatchSimulator.simulate_match] *)
Definition simulate_match (home away : Team F) (neutral : bool) (rng : Rng)
  : Exc (MatchResult * Rng) :=
  let m := Match_init home away neutral in
  '(m, rng) <- simulate m rng ;;
  r <- get_result m ;;
  Ok (r, rng).

Definition empty_tally : Tally :=
  {| home_wins := 0; away_wins := 0; draws := 0;
     total_home_goals := 0; total_away_goals := 0;
     score_counts := []; home_goal_counts := []; away_goal_counts := [] |}.

(** Lines 177-195: what one trial's result adds to [results]. *)
Definition record_result (results : Tally) (match_result : MatchResult) : Tally :=
  let hw := home_wins results in
  let aw := away_wins results in
  let dr := draws results in
  let '(hw, aw, dr) :=
    if String.eqb (mr_result match_result) "Home Win" then ((hw + 1)%Z, aw, dr)
    else if String.eqb (mr_result match_result) "Away Win" then (hw, (aw + 1)%Z, dr)
    else (hw, aw, (dr + 1)%Z) in
  let score_key := mr_score_line match_result in
  let hgoals := mr_home_goals match_result in
  let agoals := mr_away_goals match_result in
  {| home_wins := hw;
     away_wins := aw;
     draws := dr;
     total_home_goals := (total_home_goals results + mr_home_goals match_result)%Z;
     total_away_goals := (total_away_goals results + mr_away_goals match_result)%Z;
     score_counts := dict_incr String.eqb (score_counts results) score_key;
     home_goal_counts := dict_incr Z.eqb (home_goal_counts results) hgoals;
     away_goal_counts := dict_incr Z.eqb (away_goal_counts results) agoals |}.

(** The body of the loop of [run_simulations], lines 173-195. *)
Definition trial (home away : Team F) (neutral : bool)
    (st : Tally * Rng) : Exc (Tally * Rng) :=
  let '(results, rng) := st in
  let m := Match_init home away neutral in
  '(m, rng) <- simulate m rng ;;
  match_result <- get_result m ;;
  Ok (record_result results match_result, rng).

(** Lines 204-209. *)
Definition most_common (score_counts : dict string Z) (n : Z)
  : Exc (list (ScoreEntry F)) :=
  entries <-
    map_exc (fun kv : string * Z =>
               let '(k, v) := kv in
               p <- pydiv (of_int v) (of_int n) ;;
               Ok {| score := k; count := v; prob := p |})
            (dict_items score_counts) ;;
  Ok (firstn 10 (sorted_desc (@count F) entries)).

(** [MatchSimulator.run_simulations] *)
Definition run_simulations (self : MatchSimulator F)
    (home away : Team F) (n : Z) (neutral : bool) (rng : Rng)
  : Exc (Results F * MatchSimulator F * Rng) :=
  let venue := (if neutral then "Neutral Venue" else "Home/Away")%string in
  '(results, rng) <-
    for_range (Z.to_nat n) (trial home away neutral) (empty_tally, rng) ;;
  avg_h <- pydiv (of_int (total_home_goals results)) (of_int n) ;;
  avg_a <- pydiv (of_int (total_away_goals results)) (of_int n) ;;
  p_h <- pydiv (of_int (home_wins results)) (of_int n) ;;
  p_a <- pydiv (of_int (away_wins results)) (of_int n) ;;
  p_d <- pydiv (of_int (draws results)) (of_int n) ;;
  top <- most_common (score_counts results) n ;;
  let results :=
    {| r_home_team := get_display_name home;
       r_away_team := get_display_name away;
       venue_type := venue;
       num_simulations := n;
       tally := results;
       avg_home_goals := avg_h;
       avg_away_goals := avg_a;
       home_win_prob := p_h;
       away_win_prob := p_a;
       draw_prob := p_d;
       most_common_scores := top |} in
  Ok (results, {| last_simulation_results := Some results |}, rng).

(** [predict_score_probability] *)
Definition predict_score_probability (home away : Team F)
    (hgoals agoals : Z) (neutral : bool) : Exc F :=
  home_xg <- calculate_expected_goals home away true neutral ;;
  away_xg <- calculate_expected_goals away home false neutral ;;
  let home_prob := pmf hgoals home_xg in
  let away_prob := pmf agoals away_xg in
  let score_prob := fmul home_prob away_prob in
  Ok score_prob.

End Simulator.

(** ** Generators and mass functions used to run the model *)

(** A generator that replays a tape of draws, rejecting a mean below zero
    (and, in binary64, a NaN) as NumPy does; an exhausted tape yields 0.
    NumPy also rejects means beyond about 9.2e18, far above the samples. *)
Definition tape_poisson_R (lam : R) (tape : list Z) : Exc (Z * list Z) :=
  if Rlt_dec lam 0 then Raise ValueError
  else match tape with
       | [] => Ok (0%Z, [])
       | k :: rest => Ok (k, rest)
       end.

Definition tape_poisson_64 (lam : float) (tape : list Z) : Exc (Z * list Z) :=
  if PrimFloat.ltb lam 0%float || negb (PrimFloat.eqb lam lam)
  then Raise ValueError
  else match tape with
       | [] => Ok (0%Z, [])
       | k :: rest => Ok (k, rest)
       end.

(** The Poisson mass function over the reals, zero off its support, which is
    what [scipy.stats.poisson.pmf(k, mu)] computes for [mu > 0]. *)
Definition poisson_pmf_R (k : Z) (mu : R) : R :=
  if (k <? 0)%Z then 0%R
  else (exp (- mu) * mu ^ Z.to_nat k / INR (fact (Z.to_nat k)))%R.

(** What the sampler is assumed to do on a mean that is not negative. *)
Definition sampler_total {Rng : Type} (poisson : R -> Rng -> Exc (Z * Rng)) : Prop :=
  forall (lam : R) (g : Rng),
    (0 <= lam)%R -> exists (k : Z) (g' : Rng), poisson lam g = Ok (k, g').

(** What NumPy's sampler does on a negative mean. *)
Definition sampler_rejects_negative {Rng : Type}
    (poisson : R -> Rng -> Exc (Z * Rng)) : Prop :=
  forall (lam : R) (g : Rng),
    (lam < 0)%R -> exists e : PyError, poisson lam g = Raise e.

(** ** Sample inputs *)

Definition teamA : Team R := mkTeam "Team A" "2024-2025" 1.8%R 1%R 1%R.
Definition teamB : Team R := mkTeam "Team B" "2024-2025" 1.8%R 1%R 1%R.
Definition nosim : MatchSimulator R := mkMatchSimulator None.

Definition teamA64 : Team float :=
  mkTeam "Team A" "2024-2025" 1.8%float 1%float 1%float.
Definition teamB64 : Team float :=
  mkTeam "Team B" "2024-2025" 1.8%float 1%float 1%float.
Definition nosim64 : MatchSimulator float := mkMatchSimulator None.

(** A team that creates no chances. *)
Definition team_no_chances : Team R := mkTeam "Team Z" "2024-2025" 0%R 1%R 1%R.
Definition team_no_chances64 : Team float :=
  mkTeam "Team Z" "2024-2025" 0%float 1%float 1%float.

(** Teams whose defensive efficiency is negative, and zero. *)
Definition team_neg_defence : Team R :=
  mkTeam "Team N" "2024-2025" 1.8%R 1%R (-1)%R.
Definition team_neg_defence64 : Team float :=
  mkTeam "Team N" "2024-2025" 1.8%float 1%float (-1)%float.
Definition team_zero_defence : Team R :=
  mkTeam "Team D" "2024-2025" 1.8%R 1%R 0%R.

(** A team whose conversion efficiency is negative. *)
Definition team_neg_efficiency : Team R :=
  mkTeam "Team E" "2024-2025" 1.8%R (-1)%R 1%R.
Definition team_neg_efficiency64 : Team float :=
  mkTeam "Team E" "2024-2025" 1.8%float (-1)%float 1%float.

(** The match that [simulate] returns for the sample teams when the
    generator yields 2 and then 1. *)
Definition played_match64 : Match float :=
  {| home_team := teamA64; away_team := teamB64;
     home_goals := 2; away_goals := 1; played := true;
     neutral_venue := false; home_advantage_factor := 1.2%float |}.

(** ** Notions used in the statements *)

(** A profile is valid when its three statistics are strictly positive. *)
Definition valid_team (t : Team R) : Prop :=
  (0 < avg_xg_for t /\ 0 < xg_efficiency t /\ 0 < defensive_efficiency t)%R.

(** The value of [calculate_expected_goals] over the reals. *)
Definition expected_goals_value (team opponent : Team R) (is_home neutral : bool) : R :=
  if neutral then
    (avg_xg_for team * xg_efficiency team / defensive_efficiency opponent)%R
  else if is_home then
    (avg_xg_for team * (12 / 10) * xg_efficiency team
       / (defensive_efficiency opponent / (12 / 10)))%R
  else
    (avg_xg_for team / (12 / 10) * xg_efficiency team
       / (defensive_efficiency opponent * (12 / 10)))%R.

(** A team with one statistic replaced, the others held fixed. *)
Definition with_avg_xg_for (t : Team R) (a : R) : Team R :=
  mkTeam (name t) (season t) a (xg_efficiency t) (defensive_efficiency t).

Definition with_xg_efficiency (t : Team R) (e : R) : Team R :=
  mkTeam (name t) (season t) (avg_xg_for t) e (defensive_efficiency t).

Definition with_defensive_efficiency (t : Team R) (d : R) : Team R :=
  mkTeam (name t) (season t) (avg_xg_for t) (xg_efficiency t) d.

(** The number of trials a tally has absorbed, read off its four counters. *)
Definition outcomes (t : Tally) : Z := (home_wins t + away_wins t + draws t)%Z.

Definition tally_counts (t : Tally) (n : Z) : Prop :=
  outcomes t = n /\
  dict_total (score_counts t) = n /\
  dict_total (home_goal_counts t) = n /\
  dict_total (away_goal_counts t) = n.

(** The list built by the comprehension of lines 205-206. *)
Definition score_entries (n : Z) (sc : dict string Z) : list (ScoreEntry R) :=
  map (fun kv : string * Z =>
         {| score := fst kv; count := snd kv; prob := (IZR (snd kv) / IZR n)%R |})
      (dict_items sc).

(** Equality of two binary64 results, bit for bit. *)
Definition same_float (x y : float) : bool := PrimFloat.Leibniz.eqb x y.

Definition same_expected_goals (x y : Exc (float * float)) : bool :=
  match x, y with
  | Ok (a, b), Ok (c, d) => same_float a c && same_float b d
  | Raise ZeroDivisionError, Raise ZeroDivisionError => true
  | Raise ValueError, Raise ValueError => true
  | _, _ => false
  end.

(** Do lines 52-80 of [Match.simulate] and the two calls of
    [calculate_expected_goals] return the same doubles? *)
Definition paths_agree64 (home away : Team float) (neutral : bool) : bool :=
  same_expected_goals
    (simulate_expected_goals (Match_init home away neutral))
    (lh <- calculate_expected_goals home away true neutral ;;
     la <- calculate_expected_goals away home false neutral ;;
     Ok (lh, la)).

(** The statistics 0.01, 0.02, ..., 10.00 as doubles. *)
Definition stat_grid : list float :=
  map (fun k => PrimFloat.div (float_of_Z (Z.of_nat k)) 100%float) (seq 1 1000).

Definition team64 (avg eff def : float) : Team float :=
  mkTeam "Team G" "2024-2025" avg eff def.

(** ** Further methods of [xg_simulator.py] *)

(** [Match.get_score_string] *)
Definition get_score_string {F : Type} (self : Match F) : string :=
  if negb (played self) then "Match not played yet"
  else (name (home_team self) ++ " " ++ str_int (home_goals self) ++ " - "
        ++ str_int (away_goals self) ++ " " ++ name (away_team self))%string.

(** [MatchSimulator.plot_simulation_results], lines 222-225: the results
    that are plotted. *)
Definition plot_results_used {F : Type} (self : MatchSimulator F)
    (results : option (Results F)) : Exc (Results F) :=
  match results with
  | Some r => Ok r
  | None =>
      match last_simulation_results self with
      | None => Raise ValueError
      | Some r => Ok r
      end
  end.

(** [range(n)] *)
Definition range (n : Z) : list Z := map Z.of_nat (seq 0 (Z.to_nat n)).

(** [max(d.keys()) if d else 0] *)
Definition max_key_or_0 (d : dict Z Z) : Z :=
  match dict_keys d with
  | [] => 0%Z
  | k :: ks => fold_left Z.max ks k
  end.

(** Lines 247-251 of [plot_simulation_results] (the same computation is at
    lines 313-318 of [streamlit_app.py]): the two lists of bar heights. *)
Definition plot_goal_distributions {F : Type} `{PyFloat F} (results : Results F)
    : Exc (list F * list F) :=
  let max_goals :=
    Z.max (max_key_or_0 (home_goal_counts (tally results)))
          (max_key_or_0 (away_goal_counts (tally results))) in
  home_goals_distribution <-
    map_exc (fun i => pydiv (of_int (dict_get Z.eqb (home_goal_counts (tally results)) i 0%Z))
                            (of_int (num_simulations results)))
            (range (max_goals + 1)) ;;
  away_goals_distribution <-
    map_exc (fun i => pydiv (of_int (dict_get Z.eqb (away_goal_counts (tally results)) i 0%Z))
                            (of_int (num_simulations results)))
            (range (max_goals + 1)) ;;
  Ok (home_goals_distribution, away_goals_distribution).

(** ** [TeamManager] ([soccer_xg_sim_dlp.py])

    The list of teams; the pandas frame [teams_df] is left out.
    [str.lower] is the parameter [lower]. *)

Record TeamManager (F : Type) : Type := mkTeamManager {
  teams : list (Team F)
}.

Section TeamManagerMethods.
Context {F : Type}.
Variable lower : string -> string.

Definition get_all_teams (self : TeamManager F) : list (Team F) := teams self.

(** The test of the loop of [find_team]. *)
Definition team_matches (nm se : string) (team : Team F) : bool :=
  String.eqb (lower (name team)) (lower nm) && String.eqb (season team) se.

Fixpoint find_team_in (l : list (Team F)) (nm se : string) : option (Team F) :=
  match l with
  | [] => None
  | team :: rest =>
      if team_matches nm se team then Some team else find_team_in rest nm se
  end.

(** [TeamManager.find_team] *)
Definition find_team (self : TeamManager F) (nm se : string) : option (Team F) :=
  find_team_in (teams self) nm se.

(** [TeamManager.get_teams_by_season] *)
Definition get_teams_by_season (self : TeamManager F) (se : string) : list (Team F) :=
  filter (fun team => String.eqb (season team) se) (teams self).

End TeamManagerMethods.

(** ** Notions used for the trials *)

(** What [get_result] returns for a played match with goals [o]. *)
Definition result_of_goals {F : Type} (home away : Team F) (o : Z * Z) : MatchResult :=
  {| mr_home_team := get_display_name home;
     mr_away_team := get_display_name away;
     mr_home_goals := fst o;
     mr_away_goals := snd o;
     mr_result :=
       if (fst o >? snd o)%Z then "Home Win"
       else if (snd o >? fst o)%Z then "Away Win"
       else "Draw";
     mr_score_line := (str_int (fst o) ++ "-" ++ str_int (snd o))%string |}.

(** The scoreline key of an outcome, [f"{home}-{away}"]. *)
Definition score_line (o : Z * Z) : string :=
  (str_int (fst o) ++ "-" ++ str_int (snd o))%string.

(** How many elements of a list pass a test. *)
Definition count_where {A : Type} (p : A -> bool) (l : list A) : Z :=
  Z.of_nat (List.length (filter p l)).

(** The distinct elements of a list, each at the place of its first
    occurrence. *)
Definition first_occurrences {K : Type} (keq : K -> K -> bool) (l : list K) : list K :=
  fold_left (fun acc k => if existsb (fun k' => keq k' k) acc then acc
                          else (acc ++ [k])%list) l [].

(** [sum(xs)] over the reals. *)
Definition Rsum (l : list R) : R := fold_right Rplus 0%R l.

(** The scores [os] are those of successive calls of
    [Match(home, away, neutral).simulate()], taking the generator from [rng]
    to [rng']. *)
Fixpoint played_out {F Rng : Type} `{PyFloat F}
    (poisson : F -> Rng -> Exc (Z * Rng)) (home away : Team F) (neutral : bool)
    (rng : Rng) (os : list (Z * Z)) (rng' : Rng) : Prop :=
  match os with
  | [] => rng = rng'
  | o :: rest =>
      exists (m : Match F) (rng1 : Rng),
        simulate poisson (Match_init home away neutral) rng = Ok (m, rng1) /\
        (home_goals m, away_goals m) = o /\
        played_out poisson home away neutral rng1 rest rng'
  end.

(** The loop entries of [results] after the outcomes [os] have been
    recorded one by one. *)
Definition tally_of {F : Type} (home away : Team F) (os : list (Z * Z)) : Tally :=
  fold_left record_result (map (result_of_goals home away) os) empty_tally.

(** Tests on an outcome. *)
Definition home_win (o : Z * Z) : bool := (fst o >? snd o)%Z.
Definition away_win (o : Z * Z) : bool := (snd o >? fst o)%Z.
Definition draw (o : Z * Z) : bool := (fst o =? snd o)%Z.
Definition outcome_eqb (o o' : Z * Z) : bool :=
  (fst o =? fst o')%Z && (snd o =? snd o')%Z.

(** A run of three trials in binary64 and what it returns. *)
Definition sample_tape : list Z := [2; 1; 0; 0; 1; 3]%Z.

Definition sample_results64 : Results float :=
  Eval vm_compute in
    match run_simulations tape_poisson_64 nosim64 teamA64 teamB64 3 false
            sample_tape with
    | Ok (r, _, _) => r
    | Raise _ =>
        mkResults "" "" "" 0 empty_tally 0%float 0%float 0%float 0%float
          0%float []
    end.

(** [sum(xs)] over the integers. *)
Definition Zsum (l : list Z) : Z := fold_right Z.add 0%Z l.

(** ** Reading a scoreline back ([test_simulation], line 386)

    [s.split(sep)] for a separator that is not empty: the pieces between the
    occurrences of [sep], found from left to right without overlap.
    [skip] counts the characters of an occurrence still to be passed over and
    [cur] holds the piece read so far. *)
Fixpoint split_from (sep : string) (skip : nat) (cur s : string) : list string :=
  match s with
  | EmptyString => [cur]
  | String c rest =>
      match skip with
      | S k => split_from sep k cur rest
      | O =>
          if String.prefix sep s
          then cur :: split_from sep (String.length sep - 1) EmptyString rest
          else split_from sep 0 (cur ++ String c EmptyString)%string rest
      end
  end.

Definition py_split (sep s : string) : list string :=
  split_from sep 0 EmptyString s.

(** [int(s)] on a string made of decimal digits with an optional minus sign
    in front; the other spellings that Python accepts (surrounding blanks, a
    plus sign, underscores) do not occur in a scoreline and raise here. *)
Definition py_int (s : string) : Exc Z :=
  match NilZero.int_of_string s with
  | Some d => Ok (Z.of_int d)
  | None => Raise ValueError
  end.

(** [home_goals, away_goals = map(int, score.split('-'))]: the lazy [map]
    converts a piece when the unpacking asks for it, and the unpacking asks
    for a third piece to see that there is none. *)
Definition parse_score_line (score : string) : Exc (Z * Z) :=
  match py_split "-" score with
  | [] => Raise ValueError
  | p1 :: rest1 =>
      h <- py_int p1 ;;
      match rest1 with
      | [] => Raise ValueError
      | p2 :: rest2 =>
          a <- py_int p2 ;;
          match rest2 with
          | [] => Ok (h, a)
          | p3 :: _ => _ <- py_int p3 ;; Raise ValueError
          end
      end
  end.

(** Does the character occur in the string? *)
Fixpoint has_char (c : ascii) (s : string) : bool :=
  match s with
  | EmptyString => false
  | String c' rest => Ascii.eqb c' c || has_char c rest
  end.

(** The sampler returns no negative count. *)
Definition sampler_nonneg {F Rng : Type} (poisson : F -> Rng -> Exc (Z * Rng)) : Prop :=
  forall (lam : F) (g g' : Rng) (k : Z), poisson lam g = Ok (k, g') -> (0 <= k)%Z.

(** Both goal counts of an outcome are at least zero. *)
Definition nonneg_outcome (o : Z * Z) : Prop := (0 <= fst o)%Z /\ (0 <= snd o)%Z.

(** A generator that replays a tape of counts, as [tape_poisson_64] does
    with a tape of integers. *)
Definition count_poisson_64 (lam : float) (tape : list nat) : Exc (Z * list nat) :=
  if PrimFloat.ltb lam 0%float || negb (PrimFloat.eqb lam lam)
  then Raise ValueError
  else match tape with
       | [] => Ok (0%Z, [])
       | k :: rest => Ok (Z.of_nat k, rest)
       end.

Definition sample_counts : list nat := [2; 1; 0; 0; 2; 1; 1; 3]%nat.

(** A run of four trials with [count_poisson_64] and what it returns. *)
Definition sample_count_results64 : Results float :=
  Eval vm_compute in
    match run_simulations count_poisson_64 nosim64 teamA64 teamB64 4 false
            sample_counts with
    | Ok (r, _, _) => r
    | Raise _ =>
        mkResults "" "" "" 0 empty_tally 0%float 0%float 0%float 0%float
          0%float []
    end.

(** [c.lower()] on an ASCII character, and [s.lower()] on an ASCII string. *)
Definition ascii_lower (c : ascii) : ascii :=
  let n := N_of_ascii c in
  if (65 <=? n)%N && (n <=? 90)%N then ascii_of_N (n + 32) else c.

Fixpoint lower_ascii (s : string) : string :=
  match s with
  | EmptyString => EmptyString
  | String c rest => String (ascii_lower c) (lower_ascii rest)
  end.

Definition sample_manager64 : TeamManager float :=
  mkTeamManager [teamA64; teamB64].

(** The same generator over the reals. *)
Definition count_poisson_R (lam : R) (tape : list nat) : Exc (Z * list nat) :=
  if Rlt_dec lam 0 then Raise ValueError
  else match tape with
       | [] => Ok (0%Z, [])
       | k :: rest => Ok (Z.of_nat k, rest)
       end.

(** ** Display names read back

    [s.rstrip(c)] for a one-character string [c]. *)
Fixpoint rstrip_char (c : ascii) (s : string) : string :=
  match s with
  | EmptyString => EmptyString
  | String a rest =>
      match rstrip_char c rest with
      | EmptyString => if Ascii.eqb a c then EmptyString else String a EmptyString
      | r => String a r
      end
  end.

(** The legend labels of [plot_simulation_results], lines 254-255 and
    277-278: [results['home_team'].split(' (')[0]] and the same for the away
    side.  [None] stands for the IndexError of [[0]] on an empty list. *)
Definition plot_team_labels {F : Type} (results : Results F)
    : option string * option string :=
  (nth_error (py_split " (" (r_home_team results)) 0,
   nth_error (py_split " (" (r_away_team results)) 0).

(** [streamlit_app.py], line 55: the entries of the two selection boxes. *)
Definition team_options {F : Type} (teams : list (Team F)) : list string :=
  map (fun team => (name team ++ " (" ++ season team ++ ")")%string) teams.

(** [streamlit_app.py], lines 63-65 and 96-98: the team that a selected
    entry stands for.  Unpacking into two names raises ValueError unless the
    split gives exactly two pieces. *)
Definition selected_team {F : Type} (lower : string -> string)
    (team_manager : TeamManager F) (selection : string) : Exc (option (Team F)) :=
  match py_split " (" selection with
  | [team_name; team_season] =>
      let team_season := rstrip_char ")" team_season in
      Ok (find_team lower team_manager team_name team_season)
  | _ => Raise ValueError
  end.

(** ** The figures of the web page ([streamlit_app.py], lines 231-234 and
    270-282), before they are divided by [num_simulations] for display *)

(** [sum(map(int, score.split('-')))], and the same sum written with a
    generator at line 282. *)
Definition score_total (score : string) : Exc Z :=
  goals <- map_exc py_int (py_split "-" score) ;;
  Ok (Zsum goals).

(** [sum(1 for score in keys if p(score))] *)
Fixpoint count_keys_where (p : string -> Exc bool) (keys : list string) : Exc Z :=
  match keys with
  | [] => Ok 0%Z
  | score :: rest =>
      b <- p score ;;
      s <- count_keys_where p rest ;;
      Ok (if b then (1 + s)%Z else s)
  end.

(** [sum(count for score, count in items if p(score))] *)
Fixpoint sum_counts_where (p : string -> Exc bool) (items : list (string * Z))
    : Exc Z :=
  match items with
  | [] => Ok 0%Z
  | (score, count) :: rest =>
      b <- p score ;;
      s <- sum_counts_where p rest ;;
      Ok (if b then (count + s)%Z else s)
  end.

(** [sum(count for key, count in d.items() if p(key))] for a test that
    cannot raise. *)
Definition sum_counts_if {K : Type} (p : K -> bool) (d : dict K Z) : Z :=
  Zsum (map snd (filter (fun kv => p (fst kv)) (dict_items d))).

(** [all(int(g) > 0 for g in pieces)]: [all] stops at the first piece that
    fails the test, so the pieces after it are not converted. *)
Fixpoint all_positive (pieces : list string) : Exc bool :=
  match pieces with
  | [] => Ok true
  | g :: rest =>
      z <- py_int g ;;
      if (z >? 0)%Z then all_positive rest else Ok false
  end.

(** [x > 2.5] for an integer [x]: Python compares the two numbers exactly. *)
Definition gt_2_5 (x : Z) : bool :=
  negb (QArith_base.Qle_bool (QArith_base.inject_Z x) (QArith_base.Qmake 5 2)).

Definition high_scoring {F : Type} (results : Results F) : Exc Z :=
  count_keys_where (fun score => t <- score_total score ;; Ok (t >=? 4)%Z)
    (dict_keys (score_counts (tally results))).

Definition low_scoring {F : Type} (results : Results F) : Exc Z :=
  count_keys_where (fun score => t <- score_total score ;; Ok (t <=? 1)%Z)
    (dict_keys (score_counts (tally results))).

Definition home_2plus {F : Type} (results : Results F) : Z :=
  sum_counts_if (fun goals => (goals >=? 2)%Z) (home_goal_counts (tally results)).

Definition away_2plus {F : Type} (results : Results F) : Z :=
  sum_counts_if (fun goals => (goals >=? 2)%Z) (away_goal_counts (tally results)).

Definition both_score {F : Type} (results : Results F) : Exc Z :=
  sum_counts_where (fun score => all_positive (py_split "-" score))
    (dict_items (score_counts (tally results))).

Definition over_2_5 {F : Type} (results : Results F) : Exc Z :=
  sum_counts_where (fun score => t <- score_total score ;; Ok (gt_2_5 t))
    (dict_items (score_counts (tally results))).

(** A run of two trials that both end 2-2. *)
Definition sample_draws64 : Results float :=
  Eval vm_compute in
    match run_simulations count_poisson_64 nosim64 teamA64 teamB64 2 false
            [2; 2; 2; 2]%nat with
    | Ok (r, _, _) => r
    | Raise _ =>
        mkResults "" "" "" 0 empty_tally 0%float 0%float 0%float 0%float
          0%float []
    end.

(** ** The Match object after a call of [simulate]

    [simulate] mutates the object: lines 83-85 assign home_goals, away_goals
    and played, in this order.  When the call raises, the assignments not yet
    reached are not made: an error while the expected goals are computed, or
    in the first draw, leaves the object as it was, and an error in the second
    draw leaves it with the new home_goals only. *)
Definition simulate_leaves {F : Type} `{PyFloat F} {Rng : Type}
    (poisson : F -> Rng -> Exc (Z * Rng)) (self : Match F) (rng : Rng)
    : Match F :=
  match simulate_expected_goals self with
  | Raise _ => self
  | Ok (expected_home_goals, expected_away_goals) =>
      match poisson expected_home_goals rng with
      | Raise _ => self
      | Ok (hg, rng) =>
          match poisson expected_away_goals rng with
          | Raise _ =>
              {| home_team := home_team self;
                 away_team := away_team self;
                 home_goals := hg;
                 away_goals := away_goals self;
                 played := played self;
                 neutral_venue := neutral_venue self;
                 home_advantage_factor := home_advantage_factor self |}
          | Ok (ag, _) =>
              {| home_team := home_team self;
                 away_team := away_team self;
                 home_goals := hg;
                 away_goals := ag;
                 played := true;
                 neutral_venue := neutral_venue self;
                 home_advantage_factor := home_advantage_factor self |}
          end
      end
  end.

Definition team_zero_defence64 : Team float :=
  mkTeam "Team D" "2024-2025" 1.8%float 1%float 0%float.

(** ** The means that NumPy's sampler rejects

    [np.random.poisson] raises [ValueError] for a mean that is negative or
    NaN and for a mean that is too large (above about 9.2e18, infinity
    included), and raises nothing else when it is given a float.  The mean
    [-0.0] is not below zero and is accepted. *)
Definition mean_rejected (lam : float) : bool :=
  PrimFloat.ltb lam 0%float || negb (PrimFloat.eqb lam lam)
  || PrimFloat.eqb lam infinity.

Definition sampler_like_numpy {Rng : Type}
    (poisson : float -> Rng -> Exc (Z * Rng)) : Prop :=
  forall (lam : float) (g : Rng),
    (mean_rejected lam = true -> poisson lam g = Raise ValueError) /\
    (forall e : PyError, poisson lam g = Raise e -> e = ValueError).

(** A generator that replays a tape of draws and rejects the means that
    NumPy rejects. *)
Definition numpy_poisson_64 (lam : float) (tape : list Z) : Exc (Z * list Z) :=
  if mean_rejected lam || PrimFloat.ltb 9.223372006484771e18%float lam
  then Raise ValueError
  else match tape with
       | [] => Ok (0%Z, [])
       | k :: rest => Ok (k, rest)
       end.

(** * Properties *)

(** ** Division over the reals *)

Lemma pydiv_R_ok (x y : R) : y <> 0%R -> pydiv x y = Ok (x / y)%R.
Proof.
  intros Hy. unfold pydiv. cbn. unfold Req_zero.
  destruct (Req_dec_T y 0) as [E | _]; [contradiction | reflexivity].
Qed.

Lemma pydiv_R_zero (x y : R) : y = 0%R -> pydiv x y = Raise ZeroDivisionError.
Proof.
  intros Hy. unfold pydiv. cbn. unfold Req_zero.
  destruct (Req_dec_T y 0) as [_ | N]; [reflexivity | contradiction].
Qed.

Lemma pydiv_R_cases (x y : R) :
  (y = 0%R /\ pydiv x y = Raise ZeroDivisionError) \/
  (y <> 0%R /\ pydiv x y = Ok (x / y)%R).
Proof.
  destruct (Req_dec_T y 0) as [E | N].
  - left. split; [assumption | now apply pydiv_R_zero].
  - right. split; [assumption | now apply pydiv_R_ok].
Qed.

Lemma lit_1_2_nonzero : (12 / 10 <> 0)%R.
Proof. lra. Qed.

Lemma scaled_down_zero (d : R) : (d / (12 / 10) = 0 <-> d = 0)%R.
Proof. split; intros E; lra. Qed.

Lemma scaled_up_zero (d : R) : (d * (12 / 10) = 0 <-> d = 0)%R.
Proof. split; intros E; lra. Qed.

(** ** [calculate_expected_goals] over the reals *)

Lemma calculate_expected_goals_R (team opponent : Team R) (is_home neutral : bool) :
  defensive_efficiency opponent <> 0%R ->
  calculate_expected_goals team opponent is_home neutral
  = Ok (expected_goals_value team opponent is_home neutral).
Proof.
  intros Hd. unfold calculate_expected_goals, expected_goals_value.
  destruct neutral, is_home; cbn [negb bind fmul lit_1_2 PyFloat_R].
  - now apply pydiv_R_ok.
  - now apply pydiv_R_ok.
  - rewrite (pydiv_R_ok _ lit_1_2_nonzero). cbn [bind].
    apply pydiv_R_ok. rewrite scaled_down_zero. assumption.
  - rewrite (pydiv_R_ok _ lit_1_2_nonzero). cbn [bind fmul PyFloat_R].
    apply pydiv_R_ok. rewrite scaled_up_zero. assumption.
Qed.

Lemma calculate_expected_goals_R_zero (team opponent : Team R) (is_home neutral : bool) :
  defensive_efficiency opponent = 0%R ->
  calculate_expected_goals team opponent is_home neutral = Raise ZeroDivisionError.
Proof.
  intros Hd. unfold calculate_expected_goals.
  destruct neutral, is_home; cbn [negb bind fmul lit_1_2 PyFloat_R].
  - now apply pydiv_R_zero.
  - now apply pydiv_R_zero.
  - rewrite (pydiv_R_ok _ lit_1_2_nonzero). cbn [bind].
    apply pydiv_R_zero. rewrite scaled_down_zero. assumption.
  - rewrite (pydiv_R_ok _ lit_1_2_nonzero). cbn [bind fmul PyFloat_R].
    apply pydiv_R_zero. rewrite scaled_up_zero. assumption.
Qed.

(** ** [Match.simulate] against [calculate_expected_goals] *)

Lemma simulate_expected_goals_R (home away : Team R) (neutral : bool) :
  defensive_efficiency home <> 0%R ->
  defensive_efficiency away <> 0%R ->
  simulate_expected_goals (Match_init home away neutral)
  = Ok (expected_goals_value home away true neutral,
        expected_goals_value away home false neutral).
Proof.
  intros Hh Ha. unfold simulate_expected_goals, expected_goals_value.
  destruct neutral;
    cbn [Match_init negb bind fmul of_int lit_1_0 lit_1_2 PyFloat_R
         home_team away_team neutral_venue home_advantage_factor].
  - rewrite (pydiv_R_ok _ Ha). cbn [bind].
    rewrite (pydiv_R_ok _ Hh). cbn [bind].
    do 2 f_equal. field. assumption.
  - rewrite (pydiv_R_ok 1 lit_1_2_nonzero). cbn [bind].
    rewrite pydiv_R_ok by (intros E; apply Ha; lra). cbn [bind].
    rewrite (pydiv_R_ok _ lit_1_2_nonzero). cbn [bind].
    rewrite pydiv_R_ok by (intros E; apply Hh; lra). cbn [bind].
    do 2 f_equal. field. assumption.
Qed.

Lemma simulate_expected_goals_R_zero (home away : Team R) (neutral : bool) :
  defensive_efficiency home = 0%R \/ defensive_efficiency away = 0%R ->
  simulate_expected_goals (Match_init home away neutral)
  = Raise ZeroDivisionError.
Proof.
  intros Hz. unfold simulate_expected_goals.
  destruct neutral;
    cbn [Match_init negb bind fmul of_int lit_1_0 lit_1_2 PyFloat_R
         home_team away_team neutral_venue home_advantage_factor].
  - destruct (pydiv_R_cases
                (avg_xg_for home * 1 * xg_efficiency home)
                (defensive_efficiency away)) as [[_ E] | [Na E]];
      rewrite E; cbn [bind]; [reflexivity |].
    destruct Hz as [Hz | Hz]; [| contradiction].
    now rewrite (pydiv_R_zero _ Hz).
  - rewrite (pydiv_R_ok 1 lit_1_2_nonzero). cbn [bind].
    destruct (pydiv_R_cases
                (avg_xg_for home * (12 / 10) * xg_efficiency home)
                (defensive_efficiency away * (1 / (12 / 10))))
      as [[_ E] | [Na E]]; rewrite E; cbn [bind]; [reflexivity |].
    rewrite (pydiv_R_ok _ lit_1_2_nonzero). cbn [bind].
    destruct Hz as [Hz | Hz].
    + rewrite pydiv_R_zero by (rewrite Hz; lra). reflexivity.
    + exfalso. apply Na. rewrite Hz. lra.
Qed.

(** The inline computation of [Match.simulate] is the pair of calls of
    [calculate_expected_goals], for all teams, failing ones included. *)
Lemma simulate_expected_goals_refines (home away : Team R) (neutral : bool) :
  simulate_expected_goals (Match_init home away neutral)
  = (lh <- calculate_expected_goals home away true neutral ;;
     la <- calculate_expected_goals away home false neutral ;;
     Ok (lh, la)).
Proof.
  destruct (Req_dec_T (defensive_efficiency away) 0) as [Ea | Na].
  - rewrite simulate_expected_goals_R_zero by now right.
    now rewrite (calculate_expected_goals_R_zero home away true neutral Ea).
  - rewrite (calculate_expected_goals_R home away true neutral Na). cbn [bind].
    destruct (Req_dec_T (defensive_efficiency home) 0) as [Eh | Nh].
    + rewrite simulate_expected_goals_R_zero by now left.
      now rewrite (calculate_expected_goals_R_zero away home false neutral Eh).
    + rewrite (calculate_expected_goals_R away home false neutral Nh).
      now apply simulate_expected_goals_R.
Qed.

(** ** The two paths in any arithmetic *)

Section Paths.
Context {F : Type} `{PyFloat F}.

(** Lines 52-80 of [Match.simulate] and the two calls of
    [calculate_expected_goals] perform the same operations except in two
    places: at a neutral venue [simulate] multiplies the home side's
    avg_xg_for by the factor 1.0 (line 56), and at a non-neutral venue it
    multiplies the away side's defensive efficiency by [1 / 1.2] (line 63)
    where [calculate_expected_goals] divides it by 1.2 (line 330).  When these
    two operations give what [calculate_expected_goals] computes, the two
    paths agree, failures included. *)
Lemma simulate_expected_goals_calc (home away : Team F) (neutral : bool) :
  (neutral = true -> fmul (avg_xg_for home) lit_1_0 = avg_xg_for home) ->
  (neutral = false ->
   fmul (defensive_efficiency away) (fquot (of_int 1) lit_1_2)
   = fquot (defensive_efficiency away) lit_1_2) ->
  simulate_expected_goals (Match_init home away neutral)
  = (lh <- calculate_expected_goals home away true neutral ;;
     la <- calculate_expected_goals away home false neutral ;;
     Ok (lh, la)).
Proof.
  intros H1 H2.
  unfold simulate_expected_goals, calculate_expected_goals.
  destruct neutral;
    cbn [Match_init home_team away_team neutral_venue home_advantage_factor
         negb bind].
  - rewrite (H1 eq_refl).
    destruct (pydiv _ (defensive_efficiency away)); cbn [bind]; reflexivity.
  - specialize (H2 eq_refl).
    destruct (fis_zero lit_1_2) eqn:Z12.
    + assert (P : forall x : F, pydiv x lit_1_2 = Raise ZeroDivisionError)
        by (intros x; unfold pydiv; now rewrite Z12).
      rewrite !P. reflexivity.
    + assert (P : forall x : F, pydiv x lit_1_2 = Ok (fquot x lit_1_2))
        by (intros x; unfold pydiv; now rewrite Z12).
      rewrite !P. cbn [bind]. rewrite H2.
      destruct (pydiv _ (fquot (defensive_efficiency away) lit_1_2));
        cbn [bind]; reflexivity.
Qed.

(** The away side's value is computed by the same operations on both paths,
    whatever the arithmetic. *)
Lemma simulate_away_value_calc (home away : Team F) (neutral : bool) (lh la : F) :
  simulate_expected_goals (Match_init home away neutral) = Ok (lh, la) ->
  calculate_expected_goals away home false neutral = Ok la.
Proof.
  unfold simulate_expected_goals, calculate_expected_goals.
  destruct neutral;
    cbn [Match_init home_team away_team neutral_venue home_advantage_factor
         negb bind].
  - destruct (pydiv _ (defensive_efficiency away)); cbn [bind]; [| discriminate].
    destruct (pydiv _ (defensive_efficiency home)); cbn [bind]; [| discriminate].
    intros E. now injection E as _ ->.
  - destruct (pydiv (of_int 1) lit_1_2); cbn [bind]; [| discriminate].
    destruct (pydiv _ (fmul (defensive_efficiency away) _)); cbn [bind];
      [| discriminate].
    destruct (pydiv (avg_xg_for away) lit_1_2); cbn [bind]; [| discriminate].
    destruct (pydiv _ (fmul (defensive_efficiency home) lit_1_2)); cbn [bind];
      [| discriminate].
    intros E. now injection E as _ ->.
Qed.

End Paths.

(** ** Binary64: multiplying by 1.0, and the doubles equal to zero *)

Lemma float_eqb_zero (x : float) :
  PrimFloat.eqb x 0%float = true -> x = 0%float \/ x = (-0)%float.
Proof.
  rewrite FloatAxioms.eqb_spec. intros E.
  rewrite <- (SF2Prim_Prim2SF x).
  change (Prim2SF 0%float) with (S754_zero false) in E.
  destruct (Prim2SF x) as [s | s | | s m e]; cbn in E; try discriminate.
  - destruct s; [right | left]; reflexivity.
  - destruct s; discriminate.
  - destruct s; discriminate.
Qed.

Lemma iter_shr_52 (m : positive) :
  iter_pos shr_1 52
    {| shr_m := Zpos (4503599627370496 * m); shr_r := false; shr_s := false |}
  = {| shr_m := Zpos m; shr_r := false; shr_s := false |}.
Proof. reflexivity. Qed.

Lemma digits_shift_52 (m : positive) :
  Zpos (digits2_pos (4503599627370496 * m)) = (Zpos (digits2_pos m) + 52)%Z.
Proof.
  cbn [Pos.mul digits2_pos]. rewrite !Pos2Z.inj_succ. lia.
Qed.

(** The product of a double with 1.0 = 2^52 * 2^-52: the mantissa is shifted
    left by 52 bits and rounding shifts it back without loss. *)
Lemma SFmul_one (x : spec_float) :
  valid_binary x = true ->
  SF64mul x (S754_finite false 4503599627370496 (-52)) = x.
Proof.
  intros V. destruct x as [s | s | | s m e]; cbn [SF64mul SFmul].
  - now destruct s.
  - now destruct s.
  - reflexivity.
  - unfold SF64mul, SFmul.
    cbn [SpecFloat.valid_binary] in V. unfold bounded, canonical_mantissa in V.
    apply andb_true_iff in V as [C B]. apply Z.eqb_eq in C.
    rewrite Pos.mul_comm.
    unfold binary_round_aux, shr_fexp. cbn [Zdigits2 shr_record_of_loc].
    rewrite digits_shift_52.
    replace (Zpos (digits2_pos m) + 52 + (e + -52))%Z
      with (Zpos (digits2_pos m) + e)%Z by lia.
    rewrite C.
    replace (e - (e + -52))%Z with 52%Z by lia.
    cbn [shr]. rewrite iter_shr_52.
    cbn [shr_m loc_of_shr_record round_nearest_even Zdigits2 shr_record_of_loc].
    replace (e + -52 + 52)%Z with e by lia.
    rewrite C, Z.sub_diag. cbn [shr shr_m]. rewrite B.
    now destruct s.
Qed.

(** In binary64 [x * 1.0] is [x], for every double. *)
Lemma float_mul_one (x : float) : PrimFloat.mul x 1%float = x.
Proof.
  apply Prim2SF_inj. rewrite FloatAxioms.mul_spec.
  change (Prim2SF 1%float) with (S754_finite false 4503599627370496 (-52)).
  apply SFmul_one, Prim2SF_valid.
Qed.

(** C1 (amended): in exact arithmetic the expected goals that
    [Match.simulate] computes inline are those of
    [calculate_expected_goals] for (home, away, is_home=True) and (away,
    home, is_home=False), for all profiles and either venue flag, and for
    valid profiles the computation succeeds.  In binary64 the two paths
    return the same doubles at a neutral venue, and at a non-neutral venue
    whenever the away side's defensive_efficiency multiplied by the double
    [1 / 1.2] equals that defensive_efficiency divided by 1.2; the away
    side's value is the same double on both paths in every case. *)
Theorem simulate_expected_goals_agree :
  (forall (home away : Team R) (neutral : bool),
     simulate_expected_goals (Match_init home away neutral)
     = (lh <- calculate_expected_goals home away true neutral ;;
        la <- calculate_expected_goals away home false neutral ;;
        Ok (lh, la)) /\
     (valid_team home -> valid_team away ->
      exists lh la : R,
        simulate_expected_goals (Match_init home away neutral) = Ok (lh, la))) /\
  (forall (home away : Team float) (neutral : bool),
     (neutral = false ->
      PrimFloat.mul (defensive_efficiency away) (PrimFloat.div 1 1.2)
      = PrimFloat.div (defensive_efficiency away) 1.2) ->
     simulate_expected_goals (Match_init home away neutral)
     = (lh <- calculate_expected_goals home away true neutral ;;
        la <- calculate_expected_goals away home false neutral ;;
        Ok (lh, la))) /\
  (forall (home away : Team float) (neutral : bool) (lh la : float),
     simulate_expected_goals (Match_init home away neutral) = Ok (lh, la) ->
     calculate_expected_goals away home false neutral = Ok la).
Proof.
  split; [| split].
  - intros home away neutral. split.
    + apply simulate_expected_goals_calc; intros _;
        cbn [fmul fquot of_int lit_1_0 lit_1_2 PyFloat_R]; field.
    + intros (_ & _ & Hh) (_ & _ & Ha). eexists. eexists.
      apply simulate_expected_goals_R; lra.
  - intros home away neutral H2.
    apply simulate_expected_goals_calc; [intros _ | exact H2].
    apply float_mul_one.
  - intros home away neutral lh la. apply simulate_away_value_calc.
Qed.

Lemma valid_teamA : valid_team teamA.
Proof. unfold valid_team, teamA; cbn. lra. Qed.

Lemma valid_teamB : valid_team teamB.
Proof. unfold valid_team, teamB; cbn. lra. Qed.

Lemma simulate_expected_goals_agree_witness :
  (false = false ->
   PrimFloat.mul (defensive_efficiency (team64 1.12 1.05 0.88))
     (PrimFloat.div 1 1.2)
   = PrimFloat.div (defensive_efficiency (team64 1.12 1.05 0.88)) 1.2) /\
  simulate_expected_goals
    (Match_init (team64 1.37 0.93 1.07) (team64 1.12 1.05 0.88) false)
  = (lh <- calculate_expected_goals
             (team64 1.37 0.93 1.07) (team64 1.12 1.05 0.88) true false ;;
     la <- calculate_expected_goals
             (team64 1.12 1.05 0.88) (team64 1.37 0.93 1.07) false false ;;
     Ok (lh, la)).
Proof.
  assert (H2 : false = false ->
               PrimFloat.mul (defensive_efficiency (team64 1.12 1.05 0.88))
                 (PrimFloat.div 1 1.2)
               = PrimFloat.div (defensive_efficiency (team64 1.12 1.05 0.88)) 1.2)
    by (intros _; vm_compute; reflexivity).
  split; [exact H2 |].
  exact (proj1 (proj2 simulate_expected_goals_agree)
           (team64 1.37 0.93 1.07) (team64 1.12 1.05 0.88) false H2).
Defined.

(** In binary64 the two paths give the same doubles on the sample teams. *)
Example binary64_paths_agree_on_sample :
  simulate_expected_goals (Match_init teamA64 teamB64 false)
  = (lh <- calculate_expected_goals teamA64 teamB64 true false ;;
     la <- calculate_expected_goals teamB64 teamA64 false false ;;
     Ok (lh, la)).
Proof. vm_compute. reflexivity. Qed.

(** ** The concrete scenario *)

(** C2: with avg_xg_for = 1.8, xg_efficiency = 1.0 and defensive_efficiency
    = 1.0 for both teams, in a non-neutral match the home value is 2.592 and
    the away value is 1.25: exactly so over the reals, and in binary64 the
    results are the doubles nearest to 2.592 and 1.25. *)
Theorem expected_goals_scenario :
  calculate_expected_goals teamA teamB true false = Ok 2.592%R /\
  calculate_expected_goals teamB teamA false false = Ok 1.25%R /\
  calculate_expected_goals teamA64 teamB64 true false = Ok 2.592%float /\
  calculate_expected_goals teamB64 teamA64 false false = Ok 1.25%float.
Proof.
  split; [| split; [| split]].
  - rewrite calculate_expected_goals_R by (cbn; lra).
    f_equal. unfold expected_goals_value; cbn. lra.
  - rewrite calculate_expected_goals_R by (cbn; lra).
    f_equal. unfold expected_goals_value; cbn. lra.
  - vm_compute. reflexivity.
  - vm_compute. reflexivity.
Qed.

(** ** Monotonicity and home advantage *)

Lemma quot_mono_num (x x' y : R) : (0 < y -> x <= x' -> x / y <= x' / y)%R.
Proof.
  intros Hy Hx. unfold Rdiv.
  apply Rmult_le_compat_r; [| assumption].
  left. now apply Rinv_0_lt_compat.
Qed.

Lemma quot_strict_num (x x' y : R) : (0 < y -> x < x' -> x / y < x' / y)%R.
Proof.
  intros Hy Hx. unfold Rdiv.
  apply Rmult_lt_compat_r; [| assumption].
  now apply Rinv_0_lt_compat.
Qed.

Lemma quot_anti_den (x y y' : R) :
  (0 <= x -> 0 < y -> y <= y' -> x / y' <= x / y)%R.
Proof.
  intros Hx Hy Hyy. unfold Rdiv.
  apply Rmult_le_compat_l; [assumption |].
  now apply Rinv_le_contravar.
Qed.

Lemma quot_strict_den (x y y' : R) :
  (0 < x -> 0 < y -> y < y' -> x / y' < x / y)%R.
Proof.
  intros Hx Hy Hyy. unfold Rdiv.
  apply Rmult_lt_compat_l; [assumption |].
  now apply Rinv_lt_contravar; [nra |].
Qed.








(** With avg_xg_for = 0, which the claim admits, the home and the away value
    are both 0, so the home value does not strictly exceed the away one;
    binary64 returns 0.0 for both as well. *)
Lemma home_advantage_not_strict_at_zero :
  (0 <= avg_xg_for team_no_chances)%R /\
  (0 < xg_efficiency team_no_chances)%R /\
  (0 < defensive_efficiency teamB)%R /\
  (exists x_home x_away : R,
     calculate_expected_goals team_no_chances teamB true false = Ok x_home /\
     calculate_expected_goals team_no_chances teamB false false = Ok x_away /\
     ~ (x_away < x_home)%R) /\
  calculate_expected_goals team_no_chances64 teamB64 true false = Ok 0%float /\
  calculate_expected_goals team_no_chances64 teamB64 false false = Ok 0%float.
Proof.
  split; [cbn; lra |]. split; [cbn; lra |]. split; [cbn; lra |].
  split; [| split; vm_compute; reflexivity].
  exists 0%R, 0%R. split; [| split].
  - rewrite calculate_expected_goals_R by (cbn; lra).
    f_equal. unfold expected_goals_value; cbn. lra.
  - rewrite calculate_expected_goals_R by (cbn; lra).
    f_equal. unfold expected_goals_value; cbn. lra.
  - lra.
Qed.

Lemma expected_goals_value_home_gt_away (team opp : Team R) :
  (0 < avg_xg_for team)%R -> (0 < xg_efficiency team)%R ->
  (0 < defensive_efficiency opp)%R ->
  (expected_goals_value team opp false false
   < expected_goals_value team opp true false)%R.
Proof.
  intros Ha He Hd. unfold expected_goals_value.
  apply Rlt_trans with
    (avg_xg_for team * (12 / 10) * xg_efficiency team
       / (defensive_efficiency opp * (12 / 10)))%R.
  - apply quot_strict_num; nra.
  - apply quot_strict_den; nra.
Qed.

(** C8 (amended): in exact arithmetic, for avg_xg_for > 0, xg_efficiency > 0
    and an opponent with defensive_efficiency > 0, at a non-neutral venue the
    value computed with is_home=True strictly exceeds the value computed with
    is_home=False. *)
Theorem home_advantage_strict (team opp : Team R) :
  (0 < avg_xg_for team)%R ->
  (0 < xg_efficiency team)%R ->
  (0 < defensive_efficiency opp)%R ->
  exists x_home x_away : R,
    calculate_expected_goals team opp true false = Ok x_home /\
    calculate_expected_goals team opp false false = Ok x_away /\
    (x_away < x_home)%R.
Proof.
  intros Ha He Hd.
  assert (Nd : defensive_efficiency opp <> 0%R) by lra.
  exists (expected_goals_value team opp true false),
         (expected_goals_value team opp false false).
  split; [| split].
  - now apply calculate_expected_goals_R.
  - now apply calculate_expected_goals_R.
  - now apply expected_goals_value_home_gt_away.
Qed.

Lemma home_advantage_strict_witness :
  exists x_home x_away : R,
    calculate_expected_goals teamA teamB true false = Ok x_home /\
    calculate_expected_goals teamA teamB false false = Ok x_away /\
    (x_away < x_home)%R.
Proof.
  apply (@home_advantage_strict teamA teamB); cbn; lra.
Defined.

(** In binary64 the two values can coincide for positive statistics, when
    the computation underflows or overflows: with avg_xg_for = 2^-1074 both
    are 2^-1074, with avg_xg_for = xg_efficiency = 1e-200 both are 0, and with
    avg_xg_for = 1e308 and xg_efficiency = 1e10 both are infinity. *)
Example home_advantage_lost_in_binary64 :
  forallb (fun x => PrimFloat.ltb 0 x && PrimFloat.ltb x infinity)
    [0x1p-1074; 1e-200; 1e308; 1e10; 1]%float = true /\
  calculate_expected_goals (team64 0x1p-1074 1 1) (team64 1 1 1) true false
  = Ok 0x1p-1074%float /\
  calculate_expected_goals (team64 0x1p-1074 1 1) (team64 1 1 1) false false
  = Ok 0x1p-1074%float /\
  calculate_expected_goals (team64 1e-200 1e-200 1) (team64 1 1 1) true false
  = Ok 0%float /\
  calculate_expected_goals (team64 1e-200 1e-200 1) (team64 1 1 1) false false
  = Ok 0%float /\
  calculate_expected_goals (team64 1e308 1e10 1) (team64 1 1 1) true false
  = Ok infinity /\
  calculate_expected_goals (team64 1e308 1e10 1) (team64 1 1 1) false false
  = Ok infinity.
Proof. repeat split; vm_compute; reflexivity. Qed.

(** With avg_xg_for >= 0 the comparison holds in the weak sense. *)
Lemma home_advantage_weak (team opp : Team R) :
  (0 <= avg_xg_for team)%R ->
  (0 < xg_efficiency team)%R ->
  (0 < defensive_efficiency opp)%R ->
  (expected_goals_value team opp false false
   <= expected_goals_value team opp true false)%R.
Proof.
  intros Ha He Hd. unfold expected_goals_value.
  apply Rle_trans with
    (avg_xg_for team * (12 / 10) * xg_efficiency team
       / (defensive_efficiency opp * (12 / 10)))%R.
  - apply quot_mono_num; nra.
  - apply quot_anti_den; nra.
Qed.

(** ** [Match.get_result] *)

Section GetResult.
Context {F : Type} `{PyFloat F}.
Variable Rng : Type.
Variable poisson : F -> Rng -> Exc (Z * Rng).

Lemma get_result_unplayed (m : Match F) :
  played m = false -> get_result m = Raise ValueError.
Proof. intros E. unfold get_result. now rewrite E. Qed.

Lemma simulate_inv (m m' : Match F) (rng rng' : Rng) :
  simulate poisson m rng = Ok (m', rng') ->
  played m' = true /\ home_team m' = home_team m /\ away_team m' = away_team m /\
  exists (lh la : F) (rng1 : Rng),
    simulate_expected_goals m = Ok (lh, la) /\
    poisson lh rng = Ok (home_goals m', rng1) /\
    poisson la rng1 = Ok (away_goals m', rng').
Proof.
  unfold simulate.
  destruct (simulate_expected_goals m) as [[lh la] | e]; cbn [bind];
    [| discriminate].
  destruct (poisson lh rng) as [[hg rng1] | e] eqn:E1; cbn [bind];
    [| discriminate].
  destruct (poisson la rng1) as [[ag rng2] | e] eqn:E2; cbn [bind];
    [| discriminate].
  intros E. injection E as <- <-. cbn.
  repeat split. exists lh, la, rng1. repeat split; assumption.
Qed.

Lemma get_result_of_played (m : Match F) :
  played m = true ->
  get_result m
  = Ok {| mr_home_team := get_display_name (home_team m);
          mr_away_team := get_display_name (away_team m);
          mr_home_goals := home_goals m;
          mr_away_goals := away_goals m;
          mr_result :=
            if (home_goals m >? away_goals m)%Z then "Home Win"
            else if (away_goals m >? home_goals m)%Z then "Away Win"
            else "Draw";
          mr_score_line :=
            (str_int (home_goals m) ++ "-" ++ str_int (away_goals m))%string |}.
Proof. intros E. unfold get_result. now rewrite E. Qed.

Lemma simulate_leaves_returned (m m' : Match F) (rng rng' : Rng) :
  simulate poisson m rng = Ok (m', rng') -> simulate_leaves poisson m rng = m'.
Proof.
  unfold simulate, simulate_leaves.
  destruct (simulate_expected_goals m) as [[lh la] | e]; cbn [bind];
    [| discriminate].
  destruct (poisson lh rng) as [[hg rng1] | e]; cbn [bind]; [| discriminate].
  destruct (poisson la rng1) as [[ag rng2] | e]; cbn [bind]; [| discriminate].
  intros E. now injection E as <- _.
Qed.

Lemma simulate_leaves_raised (m : Match F) (rng : Rng) (e : PyError) :
  simulate poisson m rng = Raise e ->
  played (simulate_leaves poisson m rng) = played m.
Proof.
  unfold simulate, simulate_leaves.
  destruct (simulate_expected_goals m) as [[lh la] | e0]; cbn [bind];
    [| reflexivity].
  destruct (poisson lh rng) as [[hg rng1] | e1]; cbn [bind]; [| reflexivity].
  destruct (poisson la rng1) as [[ag rng2] | e2]; cbn [bind];
    [discriminate | reflexivity].
Qed.

(** C10 (amended): [get_result] on a match as constructed (also after
    [set_neutral_venue]) raises [ValueError]; on the match that a call of
    [simulate] returns, which is the state the call leaves the object in, it
    succeeds, and its 'result' field is 'Home Win' exactly when home_goals >
    away_goals, 'Away Win' exactly when away_goals > home_goals, and 'Draw'
    exactly when neither holds.  A call of [simulate] that raises leaves
    played as it was, so on a match not played before [get_result] still
    raises [ValueError]. *)
Theorem get_result_played :
  (forall (home away : Team F) (neutral : bool),
     get_result (Match_init home away neutral) = Raise ValueError /\
     forall b : bool,
       get_result (set_neutral_venue (Match_init home away neutral) b)
       = Raise ValueError) /\
  (forall (m m' : Match F) (rng rng' : Rng),
     simulate poisson m rng = Ok (m', rng') ->
     exists r : MatchResult,
       get_result m' = Ok r /\
       mr_home_goals r = home_goals m' /\
       mr_away_goals r = away_goals m' /\
       (mr_result r = "Home Win"%string
        <-> (home_goals m' > away_goals m')%Z) /\
       (mr_result r = "Away Win"%string
        <-> (away_goals m' > home_goals m')%Z) /\
       (mr_result r = "Draw"%string
        <-> ~ (home_goals m' > away_goals m')%Z /\
            ~ (away_goals m' > home_goals m')%Z)) /\
  (forall (m m' : Match F) (rng rng' : Rng),
     simulate poisson m rng = Ok (m', rng') ->
     simulate_leaves poisson m rng = m') /\
  (forall (m : Match F) (rng : Rng) (e : PyError),
     simulate poisson m rng = Raise e ->
     played (simulate_leaves poisson m rng) = played m /\
     (played m = false ->
      get_result (simulate_leaves poisson m rng) = Raise ValueError)).
Proof.
  split; [| split; [| split]].
  - intros home away neutral. split; [reflexivity | intros b; reflexivity].
  - intros m m' rng rng' Hsim.
    destruct (simulate_inv _ _ Hsim) as (Hp & _).
    eexists. split; [now apply get_result_of_played |].
    cbn [mr_home_goals mr_away_goals mr_result].
    split; [reflexivity |]. split; [reflexivity |].
    destruct (Z.gtb_spec (home_goals m') (away_goals m')) as [G | G];
      [| destruct (Z.gtb_spec (away_goals m') (home_goals m')) as [G' | G']].
    + repeat split; intros; try discriminate; try lia; tauto.
    + repeat split; intros; try discriminate; try lia; tauto.
    + repeat split; intros; try discriminate; try lia; tauto.
  - intros m m' rng rng'. apply simulate_leaves_returned.
  - intros m rng e Hsim.
    pose proof (simulate_leaves_raised _ _ Hsim) as Hp.
    split; [exact Hp |]. intros Hm.
    apply get_result_unplayed. now rewrite Hp.
Qed.

End GetResult.

Lemma get_result_played_witness :
  simulate tape_poisson_64 (Match_init teamA64 teamB64 false) [2; 1]%Z
  = Ok (played_match64, []) /\
  exists r : MatchResult,
    get_result played_match64 = Ok r /\
    mr_home_goals r = home_goals played_match64 /\
    mr_away_goals r = away_goals played_match64 /\
    (mr_result r = "Home Win"%string
     <-> (home_goals played_match64 > away_goals played_match64)%Z) /\
    (mr_result r = "Away Win"%string
     <-> (away_goals played_match64 > home_goals played_match64)%Z) /\
    (mr_result r = "Draw"%string
     <-> ~ (home_goals played_match64 > away_goals played_match64)%Z /\
         ~ (away_goals played_match64 > home_goals played_match64)%Z).
Proof.
  assert (E : simulate tape_poisson_64 (Match_init teamA64 teamB64 false)
                [2; 1]%Z = Ok (played_match64, []))
    by (vm_compute; reflexivity).
  split; [exact E |].
  exact (proj1 (proj2 (get_result_played tape_poisson_64)) _ _ _ _ E).
Defined.

(** A call of [simulate] that raises does not set played.  Against a
    defensive efficiency of 0 the call raises [ZeroDivisionError] at line 64,
    and against a defensive efficiency of -1 the first mean is negative and
    the sampler raises [ValueError] at line 83; in both cases [get_result]
    on the object still raises [ValueError]. *)
Lemma get_result_after_failed_simulate :
  simulate tape_poisson_64 (Match_init teamA64 team_zero_defence64 false) [2; 1]%Z
  = Raise ZeroDivisionError /\
  get_result
    (simulate_leaves tape_poisson_64
       (Match_init teamA64 team_zero_defence64 false) [2; 1]%Z)
  = Raise ValueError /\
  simulate tape_poisson_64 (Match_init teamA64 team_neg_defence64 false) [2; 1]%Z
  = Raise ValueError /\
  get_result
    (simulate_leaves tape_poisson_64
       (Match_init teamA64 team_neg_defence64 false) [2; 1]%Z)
  = Raise ValueError.
Proof. repeat split; vm_compute; reflexivity. Qed.

(** ** Counting over the trials *)

Lemma dict_total_set {K : Type} (keq : K -> K -> bool) (d : dict K Z) (k : K) (v : Z) :
  dict_total (dict_set keq d k v) = (dict_total d - dict_get keq d k 0 + v)%Z.
Proof.
  unfold dict_total, dict_values.
  induction d as [| [k' v'] rest IH]; cbn.
  - lia.
  - destruct (keq k' k); cbn; [lia |].
    fold (dict_values rest) in *. lia.
Qed.

Lemma dict_total_incr {K : Type} (keq : K -> K -> bool) (d : dict K Z) (k : K) :
  dict_total (dict_incr keq d k) = (dict_total d + 1)%Z.
Proof. unfold dict_incr. rewrite dict_total_set. lia. Qed.

Lemma empty_tally_counts : tally_counts empty_tally 0.
Proof. repeat split. Qed.

Lemma record_result_counts (t : Tally) (mr : MatchResult) (n : Z) :
  tally_counts t n -> tally_counts (record_result t mr) (n + 1).
Proof.
  intros (Ho & Hs & Hh & Ha). unfold tally_counts, outcomes, record_result in *.
  destruct (String.eqb (mr_result mr) "Home Win");
    [| destruct (String.eqb (mr_result mr) "Away Win")];
    cbn [home_wins away_wins draws score_counts home_goal_counts away_goal_counts];
    rewrite !dict_total_incr; lia.
Qed.

Section Counting.
Context {F : Type} `{PyFloat F}.
Variable Rng : Type.
Variable poisson : F -> Rng -> Exc (Z * Rng).

Lemma trial_counts (home away : Team F) (neutral : bool)
    (t t' : Tally) (rng rng' : Rng) (n : Z) :
  trial poisson home away neutral (t, rng) = Ok (t', rng') ->
  tally_counts t n -> tally_counts t' (n + 1).
Proof.
  unfold trial.
  destruct (simulate poisson (Match_init home away neutral) rng)
    as [[m g] | e]; cbn [bind]; [| discriminate].
  destruct (get_result m) as [mr | e]; cbn [bind]; [| discriminate].
  intros E. injection E as <- <-. apply record_result_counts.
Qed.

Lemma for_range_trial_counts (home away : Team F) (neutral : bool) (k : nat) :
  forall (t t' : Tally) (rng rng' : Rng) (n : Z),
    for_range k (trial poisson home away neutral) (t, rng) = Ok (t', rng') ->
    tally_counts t n -> tally_counts t' (n + Z.of_nat k).
Proof.
  induction k as [| k IH]; intros t t' rng rng' n Hrun Hn.
  - cbn in Hrun. injection Hrun as <- <-. now rewrite Z.add_0_r.
  - cbn [for_range] in Hrun.
    destruct (trial poisson home away neutral (t, rng)) as [[t1 rng1] | e] eqn:E;
      cbn [bind] in Hrun; [| discriminate].
    replace (n + Z.of_nat (S k))%Z with ((n + 1) + Z.of_nat k)%Z by lia.
    eapply IH; [exact Hrun |].
    eapply trial_counts; eassumption.
Qed.

(** Whatever the float arithmetic and the draws: a result that
    [run_simulations] returns for [n >= 0] has counters that add up to [n]. *)
Lemma run_simulations_counts_any (sim sim' : MatchSimulator F)
    (home away : Team F) (n : Z) (neutral : bool) (rng rng' : Rng)
    (r : Results F) :
  (0 <= n)%Z ->
  run_simulations poisson sim home away n neutral rng = Ok (r, sim', rng') ->
  num_simulations r = n /\ tally_counts (tally r) n.
Proof.
  intros Hn. unfold run_simulations.
  destruct (for_range (Z.to_nat n) (trial poisson home away neutral)
              (empty_tally, rng)) as [[t g] | e] eqn:Hloop;
    cbn [bind]; [| discriminate].
  destruct (pydiv _ _); cbn [bind]; [| discriminate].
  destruct (pydiv _ _); cbn [bind]; [| discriminate].
  destruct (pydiv _ _); cbn [bind]; [| discriminate].
  destruct (pydiv _ _); cbn [bind]; [| discriminate].
  destruct (pydiv _ _); cbn [bind]; [| discriminate].
  destruct (most_common _ _); cbn [bind]; [| discriminate].
  intros E. injection E as <- _ _. cbn [num_simulations tally].
  split; [reflexivity |].
  pose proof (for_range_trial_counts _ _ _ _ _ Hloop empty_tally_counts) as Hc.
  now rewrite Z2Nat.id in Hc by assumption.
Qed.

End Counting.

(** ** [run_simulations] over the reals *)

Lemma map_exc_ok {A B : Type} (f : A -> Exc B) (g : A -> B) (l : list A) :
  (forall x, In x l -> f x = Ok (g x)) -> map_exc f l = Ok (map g l).
Proof.
  induction l as [| x rest IH]; intros Hf; cbn.
  - reflexivity.
  - rewrite (Hf x) by now left. cbn [bind].
    rewrite IH by (intros y Hy; apply Hf; now right). reflexivity.
Qed.

Lemma most_common_R (sc : dict string Z) (n : Z) :
  n <> 0%Z ->
  most_common sc n
  = Ok (firstn 10 (sorted_desc (@count R) (score_entries n sc))).
Proof.
  intros Hn. unfold most_common, score_entries.
  rewrite map_exc_ok with
    (g := fun kv : string * Z =>
            {| score := fst kv; count := snd kv;
               prob := (IZR (snd kv) / IZR n)%R |}).
  - reflexivity.
  - intros [k v] _. cbn [of_int PyFloat_R fst snd].
    rewrite pydiv_R_ok by now apply not_0_IZR. reflexivity.
Qed.

Lemma expected_goals_value_pos (team opp : Team R) (ih nv : bool) :
  (0 < avg_xg_for team)%R -> (0 < xg_efficiency team)%R ->
  (0 < defensive_efficiency opp)%R ->
  (0 < expected_goals_value team opp ih nv)%R.
Proof.
  intros Ha He Hd. unfold expected_goals_value.
  destruct nv, ih; apply Rdiv_lt_0_compat; nra.
Qed.

Section RunR.
Variable Rng : Type.
Variable poisson : R -> Rng -> Exc (Z * Rng).

Lemma simulate_total (home away : Team R) (neutral : bool) (rng : Rng) :
  sampler_total poisson -> valid_team home -> valid_team away ->
  exists (m : Match R) (rng' : Rng),
    simulate poisson (Match_init home away neutral) rng = Ok (m, rng') /\
    played m = true.
Proof.
  intros Hp (Hha & Hhe & Hhd) (Haa & Hae & Had). unfold simulate.
  rewrite simulate_expected_goals_R by lra. cbn [bind].
  destruct (Hp (expected_goals_value home away true neutral) rng)
    as (hg & g1 & E1);
    [left; now apply expected_goals_value_pos |].
  rewrite E1. cbn [bind].
  destruct (Hp (expected_goals_value away home false neutral) g1)
    as (ag & g2 & E2);
    [left; now apply expected_goals_value_pos |].
  rewrite E2. cbn [bind].
  eexists. eexists. split; reflexivity.
Qed.

Lemma trial_total (home away : Team R) (neutral : bool) (t : Tally) (rng : Rng) :
  sampler_total poisson -> valid_team home -> valid_team away ->
  exists (t' : Tally) (rng' : Rng),
    trial poisson home away neutral (t, rng) = Ok (t', rng').
Proof.
  intros Hp Hh Ha. unfold trial.
  destruct (simulate_total neutral rng Hp Hh Ha) as (m & g & E & Hpl).
  rewrite E. cbn [bind].
  rewrite (get_result_of_played m Hpl). cbn [bind].
  eexists. eexists. reflexivity.
Qed.

Lemma for_range_trial_total (home away : Team R) (neutral : bool) (k : nat) :
  sampler_total poisson -> valid_team home -> valid_team away ->
  forall (t : Tally) (rng : Rng),
  exists (t' : Tally) (rng' : Rng),
    for_range k (trial poisson home away neutral) (t, rng) = Ok (t', rng').
Proof.
  intros Hp Hh Ha. induction k as [| k IH]; intros t rng.
  - exists t, rng. reflexivity.
  - cbn [for_range].
    destruct (trial_total neutral t rng Hp Hh Ha) as (t1 & g1 & E).
    rewrite E. cbn [bind]. apply IH.
Qed.

(** Lines 197-213 once the loop has returned, for a trial count other
    than zero. *)
Lemma run_simulations_finish (sim : MatchSimulator R) (home away : Team R)
    (n : Z) (neutral : bool) (rng rng' : Rng) (t : Tally) :
  n <> 0%Z ->
  for_range (Z.to_nat n) (trial poisson home away neutral) (empty_tally, rng)
  = Ok (t, rng') ->
  exists r : Results R,
    run_simulations poisson sim home away n neutral rng
    = Ok (r, {| last_simulation_results := Some r |}, rng') /\
    num_simulations r = n /\
    tally r = t /\
    avg_home_goals r = (IZR (total_home_goals t) / IZR n)%R /\
    avg_away_goals r = (IZR (total_away_goals t) / IZR n)%R /\
    home_win_prob r = (IZR (home_wins t) / IZR n)%R /\
    away_win_prob r = (IZR (away_wins t) / IZR n)%R /\
    draw_prob r = (IZR (draws t) / IZR n)%R /\
    most_common_scores r
    = firstn 10 (sorted_desc (@count R) (score_entries n (score_counts t))).
Proof.
  intros Hn Hloop. unfold run_simulations. rewrite Hloop. cbn [bind of_int PyFloat_R].
  assert (Nn : IZR n <> 0%R) by now apply not_0_IZR.
  rewrite !(pydiv_R_ok _ Nn). cbn [bind].
  rewrite (most_common_R _ Hn). cbn [bind].
  eexists. split; [reflexivity |].
  cbn. repeat split.
Qed.

(** C3: for valid profiles, either venue flag and n >= 1 trials, whatever
    the sampler draws, [run_simulations] returns a result in which
    home_wins + away_wins + draws = n, the values of score_counts sum to n,
    and the values of home_goal_counts and of away_goal_counts each sum to
    n. *)
Theorem run_simulations_counts (sim : MatchSimulator R) (home away : Team R)
    (n : Z) (neutral : bool) (rng : Rng) :
  sampler_total poisson ->
  valid_team home -> valid_team away ->
  (1 <= n)%Z ->
  exists (r : Results R) (sim' : MatchSimulator R) (rng' : Rng),
    run_simulations poisson sim home away n neutral rng = Ok (r, sim', rng') /\
    num_simulations r = n /\
    (home_wins (tally r) + away_wins (tally r) + draws (tally r))%Z = n /\
    dict_total (score_counts (tally r)) = n /\
    dict_total (home_goal_counts (tally r)) = n /\
    dict_total (away_goal_counts (tally r)) = n.
Proof.
  intros Hp Hh Ha Hn.
  destruct (for_range_trial_total neutral (Z.to_nat n) Hp Hh Ha empty_tally rng)
    as (t & g & Hloop).
  destruct (@run_simulations_finish sim home away n neutral rng g t)
    as (r & Hrun & _); [lia | assumption |].
  exists r, {| last_simulation_results := Some r |}, g.
  split; [exact Hrun |].
  assert (H0 : (0 <= n)%Z) by lia.
  destruct (@run_simulations_counts_any R _ Rng poisson sim _ home away n
              neutral rng g r H0 Hrun) as (Hnum & Ho & Hs & Hhg & Hag).
  repeat split; assumption.
Qed.

End RunR.

Lemma tape_poisson_R_ok (lam : R) (tape : list Z) :
  (0 <= lam)%R ->
  tape_poisson_R lam tape = Ok (hd 0%Z tape, tl tape).
Proof.
  intros Hl. unfold tape_poisson_R.
  destruct (Rlt_dec lam 0) as [L | _]; [lra |].
  now destruct tape.
Qed.

Lemma tape_poisson_R_total : sampler_total tape_poisson_R.
Proof.
  intros lam g Hl. exists (hd 0%Z g), (tl g). now apply tape_poisson_R_ok.
Qed.

Lemma tape_poisson_R_rejects : sampler_rejects_negative tape_poisson_R.
Proof.
  intros lam g Hl. exists ValueError. unfold tape_poisson_R.
  destruct (Rlt_dec lam 0) as [_ | N]; [reflexivity | contradiction].
Qed.

Lemma run_simulations_counts_witness :
  sampler_total tape_poisson_R /\
  valid_team teamA /\ valid_team teamB /\ (1 <= 3)%Z /\
  exists (r : Results R) (sim' : MatchSimulator R) (rng' : list Z),
    run_simulations tape_poisson_R nosim teamA teamB 3 false
      [2; 1; 0; 0; 1; 3]%Z = Ok (r, sim', rng') /\
    num_simulations r = 3%Z /\
    (home_wins (tally r) + away_wins (tally r) + draws (tally r))%Z = 3%Z /\
    dict_total (score_counts (tally r)) = 3%Z /\
    dict_total (home_goal_counts (tally r)) = 3%Z /\
    dict_total (away_goal_counts (tally r)) = 3%Z.
Proof.
  assert (H3 : (1 <= 3)%Z) by lia.
  split; [exact tape_poisson_R_total |].
  split; [exact valid_teamA |].
  split; [exact valid_teamB |].
  split; [exact H3 |].
  exact (run_simulations_counts nosim false [2; 1; 0; 0; 1; 3]%Z
           tape_poisson_R_total valid_teamA valid_teamB H3).
Defined.

(** The same run in binary64, evaluated. *)
Example run_simulations_binary64_sample :
  exists (r : Results float) (sim' : MatchSimulator float),
    run_simulations tape_poisson_64 nosim64 teamA64 teamB64 3 false
      [2; 1; 0; 0; 1; 3]%Z = Ok (r, sim', []) /\
    (home_wins (tally r), away_wins (tally r), draws (tally r))
    = (1, 1, 1)%Z /\
    score_counts (tally r)
    = [("2-1"%string, 1%Z); ("0-0"%string, 1%Z); ("1-3"%string, 1%Z)] /\
    home_goal_counts (tally r) = [(2, 1); (0, 1); (1, 1)]%Z /\
    away_goal_counts (tally r) = [(1, 1); (0, 1); (3, 1)]%Z.
Proof.
  eexists. eexists. split; [vm_compute; reflexivity |].
  cbn. repeat split.
Qed.

(** ** Trial counts below one *)

Lemma to_nat_nonpos (n : Z) : (n <= 0)%Z -> Z.to_nat n = 0%nat.
Proof. intros Hn. destruct n; [reflexivity | lia | reflexivity]. Qed.

Section InvalidInput.
Variable Rng : Type.
Variable poisson : R -> Rng -> Exc (Z * Rng).

Lemma run_simulations_zero_trials (sim : MatchSimulator R) (home away : Team R)
    (neutral : bool) (rng : Rng) :
  run_simulations poisson sim home away 0 neutral rng = Raise ZeroDivisionError.
Proof.
  unfold run_simulations. cbn [Z.to_nat for_range bind of_int PyFloat_R].
  now rewrite pydiv_R_zero.
Qed.

Lemma run_simulations_negative_trials (sim : MatchSimulator R)
    (home away : Team R) (n : Z) (neutral : bool) (rng : Rng) :
  (n < 0)%Z ->
  exists r : Results R,
    run_simulations poisson sim home away n neutral rng
    = Ok (r, {| last_simulation_results := Some r |}, rng) /\
    num_simulations r = n /\
    tally r = empty_tally /\
    most_common_scores r = [].
Proof.
  intros Hn.
  destruct (@run_simulations_finish Rng poisson sim home away n neutral rng rng
              empty_tally) as (r & Hrun & Hnum & Ht & _ & _ & _ & _ & _ & Hm).
  - lia.
  - now rewrite to_nat_nonpos by lia.
  - exists r. repeat split; assumption.
Qed.

(** C4 (amended): [run_simulations] does not check the trial count.  With
    n = 0 the loop body never runs and the first division by n, when the
    averages are computed, raises [ZeroDivisionError], so no result is
    returned.  With n < 0 the loop body never runs either and a result is
    returned: its counters are all zero, its dictionaries are empty and
    most_common_scores is empty; the generator is left untouched. *)
Theorem run_simulations_trial_count_unchecked (sim : MatchSimulator R)
    (home away : Team R) (neutral : bool) (rng : Rng) :
  run_simulations poisson sim home away 0 neutral rng = Raise ZeroDivisionError /\
  forall n : Z, (n < 0)%Z ->
    exists r : Results R,
      run_simulations poisson sim home away n neutral rng
      = Ok (r, {| last_simulation_results := Some r |}, rng) /\
      num_simulations r = n /\
      tally r = empty_tally /\
      most_common_scores r = [].
Proof.
  split.
  - apply run_simulations_zero_trials.
  - intros n Hn. now apply run_simulations_negative_trials.
Qed.

End InvalidInput.

(** A call with num_simulations = -1 returns a result. *)
Lemma run_simulations_accepts_negative_count :
  (-1 < 1)%Z /\
  (exists (r : Results R) (sim' : MatchSimulator R) (rng' : list Z),
     run_simulations tape_poisson_R nosim teamA teamB (-1) false [2; 1]%Z
     = Ok (r, sim', rng')) /\
  (exists (r : Results float) (sim' : MatchSimulator float) (rng' : list Z),
     run_simulations tape_poisson_64 nosim64 teamA64 teamB64 (-1) false [2; 1]%Z
     = Ok (r, sim', rng')).
Proof.
  split; [lia |]. split.
  - destruct (@run_simulations_negative_trials (list Z) tape_poisson_R nosim
                teamA teamB (-1) false [2; 1]%Z) as (r & Hrun & _); [lia |].
    exists r, {| last_simulation_results := Some r |}, [2; 1]%Z. exact Hrun.
  - eexists. eexists. eexists. vm_compute. reflexivity.
Qed.

Lemma run_simulations_trial_count_unchecked_witness :
  run_simulations tape_poisson_R nosim teamA teamB 0 false [2; 1]%Z
  = Raise ZeroDivisionError /\
  (-5 < 0)%Z /\
  exists r : Results R,
    run_simulations tape_poisson_R nosim teamA teamB (-5) false [2; 1]%Z
    = Ok (r, {| last_simulation_results := Some r |}, [2; 1]%Z) /\
    num_simulations r = (-5)%Z /\
    tally r = empty_tally /\
    most_common_scores r = [].
Proof.
  assert (H5 : (-5 < 0)%Z) by lia.
  pose proof (run_simulations_trial_count_unchecked tape_poisson_R nosim
                teamA teamB false [2; 1]%Z) as [H0 Hneg].
  split; [exact H0 |]. split; [exact H5 |].
  exact (Hneg (-5)%Z H5).
Defined.

Example run_simulations_zero_trials_binary64 :
  run_simulations tape_poisson_64 nosim64 teamA64 teamB64 0 false [2; 1]%Z
  = Raise ZeroDivisionError.
Proof. vm_compute. reflexivity. Qed.

(** ** Defensive efficiency at or below zero *)

Lemma quot_pos_neg (x y : R) : (0 < x -> y < 0 -> x / y < 0)%R.
Proof.
  intros Hx Hy. unfold Rdiv.
  assert (Hi : (/ y < 0)%R) by now apply Rinv_lt_0_compat.
  nra.
Qed.

Lemma expected_goals_value_neg (team opp : Team R) (ih nv : bool) :
  (0 < avg_xg_for team)%R -> (0 < xg_efficiency team)%R ->
  (defensive_efficiency opp < 0)%R ->
  (expected_goals_value team opp ih nv < 0)%R.
Proof.
  intros Ha He Hd. unfold expected_goals_value.
  destruct nv, ih; apply quot_pos_neg; nra.
Qed.

Section InvalidDefence.
Variable Rng : Type.
Variable poisson : R -> Rng -> Exc (Z * Rng).

Lemma for_range_first_raises {St : Type} (body : St -> Exc St) (s : St)
    (e : PyError) (k : nat) :
  body s = Raise e -> for_range (S k) body s = Raise e.
Proof. intros E. cbn [for_range]. now rewrite E. Qed.

Lemma run_simulations_first_trial_raises (sim : MatchSimulator R)
    (home away : Team R) (n : Z) (neutral : bool) (rng : Rng) (e : PyError) :
  (1 <= n)%Z ->
  simulate poisson (Match_init home away neutral) rng = Raise e ->
  run_simulations poisson sim home away n neutral rng = Raise e.
Proof.
  intros Hn Hsim. unfold run_simulations.
  destruct (Z.to_nat n) as [| k] eqn:Ek; [lia |].
  rewrite for_range_first_raises with (e := e); [reflexivity |].
  unfold trial. now rewrite Hsim.
Qed.

Lemma simulate_zero_defence (home away : Team R) (neutral : bool) (rng : Rng) :
  defensive_efficiency home = 0%R \/ defensive_efficiency away = 0%R ->
  simulate poisson (Match_init home away neutral) rng = Raise ZeroDivisionError.
Proof.
  intros Hz. unfold simulate.
  now rewrite simulate_expected_goals_R_zero.
Qed.

Lemma simulate_negative_defence (home away : Team R) (neutral : bool) (rng : Rng) :
  sampler_rejects_negative poisson ->
  (defensive_efficiency away < 0 /\ 0 < avg_xg_for home /\ 0 < xg_efficiency home)%R
  \/ (defensive_efficiency home < 0 /\ 0 < avg_xg_for away /\ 0 < xg_efficiency away)%R ->
  exists e : PyError,
    simulate poisson (Match_init home away neutral) rng = Raise e.
Proof.
  intros Hrej Hneg.
  destruct (Req_dec_T (defensive_efficiency home) 0) as [Zh | Nh];
    [exists ZeroDivisionError; apply simulate_zero_defence; now left |].
  destruct (Req_dec_T (defensive_efficiency away) 0) as [Za | Na];
    [exists ZeroDivisionError; apply simulate_zero_defence; now right |].
  unfold simulate. rewrite simulate_expected_goals_R by assumption.
  cbn [bind].
  destruct Hneg as [(Hd & Ha & He) | (Hd & Ha & He)].
  - destruct (Hrej (expected_goals_value home away true neutral) rng) as (e & E);
      [now apply expected_goals_value_neg |].
    exists e. now rewrite E.
  - destruct (poisson (expected_goals_value home away true neutral) rng)
      as [[hg g1] | e1]; cbn [bind]; [| now exists e1].
    destruct (Hrej (expected_goals_value away home false neutral) g1) as (e & E);
      [now apply expected_goals_value_neg |].
    exists e. now rewrite E.
Qed.

(** Over the reals, with n >= 1 trials: a defensive_efficiency of 0 makes
    [run_simulations] raise [ZeroDivisionError] whatever the sampler, and a
    negative one attacked with avg_xg_for > 0 and xg_efficiency > 0 gives a
    negative mean, which a sampler that rejects negative means refuses. *)
Lemma run_simulations_invalid_defence_exact (sim : MatchSimulator R)
    (home away : Team R) (n : Z) (neutral : bool) (rng : Rng) :
  (1 <= n)%Z ->
  (defensive_efficiency home = 0%R \/ defensive_efficiency away = 0%R ->
   run_simulations poisson sim home away n neutral rng
   = Raise ZeroDivisionError) /\
  (sampler_rejects_negative poisson ->
   (defensive_efficiency away < 0 /\ 0 < avg_xg_for home /\ 0 < xg_efficiency home)%R
   \/ (defensive_efficiency home < 0 /\ 0 < avg_xg_for away /\ 0 < xg_efficiency away)%R ->
   exists e : PyError,
     run_simulations poisson sim home away n neutral rng = Raise e).
Proof.
  intros Hn. split.
  - intros Hz. apply run_simulations_first_trial_raises; [assumption |].
    now apply simulate_zero_defence.
  - intros Hrej Hneg.
    destruct (@simulate_negative_defence home away neutral rng Hrej Hneg)
      as (e & E).
    exists e. now apply run_simulations_first_trial_raises.
Qed.

End InvalidDefence.

Lemma trial_tape_R (home away : Team R) (neutral : bool) (t : Tally)
    (tape : list Z) :
  defensive_efficiency home <> 0%R ->
  defensive_efficiency away <> 0%R ->
  (0 <= expected_goals_value home away true neutral)%R ->
  (0 <= expected_goals_value away home false neutral)%R ->
  exists t' : Tally,
    trial tape_poisson_R home away neutral (t, tape) = Ok (t', tl (tl tape)).
Proof.
  intros Nh Na Lh La. unfold trial, simulate.
  rewrite simulate_expected_goals_R by assumption. cbn [bind].
  rewrite (tape_poisson_R_ok _ Lh). cbn [bind].
  rewrite (tape_poisson_R_ok _ La). cbn [bind].
  rewrite get_result_of_played by reflexivity. cbn [bind].
  eexists. reflexivity.
Qed.

Lemma run_simulations_once_tape_R (home away : Team R) (neutral : bool)
    (tape : list Z) :
  defensive_efficiency home <> 0%R ->
  defensive_efficiency away <> 0%R ->
  (0 <= expected_goals_value home away true neutral)%R ->
  (0 <= expected_goals_value away home false neutral)%R ->
  exists (r : Results R) (sim' : MatchSimulator R) (rng' : list Z),
    run_simulations tape_poisson_R nosim home away 1 neutral tape
    = Ok (r, sim', rng').
Proof.
  intros Nh Na Lh La.
  destruct (@trial_tape_R home away neutral empty_tally tape Nh Na Lh La)
    as (t & Ht).
  destruct (@run_simulations_finish (list Z) tape_poisson_R nosim
              home away 1 neutral tape (tl (tl tape)) t)
    as (r & Hrun & _); [lia | |].
  - change (Z.to_nat 1) with 1%nat. cbn [for_range]. now rewrite Ht.
  - exists r, {| last_simulation_results := Some r |}, (tl (tl tape)).
    exact Hrun.
Qed.

(** The home side has defensive_efficiency = -1 and the away side
    xg_efficiency = -1: both means are positive (2.592 and 1.25), the sampler
    is given nothing to reject, and the call returns a result. *)
Lemma run_simulations_accepts_negative_defence :
  (defensive_efficiency team_neg_defence <= 0)%R /\
  (exists (r : Results R) (sim' : MatchSimulator R) (rng' : list Z),
     run_simulations tape_poisson_R nosim team_neg_defence team_neg_efficiency
       1 false [2; 0]%Z = Ok (r, sim', rng')) /\
  (exists (r : Results float) (sim' : MatchSimulator float) (rng' : list Z),
     run_simulations tape_poisson_64 nosim64 team_neg_defence64
       team_neg_efficiency64 1 false [2; 0]%Z = Ok (r, sim', rng')) /\
  simulate_expected_goals
    (Match_init team_neg_defence64 team_neg_efficiency64 false)
  = Ok (2.592, 1.25)%float.
Proof.
  split; [cbn; lra |]. split; [| split].
  - apply run_simulations_once_tape_R;
      unfold expected_goals_value; cbn; lra.
  - eexists. eexists. eexists. vm_compute. reflexivity.
  - vm_compute. reflexivity.
Qed.

(** Likewise when the away side creates no chances (avg_xg_for = 0): the
    away mean is 0 (-0.0 in binary64), which is not below zero. *)
Example run_simulations_negative_defence_no_chances :
  (exists (r : Results R) (sim' : MatchSimulator R) (rng' : list Z),
     run_simulations tape_poisson_R nosim team_neg_defence team_no_chances
       1 false [2; 0]%Z = Ok (r, sim', rng')) /\
  (exists (r : Results float) (sim' : MatchSimulator float) (rng' : list Z),
     run_simulations tape_poisson_64 nosim64 team_neg_defence64
       team_no_chances64 1 false [2; 0]%Z = Ok (r, sim', rng')).
Proof.
  split.
  - apply run_simulations_once_tape_R;
      unfold expected_goals_value; cbn; lra.
  - eexists. eexists. eexists. vm_compute. reflexivity.
Qed.

(** In binary64 a negative defensive efficiency attacked with positive
    statistics need not give a negative mean: with avg_xg_for =
    xg_efficiency = 1e-200 the product underflows to 0 and the mean is -0.0,
    which the sampler accepts, so a result is returned. *)
Example run_simulations_negative_defence_underflow :
  simulate_expected_goals
    (Match_init (team64 1e-200 1e-200 1) (team64 1.8 1 (-1)) false)
  = Ok ((-0)%float, 1.25%float) /\
  mean_rejected (-0)%float = false /\
  exists (r : Results float) (sim' : MatchSimulator float) (rng' : list Z),
    run_simulations numpy_poisson_64 nosim64
      (team64 1e-200 1e-200 1) (team64 1.8 1 (-1)) 1 false [0; 1]%Z
    = Ok (r, sim', rng').
Proof.
  split; [vm_compute; reflexivity |]. split; [vm_compute; reflexivity |].
  eexists. eexists. eexists. vm_compute. reflexivity.
Qed.

(** ** Failures in the first trial *)

Section FirstTrial.
Context {F : Type} `{PyFloat F}.
Variable Rng : Type.
Variable poisson : F -> Rng -> Exc (Z * Rng).

Lemma run_simulations_first_raise (sim : MatchSimulator F)
    (home away : Team F) (n : Z) (neutral : bool) (rng : Rng) (e : PyError) :
  (1 <= n)%Z ->
  simulate poisson (Match_init home away neutral) rng = Raise e ->
  run_simulations poisson sim home away n neutral rng = Raise e.
Proof.
  intros Hn Hsim. unfold run_simulations.
  destruct (Z.to_nat n) as [| k] eqn:Ek; [lia |].
  cbn [for_range]. unfold trial at 1. rewrite Hsim. reflexivity.
Qed.

End FirstTrial.

(** A double that compares equal to zero is 0.0 or -0.0, and the divisors
    that [Match.simulate] derives from it are zero as well. *)
Lemma pydiv_cases {F : Type} `{PyFloat F} (x y : F) :
  pydiv x y = Raise ZeroDivisionError \/ pydiv x y = Ok (fquot x y).
Proof. unfold pydiv. destruct (fis_zero y); [now left | now right]. Qed.

Lemma simulate_expected_goals_zero_defence64 (home away : Team float)
    (neutral : bool) :
  fis_zero (defensive_efficiency home) = true
  \/ fis_zero (defensive_efficiency away) = true ->
  simulate_expected_goals (Match_init home away neutral)
  = Raise ZeroDivisionError.
Proof.
  intros Hz. unfold simulate_expected_goals.
  cbn [Match_init home_team away_team neutral_venue home_advantage_factor].
  assert (P : forall x : float,
             pydiv x lit_1_2 = Ok (PrimFloat.div x 1.2%float))
    by (intros x; reflexivity).
  destruct Hz as [Hh | Ha].
  - cbn [fis_zero PyFloat_binary64] in Hh.
    destruct neutral; cbn [negb bind].
    + destruct (pydiv_cases
                  (fmul (fmul (avg_xg_for home) lit_1_0) (xg_efficiency home))
                  (defensive_efficiency away)) as [E | E];
        rewrite E; cbn [bind]; [reflexivity |].
      unfold pydiv. cbn [fis_zero PyFloat_binary64]. now rewrite Hh.
    + rewrite (P (of_int 1)). cbn [bind].
      destruct (pydiv_cases
                  (fmul (fmul (avg_xg_for home) lit_1_2) (xg_efficiency home))
                  (fmul (defensive_efficiency away)
                     (PrimFloat.div (of_int 1) 1.2%float))) as [E | E];
        rewrite E; cbn [bind]; [reflexivity |].
      rewrite P. cbn [bind].
      apply float_eqb_zero in Hh as [-> | ->]; reflexivity.
  - cbn [fis_zero PyFloat_binary64] in Ha.
    destruct neutral; cbn [negb bind].
    + unfold pydiv. cbn [fis_zero PyFloat_binary64]. now rewrite Ha.
    + rewrite (P (of_int 1)). cbn [bind].
      apply float_eqb_zero in Ha as [-> | ->]; reflexivity.
Qed.

Lemma numpy_poisson_64_like_numpy : sampler_like_numpy numpy_poisson_64.
Proof.
  intros lam g. unfold numpy_poisson_64. split.
  - intros Hr. now rewrite Hr.
  - intros e. destruct (_ || _).
    + intros E. now injection E as <-.
    + destruct g; discriminate.
Qed.

Section InvalidDefence64.
Variable Rng : Type.
Variable poisson : float -> Rng -> Exc (Z * Rng).

(** C5 (amended): [run_simulations] does not look at the profiles before
    the trials start.  In binary64 and with n >= 1 trials, if either team's
    defensive_efficiency is zero (0.0 or -0.0) the call raises
    [ZeroDivisionError] while the expected goals of the first trial are
    computed, whatever the sampler does; otherwise, when one of the two
    means computed for the first trial is negative, NaN or infinite and the
    sampler rejects such means as NumPy's does, the call raises [ValueError]
    at the draw.  In both cases no result is returned. *)
Theorem run_simulations_invalid_defence (sim : MatchSimulator float)
    (home away : Team float) (n : Z) (neutral : bool) (rng : Rng) :
  (1 <= n)%Z ->
  (fis_zero (defensive_efficiency home) = true
   \/ fis_zero (defensive_efficiency away) = true ->
   run_simulations poisson sim home away n neutral rng
   = Raise ZeroDivisionError) /\
  (sampler_like_numpy poisson ->
   forall lh la : float,
     simulate_expected_goals (Match_init home away neutral) = Ok (lh, la) ->
     mean_rejected lh = true \/ mean_rejected la = true ->
     run_simulations poisson sim home away n neutral rng = Raise ValueError).
Proof.
  intros Hn. split.
  - intros Hz. apply run_simulations_first_raise; [assumption |].
    unfold simulate.
    now rewrite simulate_expected_goals_zero_defence64.
  - intros Hnp lh la Hmeans Hrej.
    apply run_simulations_first_raise; [assumption |].
    unfold simulate. rewrite Hmeans. cbn [bind].
    destruct (poisson lh rng) as [[hg g1] | e1] eqn:E1; cbn [bind].
    + destruct Hrej as [Hl | Hl].
      * rewrite (proj1 (Hnp lh rng) Hl) in E1. discriminate.
      * now rewrite (proj1 (Hnp la g1) Hl).
    + now rewrite (proj2 (Hnp lh rng) e1 E1).
Qed.

End InvalidDefence64.

Lemma run_simulations_invalid_defence_witness :
  (1 <= 3)%Z /\
  (fis_zero (defensive_efficiency teamA64) = true
   \/ fis_zero (defensive_efficiency team_zero_defence64) = true) /\
  run_simulations numpy_poisson_64 nosim64 teamA64 team_zero_defence64
    3 false [2; 1]%Z = Raise ZeroDivisionError /\
  sampler_like_numpy numpy_poisson_64 /\
  simulate_expected_goals (Match_init teamA64 team_neg_defence64 false)
  = Ok ((-2.592)%float, 1.25%float) /\
  (mean_rejected (-2.592)%float = true \/ mean_rejected 1.25%float = true) /\
  run_simulations numpy_poisson_64 nosim64 teamA64 team_neg_defence64
    3 false [2; 1]%Z = Raise ValueError /\
  simulate_expected_goals (Match_init teamA64 (team64 1e308 1e10 1) false)
  = Ok (2.592%float, infinity) /\
  (mean_rejected 2.592%float = true \/ mean_rejected infinity = true) /\
  run_simulations numpy_poisson_64 nosim64 teamA64 (team64 1e308 1e10 1)
    3 false [2; 1]%Z = Raise ValueError.
Proof.
  assert (H3 : (1 <= 3)%Z) by lia.
  assert (Hz : fis_zero (defensive_efficiency teamA64) = true
               \/ fis_zero (defensive_efficiency team_zero_defence64) = true)
    by (right; vm_compute; reflexivity).
  assert (Eneg : simulate_expected_goals
                   (Match_init teamA64 team_neg_defence64 false)
                 = Ok ((-2.592)%float, 1.25%float))
    by (vm_compute; reflexivity).
  assert (Rneg : mean_rejected (-2.592)%float = true
                 \/ mean_rejected 1.25%float = true)
    by (left; vm_compute; reflexivity).
  assert (Einf : simulate_expected_goals
                   (Match_init teamA64 (team64 1e308 1e10 1) false)
                 = Ok (2.592%float, infinity))
    by (vm_compute; reflexivity).
  assert (Rinf : mean_rejected 2.592%float = true
                 \/ mean_rejected infinity = true)
    by (right; vm_compute; reflexivity).
  split; [exact H3 |]. split; [exact Hz |].
  split; [exact (proj1 (run_simulations_invalid_defence numpy_poisson_64
                          nosim64 teamA64 team_zero_defence64 false [2; 1]%Z
                          H3) Hz) |].
  split; [exact numpy_poisson_64_like_numpy |].
  split; [exact Eneg |]. split; [exact Rneg |].
  split; [exact (proj2 (run_simulations_invalid_defence numpy_poisson_64
                          nosim64 teamA64 team_neg_defence64 false [2; 1]%Z
                          H3) numpy_poisson_64_like_numpy _ _ Eneg Rneg) |].
  split; [exact Einf |]. split; [exact Rinf |].
  exact (proj2 (run_simulations_invalid_defence numpy_poisson_64
                  nosim64 teamA64 (team64 1e308 1e10 1) false [2; 1]%Z
                  H3) numpy_poisson_64_like_numpy _ _ Einf Rinf).
Defined.

(** ** [predict_score_probability] *)

(** The function passes its goal counts to the mass function unexamined. *)
Lemma predict_score_probability_R (pmf : Z -> R -> R) (home away : Team R)
    (hgoals agoals : Z) (neutral : bool) :
  defensive_efficiency home <> 0%R ->
  defensive_efficiency away <> 0%R ->
  predict_score_probability pmf home away hgoals agoals neutral
  = Ok (pmf hgoals (expected_goals_value home away true neutral)
        * pmf agoals (expected_goals_value away home false neutral))%R.
Proof.
  intros Nh Na. unfold predict_score_probability.
  rewrite (calculate_expected_goals_R home away true neutral Na). cbn [bind].
  rewrite (calculate_expected_goals_R away home false neutral Nh). cbn [bind].
  reflexivity.
Qed.





(** On non-negative goal counts the value is the product of the two
    Poisson masses; the neutral-venue scenario of the sample teams. *)
Example predict_score_probability_scenario :
  predict_score_probability poisson_pmf_R teamA teamB 2 1 true
  = Ok (poisson_pmf_R 2 1.8 * poisson_pmf_R 1 1.8)%R.
Proof.
  rewrite predict_score_probability_R by (cbn; lra).
  unfold expected_goals_value, teamA, teamB.
  cbn [avg_xg_for xg_efficiency defensive_efficiency].
  replace (1.8 * 1 / 1)%R with 1.8%R by lra.
  reflexivity.
Qed.

(** ** The ranking of scorelines *)

Section SortedFacts.
Variables (A : Type) (key : A -> Z).

Lemma insert_desc_perm (x : A) (l : list A) :
  Permutation (x :: l) (insert_desc key x l).
Proof.
  induction l as [| y rest IH]; cbn.
  - reflexivity.
  - destruct (key y <=? key x)%Z; [reflexivity |].
    rewrite perm_swap. now apply perm_skip.
Qed.

Lemma sorted_desc_perm (l : list A) : Permutation l (sorted_desc key l).
Proof.
  induction l as [| x rest IH]; cbn.
  - reflexivity.
  - rewrite <- insert_desc_perm. now apply perm_skip.
Qed.

Lemma sorted_desc_length (l : list A) :
  List.length (sorted_desc key l) = List.length l.
Proof. symmetry. apply Permutation_length, sorted_desc_perm. Qed.

Lemma insert_desc_sorted (x : A) (l : list A) :
  StronglySorted (desc key) l -> StronglySorted (desc key) (insert_desc key x l).
Proof.
  induction l as [| y rest IH]; intros Hs; cbn.
  - constructor; constructor.
  - inversion Hs as [| y' rest' Hrest Hall]; subst.
    destruct (Z.leb_spec (key y) (key x)) as [L | G].
    + constructor; [assumption |].
      constructor; [exact L |].
      eapply Forall_impl; [| exact Hall].
      intros z Hz. unfold desc in *. lia.
    + constructor; [now apply IH |].
      eapply Permutation_Forall; [apply insert_desc_perm |].
      constructor; [unfold desc; lia | assumption].
Qed.

Lemma sorted_desc_sorted (l : list A) : StronglySorted (desc key) (sorted_desc key l).
Proof.
  induction l as [| x rest IH]; cbn.
  - constructor.
  - now apply insert_desc_sorted.
Qed.

Lemma insert_desc_with_key (c : Z) (x : A) (l : list A) :
  with_key key c (insert_desc key x l) = with_key key c (x :: l).
Proof.
  unfold with_key. induction l as [| y rest IH]; cbn.
  - reflexivity.
  - destruct (Z.leb_spec (key y) (key x)) as [L | G]; [reflexivity |].
    cbn in *. rewrite IH.
    destruct (Z.eqb_spec (key x) c) as [Ex | Nx];
      destruct (Z.eqb_spec (key y) c) as [Ey | Ny];
      try reflexivity; lia.
Qed.

(** Stability: elements of equal key keep their order. *)
Lemma sorted_desc_stable (c : Z) (l : list A) :
  with_key key c (sorted_desc key l) = with_key key c l.
Proof.
  induction l as [| x rest IH]; cbn [sorted_desc fold_right].
  - reflexivity.
  - fold (sorted_desc key rest). rewrite insert_desc_with_key.
    unfold with_key in *. cbn. now rewrite IH.
Qed.

Lemma with_key_head (x : A) (l : list A) :
  with_key key (key x) (x :: l) = x :: with_key key (key x) l.
Proof. unfold with_key. cbn. now rewrite Z.eqb_refl. Qed.

Lemma with_key_in (c : Z) (z : A) (l : list A) :
  In z (with_key key c l) -> In z l /\ key z = c.
Proof.
  unfold with_key. rewrite filter_In. intros [Hin E].
  split; [assumption | now apply Z.eqb_eq].
Qed.

(** Descending order and stability determine the result: every stable
    sort into descending key order returns [sorted_desc]. *)
Lemma stable_desc_unique (l1 : list A) :
  forall l2 : list A,
    StronglySorted (desc key) l1 -> StronglySorted (desc key) l2 ->
    (forall c, with_key key c l1 = with_key key c l2) ->
    l1 = l2.
Proof.
  induction l1 as [| x t1 IH]; intros l2 S1 S2 Hk.
  - destruct l2 as [| y t2]; [reflexivity |].
    specialize (Hk (key y)). rewrite with_key_head in Hk. discriminate.
  - destruct l2 as [| y t2].
    + specialize (Hk (key x)). rewrite with_key_head in Hk. discriminate.
    + inversion S1 as [| ? ? S1' F1]; subst.
      inversion S2 as [| ? ? S2' F2]; subst.
      assert (Lyx : (key y <= key x)%Z).
      { pose proof (Hk (key y)) as E. rewrite (with_key_head y) in E.
        assert (Hin : In y (with_key key (key y) (x :: t1)))
          by (rewrite E; now left).
        apply with_key_in in Hin as [[-> | Hin] _]; [lia |].
        rewrite Forall_forall in F1. exact (F1 y Hin). }
      assert (Lxy : (key x <= key y)%Z).
      { pose proof (Hk (key x)) as E. rewrite (with_key_head x) in E.
        assert (Hin : In x (with_key key (key x) (y :: t2)))
          by (rewrite <- E; now left).
        apply with_key_in in Hin as [[-> | Hin] _]; [lia |].
        rewrite Forall_forall in F2. exact (F2 x Hin). }
      assert (Exy : key y = key x) by lia.
      pose proof (Hk (key x)) as E. rewrite with_key_head in E.
      rewrite <- Exy in E at 2. rewrite with_key_head in E.
      injection E as -> Et.
      f_equal. apply IH; [assumption | assumption |].
      intros c. specialize (Hk c). unfold with_key in *. cbn in Hk.
      destruct (key y =? c)%Z; [now injection Hk | exact Hk].
Qed.

Lemma sorted_desc_unique (l l' : list A) :
  StronglySorted (desc key) l' ->
  (forall c, with_key key c l' = with_key key c l) ->
  l' = sorted_desc key l.
Proof.
  intros Hs Hk. apply stable_desc_unique.
  - assumption.
  - apply sorted_desc_sorted.
  - intros c. now rewrite sorted_desc_stable.
Qed.

End SortedFacts.

(** A key that is new goes to the end of the dictionary; a key already
    present keeps its place. *)
Lemma dict_incr_keys {K : Type} (keq : K -> K -> bool) (d : dict K Z) (k : K) :
  dict_keys (dict_incr keq d k)
  = if dict_mem keq d k then dict_keys d else (dict_keys d ++ [k])%list.
Proof.
  unfold dict_incr. generalize (dict_get keq d k 0 + 1)%Z as v.
  unfold dict_keys. induction d as [| [k' v'] rest IH]; intros v; cbn.
  - reflexivity.
  - destruct (keq k' k); cbn; [reflexivity |].
    rewrite IH. now destruct (dict_mem keq rest k).
Qed.

Lemma score_entries_items (n : Z) (sc : dict string Z) :
  map (fun e : ScoreEntry R => (score e, count e)) (score_entries n sc)
  = dict_items sc.
Proof.
  unfold score_entries, dict_items. rewrite map_map. cbn.
  induction sc as [| [k v] rest IH]; cbn; [reflexivity | now rewrite IH].
Qed.

Section Ranking.
Variable Rng : Type.
Variable poisson : R -> Rng -> Exc (Z * Rng).

(** C9: for valid profiles and n >= 1, [run_simulations] returns a result
    whose most_common_scores is the first ten entries of a list [ranked]
    that holds exactly the entries of score_counts (each with its count and
    count / n), is in descending order of count, and keeps entries of equal
    count in the insertion order of the dictionary; when there are at most
    ten distinct scorelines it is that whole list. *)
Theorem most_common_scores_ranked (sim : MatchSimulator R) (home away : Team R)
    (n : Z) (neutral : bool) (rng : Rng) :
  sampler_total poisson ->
  valid_team home -> valid_team away ->
  (1 <= n)%Z ->
  exists (r : Results R) (sim' : MatchSimulator R) (rng' : Rng)
         (ranked : list (ScoreEntry R)),
    run_simulations poisson sim home away n neutral rng = Ok (r, sim', rng') /\
    map (fun e : ScoreEntry R => (score e, count e))
        (score_entries n (score_counts (tally r)))
    = dict_items (score_counts (tally r)) /\
    Permutation (score_entries n (score_counts (tally r))) ranked /\
    StronglySorted (desc (@count R)) ranked /\
    (forall c : Z,
       with_key (@count R) c ranked
       = with_key (@count R) c (score_entries n (score_counts (tally r)))) /\
    most_common_scores r = firstn 10 ranked /\
    (List.length (dict_items (score_counts (tally r))) <= 10 ->
     most_common_scores r = ranked).
Proof.
  intros Hp Hh Ha Hn.
  destruct (for_range_trial_total neutral (Z.to_nat n) Hp Hh Ha empty_tally rng)
    as (t & g & Hloop).
  destruct (@run_simulations_finish Rng poisson sim home away n neutral rng g t)
    as (r & Hrun & _ & Ht & _ & _ & _ & _ & _ & Hm); [lia | assumption |].
  exists r, {| last_simulation_results := Some r |}, g,
         (sorted_desc (@count R) (score_entries n (score_counts (tally r)))).
  rewrite Ht in *.
  split; [exact Hrun |].
  split; [apply score_entries_items |].
  split; [apply sorted_desc_perm |].
  split; [apply sorted_desc_sorted |].
  split; [intros c; apply sorted_desc_stable |].
  split; [exact Hm |].
  intros Hlen. rewrite Hm. apply firstn_all2.
  rewrite sorted_desc_length. unfold score_entries. now rewrite length_map.
Qed.

End Ranking.

Lemma most_common_scores_ranked_witness :
  sampler_total tape_poisson_R /\
  valid_team teamA /\ valid_team teamB /\ (1 <= 4)%Z /\
  exists (r : Results R) (sim' : MatchSimulator R) (rng' : list Z)
         (ranked : list (ScoreEntry R)),
    run_simulations tape_poisson_R nosim teamA teamB 4 false
      [0; 0; 2; 1; 1; 1; 2; 1]%Z = Ok (r, sim', rng') /\
    map (fun e : ScoreEntry R => (score e, count e))
        (score_entries 4 (score_counts (tally r)))
    = dict_items (score_counts (tally r)) /\
    Permutation (score_entries 4 (score_counts (tally r))) ranked /\
    StronglySorted (desc (@count R)) ranked /\
    (forall c : Z,
       with_key (@count R) c ranked
       = with_key (@count R) c (score_entries 4 (score_counts (tally r)))) /\
    most_common_scores r = firstn 10 ranked /\
    (List.length (dict_items (score_counts (tally r))) <= 10 ->
     most_common_scores r = ranked).
Proof.
  assert (H4 : (1 <= 4)%Z) by lia.
  split; [exact tape_poisson_R_total |].
  split; [exact valid_teamA |].
  split; [exact valid_teamB |].
  split; [exact H4 |].
  exact (most_common_scores_ranked nosim false [0; 0; 2; 1; 1; 1; 2; 1]%Z
           tape_poisson_R_total valid_teamA valid_teamB H4).
Defined.

(** Evaluated in binary64: "0-0" and "1-1" tie on one occurrence and stay
    in the order in which they first occurred, behind "2-1". *)
Example most_common_scores_binary64_sample :
  exists (r : Results float) (sim' : MatchSimulator float),
    run_simulations tape_poisson_64 nosim64 teamA64 teamB64 4 false
      [0; 0; 2; 1; 1; 1; 2; 1]%Z = Ok (r, sim', []) /\
    dict_items (score_counts (tally r))
    = [("0-0"%string, 1%Z); ("2-1"%string, 2%Z); ("1-1"%string, 1%Z)] /\
    map (fun e : ScoreEntry float => (score e, count e)) (most_common_scores r)
    = [("2-1"%string, 2%Z); ("0-0"%string, 1%Z); ("1-1"%string, 1%Z)].
Proof.
  eexists. eexists. split; [vm_compute; reflexivity |].
  cbn. split; reflexivity.
Qed.

(** Twelve distinct scorelines: the ranking keeps the first ten. *)
Example most_common_scores_binary64_truncated :
  exists (r : Results float) (sim' : MatchSimulator float),
    run_simulations tape_poisson_64 nosim64 teamA64 teamB64 13 false
      [0; 0; 0; 1; 0; 2; 0; 3; 1; 0; 1; 1; 1; 2; 1; 3; 2; 0; 2; 1; 2; 2;
       2; 3; 2; 3]%Z = Ok (r, sim', []) /\
    List.length (dict_items (score_counts (tally r))) = 12%nat /\
    map (@score float) (most_common_scores r)
    = ["2-3"; "0-0"; "0-1"; "0-2"; "0-3"; "1-0"; "1-1"; "1-2"; "1-3"; "2-0"]%string.
Proof.
  eexists. eexists. split; [vm_compute; reflexivity |].
  cbn. split; reflexivity.
Qed.

(** ** Rounding in binary64

    Over the reals the two paths compared above are the same expression.
    In binary64 [Match.simulate] multiplies the away side's defensive
    efficiency by the rounded quotient [1 / 1.2] where
    [calculate_expected_goals] divides it by [1.2], so the two roundings
    need not agree. *)

(** For every defensive efficiency 0.01, 0.02, ..., 10.00 of the two sides,
    at either venue, both paths return the same doubles. *)
Lemma binary64_paths_agree_on_grid :
  forallb (fun d => paths_agree64 (team64 1.8 1 d) (team64 1.3 0.9 d) false
                    && paths_agree64 (team64 1.8 1 d) (team64 1.3 0.9 d) true)
          stat_grid
  = true.
Proof. vm_compute. reflexivity. Qed.

(** With an away defensive efficiency of 2^-1022, the smallest normal
    double, the quotient by 1.2 is subnormal and the two paths round it
    differently: the home values differ in the last place. *)
Remark binary64_paths_differ_when_subnormal :
  forallb (fun x => PrimFloat.ltb 0 x && PrimFloat.ltb x infinity)
    [1.8; 1; 0x1p-1022]%float = true /\
  PrimFloat.Leibniz.eqb
    (PrimFloat.mul 0x1p-1022 (PrimFloat.div 1 1.2))
    (PrimFloat.div 0x1p-1022 1.2) = false /\
  paths_agree64 (team64 1.8 1 1) (team64 1.8 1 0x1p-1022) false = false /\
  simulate_expected_goals
    (Match_init (team64 1.8 1 1) (team64 1.8 1 0x1p-1022) false)
  = Ok (0x1.4bc6a7ef9db22p+1023, 1.25)%float /\
  calculate_expected_goals (team64 1.8 1 1) (team64 1.8 1 0x1p-1022) true false
  = Ok 0x1.4bc6a7ef9db24p+1023%float.
Proof. repeat split; vm_compute; reflexivity. Qed.


(** * Further properties of the code *)

(** ** The trials as a list of outcomes *)

Lemma get_result_of_goals {F : Type} (m : Match F) :
  played m = true ->
  get_result m
  = Ok (result_of_goals (home_team m) (away_team m) (home_goals m, away_goals m)).
Proof. intros E. unfold get_result. now rewrite E. Qed.

Section Outcomes.
Context {F : Type} `{PyFloat F}.
Variable Rng : Type.
Variable poisson : F -> Rng -> Exc (Z * Rng).

Lemma trial_outcome (home away : Team F) (neutral : bool)
    (t t' : Tally) (rng rng' : Rng) :
  trial poisson home away neutral (t, rng) = Ok (t', rng') <->
  exists m : Match F,
    simulate poisson (Match_init home away neutral) rng = Ok (m, rng') /\
    t' = record_result t (result_of_goals home away (home_goals m, away_goals m)).
Proof.
  unfold trial. split.
  - destruct (simulate poisson (Match_init home away neutral) rng)
      as [[m g] | e] eqn:Hsim; cbn [bind]; [| discriminate].
    destruct (simulate_inv _ _ _ Hsim) as (Hp & Hh & Ha & _).
    rewrite (get_result_of_goals m Hp). cbn [bind].
    intros E. injection E as <- <-. exists m. split; [reflexivity |].
    now rewrite Hh, Ha.
  - intros (m & Hsim & ->). rewrite Hsim. cbn [bind].
    destruct (simulate_inv _ _ _ Hsim) as (Hp & Hh & Ha & _).
    rewrite (get_result_of_goals m Hp). cbn [bind].
    now rewrite Hh, Ha.
Qed.

Lemma for_range_outcomes (home away : Team F) (neutral : bool) (k : nat) :
  forall (t t' : Tally) (rng rng' : Rng),
    for_range k (trial poisson home away neutral) (t, rng) = Ok (t', rng') <->
    exists os : list (Z * Z),
      List.length os = k /\
      played_out poisson home away neutral rng os rng' /\
      t' = fold_left record_result (map (result_of_goals home away) os) t.
Proof.
  induction k as [| k IH]; intros t t' rng rng'; cbn [for_range].
  - split.
    + intros E. injection E as <- <-. exists []. repeat split.
    + intros (os & Hlen & Hplay & ->).
      destruct os; [| discriminate]. cbn in Hplay. now subst.
  - split.
    + destruct (trial poisson home away neutral (t, rng)) as [[t1 g1] | e] eqn:Ht;
        cbn [bind]; [| discriminate].
      intros Hrest. apply IH in Hrest as (os & Hlen & Hplay & ->).
      apply trial_outcome in Ht as (m & Hsim & ->).
      exists ((home_goals m, away_goals m) :: os). split; [cbn; now rewrite Hlen |].
      split; [| reflexivity].
      cbn [played_out]. exists m, g1. repeat split; assumption.
    + intros (os & Hlen & Hplay & ->).
      destruct os as [| o os]; [discriminate |].
      cbn [played_out] in Hplay. destruct Hplay as (m & g1 & Hsim & <- & Hplay).
      assert (Ht : trial poisson home away neutral (t, rng)
                   = Ok (record_result t
                           (result_of_goals home away (home_goals m, away_goals m)),
                         g1))
        by (apply trial_outcome; exists m; now split).
      rewrite Ht. cbn [bind]. apply IH.
      exists os. repeat split; [now injection Hlen | assumption].
Qed.

(** A result that [run_simulations] returns for [n >= 0] comes from the
    scores of [n] successive simulated matches, recorded in order. *)
Lemma run_simulations_outcomes (sim sim' : MatchSimulator F)
    (home away : Team F) (n : Z) (neutral : bool) (rng rng' : Rng)
    (r : Results F) :
  (0 <= n)%Z ->
  run_simulations poisson sim home away n neutral rng = Ok (r, sim', rng') ->
  exists os : list (Z * Z),
    Z.of_nat (List.length os) = n /\
    played_out poisson home away neutral rng os rng' /\
    tally r = tally_of home away os /\
    num_simulations r = n /\
    sim' = {| last_simulation_results := Some r |}.
Proof.
  intros Hn. unfold run_simulations.
  destruct (for_range (Z.to_nat n) (trial poisson home away neutral)
              (empty_tally, rng)) as [[t g] | e] eqn:Hloop;
    cbn [bind]; [| discriminate].
  destruct (pydiv _ _); cbn [bind]; [| discriminate].
  destruct (pydiv _ _); cbn [bind]; [| discriminate].
  destruct (pydiv _ _); cbn [bind]; [| discriminate].
  destruct (pydiv _ _); cbn [bind]; [| discriminate].
  destruct (pydiv _ _); cbn [bind]; [| discriminate].
  destruct (most_common _ _); cbn [bind]; [| discriminate].
  intros E. injection E as <- <- <-.
  apply for_range_outcomes in Hloop as (os & Hlen & Hplay & ->).
  exists os. cbn [tally num_simulations].
  repeat split; [lia | assumption].
Qed.

End Outcomes.

(** ** What the counters count *)

Lemma count_where_cons {A : Type} (p : A -> bool) (x : A) (l : list A) :
  count_where p (x :: l) = ((if p x then 1 else 0) + count_where p l)%Z.
Proof.
  unfold count_where. cbn [filter]. destruct (p x); cbn [List.length]; lia.
Qed.

Lemma count_where_bounds {A : Type} (p : A -> bool) (l : list A) :
  (0 <= count_where p l <= Z.of_nat (List.length l))%Z.
Proof.
  unfold count_where. pose proof (filter_length_le p l). lia.
Qed.

Lemma record_result_of_goals {F : Type} (home away : Team F) (t : Tally) (o : Z * Z) :
  let t' := record_result t (result_of_goals home away o) in
  home_wins t' = (home_wins t + if home_win o then 1 else 0)%Z /\
  away_wins t' = (away_wins t + if away_win o then 1 else 0)%Z /\
  draws t' = (draws t + if draw o then 1 else 0)%Z /\
  total_home_goals t' = (total_home_goals t + fst o)%Z /\
  total_away_goals t' = (total_away_goals t + snd o)%Z /\
  score_counts t' = dict_incr String.eqb (score_counts t) (score_line o) /\
  home_goal_counts t' = dict_incr Z.eqb (home_goal_counts t) (fst o) /\
  away_goal_counts t' = dict_incr Z.eqb (away_goal_counts t) (snd o).
Proof.
  destruct o as [hg ag]. unfold record_result, result_of_goals, home_win,
    away_win, draw, score_line.
  cbn [fst snd mr_result mr_home_goals mr_away_goals mr_score_line].
  destruct (Z.gtb_spec hg ag) as [G | G];
    destruct (Z.gtb_spec ag hg) as [G' | G'];
    destruct (Z.eqb_spec hg ag) as [E | E]; try lia;
    cbn; repeat split; try reflexivity; lia.
Qed.

Section Recorded.
Context {F : Type}.
Variables home away : Team F.

Lemma absorb_counters (os : list (Z * Z)) :
  forall t : Tally,
    home_wins (fold_left record_result (map (result_of_goals home away) os) t) = (home_wins t + count_where home_win os)%Z /\
    away_wins (fold_left record_result (map (result_of_goals home away) os) t) = (away_wins t + count_where away_win os)%Z /\
    draws (fold_left record_result (map (result_of_goals home away) os) t) = (draws t + count_where draw os)%Z /\
    total_home_goals (fold_left record_result (map (result_of_goals home away) os) t) = (total_home_goals t + Zsum (map fst os))%Z /\
    total_away_goals (fold_left record_result (map (result_of_goals home away) os) t) = (total_away_goals t + Zsum (map snd os))%Z.
Proof.
  induction os as [| o os IH]; intros t.
  - unfold count_where. cbn. repeat split; lia.
  - cbn [map fold_left].
    destruct (IH (record_result t (result_of_goals home away o)))
      as (H1 & H2 & H3 & H4 & H5).
    destruct (record_result_of_goals home away t o)
      as (R1 & R2 & R3 & R4 & R5 & _).
    rewrite H1, H2, H3, H4, H5, R1, R2, R3, R4, R5, !count_where_cons.
    cbn [map Zsum fold_right]. fold (Zsum (map fst os)) (Zsum (map snd os)).
    repeat split; lia.
Qed.

End Recorded.

Section Counters.
Context {F : Type} `{PyFloat F}.
Variable Rng : Type.
Variable poisson : F -> Rng -> Exc (Z * Rng).

(** X1: in a result that [run_simulations] returns for n >= 0, home_wins,
    away_wins and draws are the numbers of simulated matches with more home
    goals, with more away goals, and with equal goals, and 'home_goals' and
    'away_goals' are the sums of the goals drawn for each side. *)
Theorem run_simulations_counters (sim sim' : MatchSimulator F)
    (home away : Team F) (n : Z) (neutral : bool) (rng rng' : Rng)
    (r : Results F) :
  (0 <= n)%Z ->
  run_simulations poisson sim home away n neutral rng = Ok (r, sim', rng') ->
  exists os : list (Z * Z),
    Z.of_nat (List.length os) = n /\
    played_out poisson home away neutral rng os rng' /\
    home_wins (tally r) = count_where home_win os /\
    away_wins (tally r) = count_where away_win os /\
    draws (tally r) = count_where draw os /\
    total_home_goals (tally r) = Zsum (map fst os) /\
    total_away_goals (tally r) = Zsum (map snd os).
Proof.
  intros Hn Hrun.
  destruct (run_simulations_outcomes _ _ _ _ _ _ Hn Hrun)
    as (os & Hlen & Hplay & Ht & _).
  exists os. split; [assumption |]. split; [assumption |].
  rewrite Ht. unfold tally_of.
  destruct (absorb_counters home away os empty_tally) as (H1 & H2 & H3 & H4 & H5).
  cbn in H1, H2, H3, H4, H5.
  repeat split; assumption.
Qed.

End Counters.

Lemma sample_run64 :
  run_simulations tape_poisson_64 nosim64 teamA64 teamB64 3 false sample_tape
  = Ok (sample_results64,
        {| last_simulation_results := Some sample_results64 |}, []).
Proof. vm_compute. reflexivity. Qed.

Lemma run_simulations_counters_witness :
  (0 <= 3)%Z /\
  run_simulations tape_poisson_64 nosim64 teamA64 teamB64 3 false sample_tape
  = Ok (sample_results64,
        {| last_simulation_results := Some sample_results64 |}, []) /\
  exists os : list (Z * Z),
    Z.of_nat (List.length os) = 3%Z /\
    played_out tape_poisson_64 teamA64 teamB64 false sample_tape os [] /\
    home_wins (tally sample_results64) = count_where home_win os /\
    away_wins (tally sample_results64) = count_where away_win os /\
    draws (tally sample_results64) = count_where draw os /\
    total_home_goals (tally sample_results64) = Zsum (map fst os) /\
    total_away_goals (tally sample_results64) = Zsum (map snd os).
Proof.
  assert (H0 : (0 <= 3)%Z) by lia.
  split; [exact H0 |]. split; [exact sample_run64 |].
  exact (run_simulations_counters tape_poisson_64 nosim64 teamA64 teamB64
           false sample_tape H0 sample_run64).
Defined.

(** ** The frequency tables *)

Section DictLookup.
Variables (K : Type) (keq : K -> K -> bool).
Hypothesis keq_spec : forall a b : K, keq a b = true <-> a = b.

Lemma keq_refl (a : K) : keq a a = true.
Proof. now apply keq_spec. Qed.

(** Lookup after assignment. *)
Lemma dict_get_set (d : dict K Z) (k k' : K) (v dflt : Z) :
  dict_get keq (dict_set keq d k v) k' dflt
  = if keq k k' then v else dict_get keq d k' dflt.
Proof.
  induction d as [| [k0 v0] rest IH]; cbn.
  - reflexivity.
  - destruct (keq k0 k) eqn:E0; cbn.
    + apply keq_spec in E0. subst k0. now destruct (keq k k').
    + rewrite IH. destruct (keq k0 k') eqn:E1; [| reflexivity].
      apply keq_spec in E1. subst k'.
      destruct (keq k k0) eqn:E2; [| reflexivity].
      apply keq_spec in E2. subst k0. rewrite keq_refl in E0. discriminate.
Qed.

Lemma dict_get_incr (d : dict K Z) (k k' : K) :
  dict_get keq (dict_incr keq d k) k' 0%Z
  = (dict_get keq d k' 0 + if keq k k' then 1 else 0)%Z.
Proof.
  unfold dict_incr. rewrite dict_get_set.
  destruct (keq k k') eqn:E; [| lia].
  apply keq_spec in E. now subst.
Qed.

Lemma dict_mem_keys (d : dict K Z) (k : K) :
  dict_mem keq d k = existsb (fun k' => keq k' k) (dict_keys d).
Proof.
  unfold dict_keys. induction d as [| [k0 v0] rest IH]; cbn.
  - reflexivity.
  - destruct (keq k0 k); [reflexivity | exact IH].
Qed.

Lemma dict_mem_In (d : dict K Z) (k : K) :
  dict_mem keq d k = true <-> In k (dict_keys d).
Proof.
  rewrite dict_mem_keys, existsb_exists. split.
  - intros (k' & Hin & E). apply keq_spec in E. now subst.
  - intros Hin. exists k. split; [assumption | apply keq_refl].
Qed.

Lemma dict_incr_NoDup (d : dict K Z) (k : K) :
  NoDup (dict_keys d) -> NoDup (dict_keys (dict_incr keq d k)).
Proof.
  intros Hd. rewrite dict_incr_keys.
  destruct (dict_mem keq d k) eqn:Em; [assumption |].
  apply NoDup_app; [assumption | repeat constructor; intros [] |].
  intros x Hx [<- | []].
  apply dict_mem_In in Hx. congruence.
Qed.

Lemma dict_set_positive (d : dict K Z) (k : K) (v : Z) :
  (1 <= v)%Z ->
  Forall (fun x => (1 <= x)%Z) (dict_values d) ->
  Forall (fun x => (1 <= x)%Z) (dict_values (dict_set keq d k v)).
Proof.
  intros Hv. unfold dict_values.
  induction d as [| [k0 v0] rest IH]; intros Hall; cbn in *.
  - constructor; [assumption | constructor].
  - inversion Hall as [| ? ? H0 Hrest]; subst.
    destruct (keq k0 k); cbn; constructor; auto.
Qed.

Lemma dict_get_nonneg (d : dict K Z) (k : K) :
  Forall (fun x => (1 <= x)%Z) (dict_values d) ->
  (0 <= dict_get keq d k 0)%Z.
Proof.
  unfold dict_values. induction d as [| [k0 v0] rest IH]; intros Hall; cbn in *.
  - lia.
  - inversion Hall as [| ? ? H0 Hrest]; subst.
    destruct (keq k0 k); [lia | now apply IH].
Qed.

Lemma dict_incr_positive (d : dict K Z) (k : K) :
  Forall (fun x => (1 <= x)%Z) (dict_values d) ->
  Forall (fun x => (1 <= x)%Z) (dict_values (dict_incr keq d k)).
Proof.
  intros Hall. unfold dict_incr. apply dict_set_positive; [| assumption].
  pose proof (dict_get_nonneg d k Hall). lia.
Qed.

End DictLookup.

(** ** Scorelines as strings *)

Lemma append_empty_r (s : string) : (s ++ "")%string = s.
Proof. induction s as [| c s IH]; cbn; [reflexivity | now rewrite IH]. Qed.

Lemma append_assoc (s1 s2 s3 : string) :
  ((s1 ++ s2) ++ s3)%string = (s1 ++ (s2 ++ s3))%string.
Proof. induction s1 as [| c s1 IH]; cbn; [reflexivity | now rewrite IH]. Qed.

Lemma has_char_app (c : ascii) (s1 s2 : string) :
  has_char c (s1 ++ s2) = has_char c s1 || has_char c s2.
Proof.
  induction s1 as [| c1 s1 IH]; cbn; [reflexivity |].
  rewrite IH. now rewrite orb_assoc.
Qed.

Lemma uint_string_no_dash (d : Decimal.uint) :
  has_char "-" (NilEmpty.string_of_uint d) = false.
Proof. induction d; cbn; assumption || reflexivity. Qed.

Lemma str_int_no_dash (z : Z) : (0 <= z)%Z -> has_char "-" (str_int z) = false.
Proof.
  intros Hz. unfold str_int. destruct z as [| p | p]; [reflexivity | | lia].
  cbn [Z.to_int NilZero.string_of_int]. unfold NilZero.string_of_uint.
  destruct (Pos.to_uint p) eqn:E; try (rewrite <- E; apply uint_string_no_dash).
  reflexivity.
Qed.

(** [int(str(z))] is [z]. *)
Lemma py_int_str_int (z : Z) : py_int (str_int z) = Ok z.
Proof.
  unfold py_int, str_int. rewrite NilZero.isi.
  - now rewrite DecimalZ.of_to.
  - destruct z; cbn; try discriminate.
    intros E. injection E as E. now apply Unsigned.to_uint_nonnil in E.
  - destruct z; cbn; try discriminate.
    intros E. injection E as E. now apply Unsigned.to_uint_nonnil in E.
Qed.

Lemma prefix_dash (c : ascii) (rest : string) :
  String.prefix "-" (String c rest) = Ascii.eqb c "-".
Proof.
  cbn [String.prefix]. destruct (ascii_dec "-" c) as [<- | N].
  - now destruct rest.
  - symmetry. apply Ascii.eqb_neq. congruence.
Qed.

Lemma split_dash_free (s cur : string) :
  has_char "-" s = false -> split_from "-" 0 cur s = [(cur ++ s)%string].
Proof.
  revert cur. induction s as [| c rest IH]; intros cur Hs.
  - cbn. now rewrite append_empty_r.
  - cbn [has_char] in Hs. apply orb_false_elim in Hs as [Hc Hrest].
    cbn [split_from]. rewrite prefix_dash, Hc.
    rewrite IH by assumption. now rewrite append_assoc.
Qed.

Lemma split_at_dash (s1 s2 cur : string) :
  has_char "-" s1 = false ->
  split_from "-" 0 cur (s1 ++ String "-" s2)
  = (cur ++ s1)%string :: split_from "-" 0 EmptyString s2.
Proof.
  revert cur. induction s1 as [| c rest IH]; intros cur Hs.
  - cbn [String.append split_from]. rewrite prefix_dash.
    cbn. now rewrite append_empty_r.
  - cbn [has_char] in Hs. apply orb_false_elim in Hs as [Hc Hrest].
    cbn [String.append split_from]. rewrite prefix_dash, Hc.
    rewrite IH by assumption. now rewrite append_assoc.
Qed.

Lemma parse_score_line_of_outcome (o : Z * Z) :
  nonneg_outcome o -> parse_score_line (score_line o) = Ok o.
Proof.
  intros [Hh Ha]. destruct o as [h a]. cbn [fst snd] in *.
  unfold parse_score_line, py_split, score_line. cbn [fst snd].
  change ("-" ++ str_int a)%string with (String "-" (str_int a)).
  rewrite split_at_dash by now apply str_int_no_dash.
  rewrite split_dash_free by now apply str_int_no_dash.
  cbn [String.append]. rewrite !py_int_str_int. reflexivity.
Qed.

(** X2: splitting the scoreline of an outcome with no negative goal count
    at '-' and converting the pieces with [int] gives the two goal counts
    back, so no two such outcomes share a scoreline. *)
Theorem parse_score_line_roundtrip (o : Z * Z) :
  nonneg_outcome o ->
  parse_score_line (score_line o) = Ok o /\
  forall o' : Z * Z,
    nonneg_outcome o' -> score_line o' = score_line o -> o' = o.
Proof.
  intros Ho. split; [now apply parse_score_line_of_outcome |].
  intros o' Ho' E.
  assert (P : Ok o' = Ok o).
  { rewrite <- (parse_score_line_of_outcome Ho').
    rewrite <- (parse_score_line_of_outcome Ho). now rewrite E. }
  now injection P.
Qed.

Lemma parse_score_line_roundtrip_witness :
  nonneg_outcome (2, 1)%Z /\
  parse_score_line (score_line (2, 1)%Z) = Ok (2, 1)%Z /\
  forall o' : Z * Z,
    nonneg_outcome o' -> score_line o' = score_line (2, 1)%Z -> o' = (2, 1)%Z.
Proof.
  assert (H : nonneg_outcome (2, 1)%Z) by (split; cbn; lia).
  split; [exact H |]. exact (parse_score_line_roundtrip H).
Defined.

(** A negative home count breaks the reading: "-1-2" splits into three
    pieces, the first of them empty. *)
Example parse_score_line_negative :
  parse_score_line (score_line (-1, 2)%Z) = Raise ValueError.
Proof. reflexivity. Qed.

Lemma score_line_inj (o o' : Z * Z) :
  nonneg_outcome o -> nonneg_outcome o' ->
  score_line o = score_line o' -> o = o'.
Proof.
  intros Ho Ho' E.
  assert (P : Ok o = Ok o').
  { rewrite <- (parse_score_line_of_outcome Ho).
    rewrite <- (parse_score_line_of_outcome Ho'). now rewrite E. }
  now injection P.
Qed.

(** ** The tables as histograms of the outcomes *)

Lemma Z_eqb_spec_iff (a b : Z) : (a =? b)%Z = true <-> a = b.
Proof. apply Z.eqb_eq. Qed.

Section Histograms.
Context {F : Type}.
Variables home away : Team F.

Lemma recorded_goal_counts (os : list (Z * Z)) :
  forall (t : Tally) (g : Z),
    dict_get Z.eqb
      (home_goal_counts
         (fold_left record_result (map (result_of_goals home away) os) t)) g 0%Z
    = (dict_get Z.eqb (home_goal_counts t) g 0
       + count_where (fun o => (fst o =? g)%Z) os)%Z /\
    dict_get Z.eqb
      (away_goal_counts
         (fold_left record_result (map (result_of_goals home away) os) t)) g 0%Z
    = (dict_get Z.eqb (away_goal_counts t) g 0
       + count_where (fun o => (snd o =? g)%Z) os)%Z.
Proof.
  induction os as [| o os IH]; intros t g.
  - unfold count_where. cbn. split; lia.
  - cbn [map fold_left].
    destruct (IH (record_result t (result_of_goals home away o)) g) as [H1 H2].
    destruct (record_result_of_goals home away t o)
      as (_ & _ & _ & _ & _ & _ & R1 & R2).
    rewrite H1, H2, R1, R2, !count_where_cons.
    rewrite !(@dict_get_incr Z Z.eqb Z_eqb_spec_iff). split; lia.
Qed.

Lemma recorded_score_counts (os : list (Z * Z)) :
  forall (t : Tally) (key : string),
    dict_get String.eqb
      (score_counts
         (fold_left record_result (map (result_of_goals home away) os) t)) key 0%Z
    = (dict_get String.eqb (score_counts t) key 0
       + count_where (fun o => String.eqb (score_line o) key) os)%Z.
Proof.
  induction os as [| o os IH]; intros t key.
  - unfold count_where. cbn. lia.
  - cbn [map fold_left].
    rewrite (IH (record_result t (result_of_goals home away o)) key).
    destruct (record_result_of_goals home away t o)
      as (_ & _ & _ & _ & _ & R & _).
    rewrite R, count_where_cons, (@dict_get_incr string String.eqb String.eqb_eq). lia.
Qed.

Lemma recorded_score_keys (os : list (Z * Z)) :
  forall t : Tally,
    dict_keys
      (score_counts
         (fold_left record_result (map (result_of_goals home away) os) t))
    = fold_left (fun acc k => if existsb (fun k' => String.eqb k' k) acc then acc
                              else (acc ++ [k])%list)
        (map score_line os) (dict_keys (score_counts t)).
Proof.
  induction os as [| o os IH]; intros t.
  - reflexivity.
  - cbn [map fold_left].
    rewrite (IH (record_result t (result_of_goals home away o))).
    destruct (record_result_of_goals home away t o)
      as (_ & _ & _ & _ & _ & R & _).
    rewrite R, dict_incr_keys, dict_mem_keys. reflexivity.
Qed.

Lemma recorded_score_shape (os : list (Z * Z)) :
  forall t : Tally,
    NoDup (dict_keys (score_counts t)) ->
    Forall (fun v => (1 <= v)%Z) (dict_values (score_counts t)) ->
    NoDup (dict_keys
             (score_counts
                (fold_left record_result (map (result_of_goals home away) os) t)))
    /\ Forall (fun v => (1 <= v)%Z)
         (dict_values
            (score_counts
               (fold_left record_result (map (result_of_goals home away) os) t))).
Proof.
  induction os as [| o os IH]; intros t Hk Hv.
  - now split.
  - cbn [map fold_left]. apply IH;
      destruct (record_result_of_goals home away t o)
        as (_ & _ & _ & _ & _ & R & _); rewrite R.
    + now apply (@dict_incr_NoDup string String.eqb String.eqb_eq).
    + now apply dict_incr_positive.
Qed.

End Histograms.

Lemma count_where_ext {A : Type} (p q : A -> bool) (l : list A) :
  Forall (fun x => p x = q x) l -> count_where p l = count_where q l.
Proof.
  unfold count_where. induction 1 as [| x l Hx _ IH]; cbn; [reflexivity |].
  rewrite Hx. destruct (q x); cbn; lia.
Qed.

Lemma score_line_eqb (o o' : Z * Z) :
  nonneg_outcome o -> nonneg_outcome o' ->
  String.eqb (score_line o') (score_line o) = outcome_eqb o' o.
Proof.
  intros Ho Ho'. unfold outcome_eqb.
  destruct (String.eqb_spec (score_line o') (score_line o)) as [E | N].
  - apply score_line_inj in E; [| assumption | assumption]. subst.
    now rewrite !Z.eqb_refl.
  - destruct (Z.eqb_spec (fst o') (fst o)) as [E1 | N1];
      [destruct (Z.eqb_spec (snd o') (snd o)) as [E2 | N2] |]; try reflexivity.
    exfalso. apply N. destruct o, o'. cbn in *. now subst.
Qed.

Section Tables.
Context {F : Type} `{PyFloat F}.
Variable Rng : Type.
Variable poisson : F -> Rng -> Exc (Z * Rng).

Lemma played_out_nonneg (home away : Team F) (neutral : bool) (os : list (Z * Z)) :
  sampler_nonneg poisson ->
  forall rng rng' : Rng,
    played_out poisson home away neutral rng os rng' ->
    Forall nonneg_outcome os.
Proof.
  intros Hnn. induction os as [| o os IH]; intros rng rng' Hplay.
  - constructor.
  - cbn [played_out] in Hplay. destruct Hplay as (m & g1 & Hsim & <- & Hrest).
    constructor; [| now apply (IH g1 rng')].
    destruct (simulate_inv _ _ _ Hsim) as (_ & _ & _ & lh & la & g0 & _ & Hh & Ha).
    split; cbn [fst snd].
    + exact (Hnn _ _ _ _ Hh).
    + exact (Hnn _ _ _ _ Ha).
Qed.

(** X3: in a result that [run_simulations] returns for n >= 0, the entry of
    home_goal_counts for a goal count g (0 when g is no key) is the number of
    simulated matches in which the home side scored g, and likewise
    away_goal_counts for the away side. *)
Theorem run_simulations_goal_counts (sim sim' : MatchSimulator F)
    (home away : Team F) (n : Z) (neutral : bool) (rng rng' : Rng)
    (r : Results F) :
  (0 <= n)%Z ->
  run_simulations poisson sim home away n neutral rng = Ok (r, sim', rng') ->
  exists os : list (Z * Z),
    Z.of_nat (List.length os) = n /\
    played_out poisson home away neutral rng os rng' /\
    forall g : Z,
      dict_get Z.eqb (home_goal_counts (tally r)) g 0%Z
      = count_where (fun o => (fst o =? g)%Z) os /\
      dict_get Z.eqb (away_goal_counts (tally r)) g 0%Z
      = count_where (fun o => (snd o =? g)%Z) os.
Proof.
  intros Hn Hrun.
  destruct (run_simulations_outcomes _ _ _ _ _ _ Hn Hrun)
    as (os & Hlen & Hplay & Ht & _).
  exists os. split; [assumption |]. split; [assumption |].
  intros g. rewrite Ht. unfold tally_of.
  destruct (recorded_goal_counts home away os empty_tally g) as [H1 H2].
  now rewrite H1, H2.
Qed.

(** X4: when the sampler returns no negative count, the entry of
    score_counts under the scoreline of an outcome (0 when it is no key) is
    the number of simulated matches that ended with exactly that outcome. *)
Theorem run_simulations_score_counts (sim sim' : MatchSimulator F)
    (home away : Team F) (n : Z) (neutral : bool) (rng rng' : Rng)
    (r : Results F) :
  sampler_nonneg poisson ->
  (0 <= n)%Z ->
  run_simulations poisson sim home away n neutral rng = Ok (r, sim', rng') ->
  exists os : list (Z * Z),
    Z.of_nat (List.length os) = n /\
    played_out poisson home away neutral rng os rng' /\
    Forall nonneg_outcome os /\
    forall o : Z * Z,
      nonneg_outcome o ->
      dict_get String.eqb (score_counts (tally r)) (score_line o) 0%Z
      = count_where (fun o' => outcome_eqb o' o) os.
Proof.
  intros Hnn Hn Hrun.
  destruct (run_simulations_outcomes _ _ _ _ _ _ Hn Hrun)
    as (os & Hlen & Hplay & Ht & _).
  pose proof (played_out_nonneg _ _ _ _ Hnn _ _ Hplay) as Hos.
  exists os. split; [assumption |]. split; [assumption |].
  split; [assumption |].
  intros o Ho. rewrite Ht. unfold tally_of.
  rewrite (recorded_score_counts home away os empty_tally (score_line o)).
  cbn [score_counts empty_tally dict_get]. rewrite Z.add_0_l.
  apply count_where_ext.
  eapply Forall_impl; [| exact Hos].
  intros o' Ho'. now apply score_line_eqb.
Qed.

(** X5: in a result that [run_simulations] returns for n >= 0, the keys of
    score_counts are the scorelines of the simulated matches, each once and
    in the order in which it first occurred, and every count is at least
    1. *)
Theorem run_simulations_score_keys (sim sim' : MatchSimulator F)
    (home away : Team F) (n : Z) (neutral : bool) (rng rng' : Rng)
    (r : Results F) :
  (0 <= n)%Z ->
  run_simulations poisson sim home away n neutral rng = Ok (r, sim', rng') ->
  exists os : list (Z * Z),
    Z.of_nat (List.length os) = n /\
    played_out poisson home away neutral rng os rng' /\
    dict_keys (score_counts (tally r))
    = first_occurrences String.eqb (map score_line os) /\
    NoDup (dict_keys (score_counts (tally r))) /\
    Forall (fun v => (1 <= v)%Z) (dict_values (score_counts (tally r))).
Proof.
  intros Hn Hrun.
  destruct (run_simulations_outcomes _ _ _ _ _ _ Hn Hrun)
    as (os & Hlen & Hplay & Ht & _).
  exists os. split; [assumption |]. split; [assumption |].
  rewrite Ht. unfold tally_of. split.
  - apply (recorded_score_keys home away os empty_tally).
  - apply recorded_score_shape; constructor.
Qed.

End Tables.

Lemma count_poisson_64_nonneg : sampler_nonneg count_poisson_64.
Proof.
  intros lam g g' k. unfold count_poisson_64.
  destruct (_ || _); [discriminate |].
  destruct g as [| c rest]; intros E; injection E as <- _; lia.
Qed.

Lemma sample_count_run64 :
  run_simulations count_poisson_64 nosim64 teamA64 teamB64 4 false sample_counts
  = Ok (sample_count_results64,
        {| last_simulation_results := Some sample_count_results64 |}, []).
Proof. vm_compute. reflexivity. Qed.

Lemma run_simulations_goal_counts_witness :
  (0 <= 4)%Z /\
  exists os : list (Z * Z),
    Z.of_nat (List.length os) = 4%Z /\
    played_out count_poisson_64 teamA64 teamB64 false sample_counts os [] /\
    forall g : Z,
      dict_get Z.eqb (home_goal_counts (tally sample_count_results64)) g 0%Z
      = count_where (fun o => (fst o =? g)%Z) os /\
      dict_get Z.eqb (away_goal_counts (tally sample_count_results64)) g 0%Z
      = count_where (fun o => (snd o =? g)%Z) os.
Proof.
  assert (H0 : (0 <= 4)%Z) by lia.
  split; [exact H0 |].
  exact (run_simulations_goal_counts count_poisson_64 nosim64 teamA64 teamB64
           false sample_counts H0 sample_count_run64).
Defined.

Lemma run_simulations_score_counts_witness :
  sampler_nonneg count_poisson_64 /\ (0 <= 4)%Z /\
  exists os : list (Z * Z),
    Z.of_nat (List.length os) = 4%Z /\
    played_out count_poisson_64 teamA64 teamB64 false sample_counts os [] /\
    Forall nonneg_outcome os /\
    forall o : Z * Z,
      nonneg_outcome o ->
      dict_get String.eqb (score_counts (tally sample_count_results64))
        (score_line o) 0%Z
      = count_where (fun o' => outcome_eqb o' o) os.
Proof.
  assert (H0 : (0 <= 4)%Z) by lia.
  split; [exact count_poisson_64_nonneg |]. split; [exact H0 |].
  exact (run_simulations_score_counts nosim64 teamA64 teamB64 false
           sample_counts count_poisson_64_nonneg H0 sample_count_run64).
Defined.

Lemma run_simulations_score_keys_witness :
  (0 <= 4)%Z /\
  exists os : list (Z * Z),
    Z.of_nat (List.length os) = 4%Z /\
    played_out count_poisson_64 teamA64 teamB64 false sample_counts os [] /\
    dict_keys (score_counts (tally sample_count_results64))
    = first_occurrences String.eqb (map score_line os) /\
    NoDup (dict_keys (score_counts (tally sample_count_results64))) /\
    Forall (fun v => (1 <= v)%Z)
      (dict_values (score_counts (tally sample_count_results64))).
Proof.
  assert (H0 : (0 <= 4)%Z) by lia.
  split; [exact H0 |].
  exact (run_simulations_score_keys count_poisson_64 nosim64 teamA64 teamB64
           false sample_counts H0 sample_count_run64).
Defined.

(** ** The derived statistics *)

Lemma dict_value_le_total {K : Type} (d : dict K Z) (v : Z) :
  Forall (fun x => (1 <= x)%Z) (dict_values d) ->
  In v (dict_values d) -> (v <= dict_total d)%Z.
Proof.
  unfold dict_total. generalize (dict_values d) as l.
  induction l as [| x l IH]; intros Hall Hin; [destruct Hin |].
  inversion Hall as [| ? ? Hx Hl]; subst. cbn [fold_right].
  assert (0 <= fold_right Z.add 0 l)%Z.
  { clear -Hl. induction Hl; cbn; lia. }
  destruct Hin as [-> | Hin]; [lia |].
  specialize (IH Hl Hin). lia.
Qed.

Section DerivedR.
Variable Rng : Type.
Variable poisson : R -> Rng -> Exc (Z * Rng).

Lemma run_simulations_R_inv (sim sim' : MatchSimulator R) (home away : Team R)
    (n : Z) (neutral : bool) (rng rng' : Rng) (r : Results R) :
  run_simulations poisson sim home away n neutral rng = Ok (r, sim', rng') ->
  n <> 0%Z /\
  home_win_prob r = (IZR (home_wins (tally r)) / IZR n)%R /\
  away_win_prob r = (IZR (away_wins (tally r)) / IZR n)%R /\
  draw_prob r = (IZR (draws (tally r)) / IZR n)%R /\
  avg_home_goals r = (IZR (total_home_goals (tally r)) / IZR n)%R /\
  avg_away_goals r = (IZR (total_away_goals (tally r)) / IZR n)%R /\
  most_common_scores r
  = firstn 10 (sorted_desc (@count R) (score_entries n (score_counts (tally r)))).
Proof.
  intros Hrun.
  assert (Hn : n <> 0%Z).
  { intros ->. rewrite run_simulations_zero_trials in Hrun. discriminate. }
  split; [assumption |].
  assert (Hloop : exists t, for_range (Z.to_nat n) (trial poisson home away neutral)
                              (empty_tally, rng) = Ok (t, rng')).
  { revert Hrun. unfold run_simulations.
    destruct (for_range (Z.to_nat n) (trial poisson home away neutral)
                (empty_tally, rng)) as [[t g] | e]; cbn [bind]; [| discriminate].
    destruct (pydiv _ _); cbn [bind]; [| discriminate].
    destruct (pydiv _ _); cbn [bind]; [| discriminate].
    destruct (pydiv _ _); cbn [bind]; [| discriminate].
    destruct (pydiv _ _); cbn [bind]; [| discriminate].
    destruct (pydiv _ _); cbn [bind]; [| discriminate].
    destruct (most_common _ _); cbn [bind]; [| discriminate].
    intros E. injection E as _ _ <-. now exists t. }
  destruct Hloop as (t & Hloop).
  destruct (@run_simulations_finish Rng poisson sim home away n neutral rng rng' t
              Hn Hloop)
    as (r0 & Hrun0 & _ & Ht & Hah & Haa & Hph & Hpa & Hpd & Hm).
  rewrite Hrun0 in Hrun. injection Hrun as <- _.
  rewrite Ht. repeat split; assumption.
Qed.

(** X6: in a result that [run_simulations] returns for n >= 1, the three
    outcome probabilities lie between 0 and 1 and add up to 1, and each
    average is the sum of the goals drawn for that side divided by n. *)
Theorem run_simulations_probabilities (sim sim' : MatchSimulator R)
    (home away : Team R) (n : Z) (neutral : bool) (rng rng' : Rng)
    (r : Results R) :
  (1 <= n)%Z ->
  run_simulations poisson sim home away n neutral rng = Ok (r, sim', rng') ->
  (home_win_prob r + away_win_prob r + draw_prob r = 1)%R /\
  (0 <= home_win_prob r <= 1)%R /\
  (0 <= away_win_prob r <= 1)%R /\
  (0 <= draw_prob r <= 1)%R /\
  exists os : list (Z * Z),
    Z.of_nat (List.length os) = n /\
    played_out poisson home away neutral rng os rng' /\
    avg_home_goals r = (IZR (Zsum (map fst os)) / IZR n)%R /\
    avg_away_goals r = (IZR (Zsum (map snd os)) / IZR n)%R.
Proof.
  intros Hn Hrun.
  destruct (run_simulations_R_inv _ _ _ _ _ _ Hrun)
    as (_ & Hph & Hpa & Hpd & Hah & Haa & _).
  assert (H0 : (0 <= n)%Z) by lia.
  destruct (run_simulations_outcomes _ _ _ _ _ _ H0 Hrun)
    as (os & Hlen & Hplay & Ht & _).
  destruct (absorb_counters home away os empty_tally) as (C1 & C2 & C3 & C4 & C5).
  fold (tally_of home away os) in C1, C2, C3, C4, C5. rewrite <- Ht in *.
  cbn [home_wins away_wins draws total_home_goals total_away_goals empty_tally]
    in C1, C2, C3, C4, C5.
  rewrite Z.add_0_l in C1, C2, C3, C4, C5.
  destruct (@run_simulations_counts_any R _ Rng poisson sim sim' home away n
              neutral rng rng' r H0 Hrun) as (_ & Ho & _).
  unfold outcomes in Ho.
  pose proof (count_where_bounds home_win os) as B1.
  pose proof (count_where_bounds away_win os) as B2.
  pose proof (count_where_bounds draw os) as B3.
  rewrite <- C1 in B1. rewrite <- C2 in B2. rewrite <- C3 in B3.
  assert (Pn : (0 < IZR n)%R) by (apply IZR_lt; lia).
  assert (Bound : forall c : Z, (0 <= c <= n)%Z -> (0 <= IZR c / IZR n <= 1)%R).
  { intros c [L U]. apply IZR_le in L, U. split.
    - apply Rmult_le_pos; [exact L | left; now apply Rinv_0_lt_compat].
    - apply Rmult_le_reg_r with (IZR n); [exact Pn |].
      unfold Rdiv. rewrite Rmult_assoc, Rinv_l by lra. lra. }
  split.
  - rewrite Hph, Hpa, Hpd.
    assert (S : (IZR (home_wins (tally r)) + IZR (away_wins (tally r))
                 + IZR (draws (tally r)) = IZR n)%R)
      by (rewrite <- !plus_IZR; now rewrite Ho).
    replace (IZR (home_wins (tally r)) / IZR n
             + IZR (away_wins (tally r)) / IZR n
             + IZR (draws (tally r)) / IZR n)%R
      with ((IZR (home_wins (tally r)) + IZR (away_wins (tally r))
             + IZR (draws (tally r))) / IZR n)%R by (field; lra).
    rewrite S. field. lra.
  - rewrite Hph, Hpa, Hpd.
    split; [apply Bound; lia |]. split; [apply Bound; lia |].
    split; [apply Bound; lia |].
    exists os. rewrite Hah, Haa, C4, C5. repeat split; assumption.
Qed.

End DerivedR.

Lemma sample_run_R :
  exists (r : Results R) (rng' : list Z),
    run_simulations tape_poisson_R nosim teamA teamB 3 false sample_tape
    = Ok (r, {| last_simulation_results := Some r |}, rng').
Proof.
  destruct (@for_range_trial_total (list Z) tape_poisson_R teamA teamB false
              (Z.to_nat 3) tape_poisson_R_total valid_teamA valid_teamB
              empty_tally sample_tape) as (t & g & Hloop).
  destruct (@run_simulations_finish (list Z) tape_poisson_R nosim teamA teamB 3
              false sample_tape g t) as (r & Hrun & _); [lia | exact Hloop |].
  now exists r, g.
Qed.

Lemma run_simulations_probabilities_witness :
  exists (r : Results R) (rng' : list Z),
    run_simulations tape_poisson_R nosim teamA teamB 3 false sample_tape
    = Ok (r, {| last_simulation_results := Some r |}, rng') /\
    (1 <= 3)%Z /\
    (home_win_prob r + away_win_prob r + draw_prob r = 1)%R /\
    (0 <= home_win_prob r <= 1)%R /\
    (0 <= away_win_prob r <= 1)%R /\
    (0 <= draw_prob r <= 1)%R /\
    exists os : list (Z * Z),
      Z.of_nat (List.length os) = 3%Z /\
      played_out tape_poisson_R teamA teamB false sample_tape os rng' /\
      avg_home_goals r = (IZR (Zsum (map fst os)) / IZR 3)%R /\
      avg_away_goals r = (IZR (Zsum (map snd os)) / IZR 3)%R.
Proof.
  destruct sample_run_R as (r & g & Hrun).
  assert (H1 : (1 <= 3)%Z) by lia.
  exists r, g. split; [exact Hrun |]. split; [exact H1 |].
  exact (run_simulations_probabilities tape_poisson_R nosim teamA teamB false
           sample_tape H1 Hrun).
Defined.

(** ** The ranking handed to the callers *)

Lemma sorted_desc_head_max {A : Type} (key : A -> Z) (l : list A) (x : A) :
  In x l ->
  exists (top : A) (rest : list A),
    sorted_desc key l = top :: rest /\ (key x <= key top)%Z.
Proof.
  intros Hin.
  pose proof (sorted_desc_sorted key l) as Hs.
  pose proof (sorted_desc_perm key l) as Hp.
  assert (Hin' : In x (sorted_desc key l)) by (eapply Permutation_in; eassumption).
  destruct (sorted_desc key l) as [| top rest]; [destruct Hin' |].
  exists top, rest. split; [reflexivity |].
  inversion Hs as [| ? ? _ Hall]; subst.
  destruct Hin' as [<- | Hin']; [lia |].
  rewrite Forall_forall in Hall. exact (Hall x Hin').
Qed.

Lemma In_firstn {A : Type} (k : nat) (l : list A) (x : A) :
  In x (firstn k l) -> In x l.
Proof.
  intros Hin. rewrite <- (firstn_skipn k l). apply in_or_app. now left.
Qed.

Lemma score_entries_In (n : Z) (sc : dict string Z) (e : ScoreEntry R) :
  In e (score_entries n sc) <->
  In (score e, count e) (dict_items sc) /\ prob e = (IZR (count e) / IZR n)%R.
Proof.
  unfold score_entries, dict_items. rewrite in_map_iff. split.
  - intros ([k v] & <- & Hin). cbn. now split.
  - intros [Hin Hp]. exists (score e, count e). split; [| assumption].
    destruct e as [k v p]. cbn in *. now subst.
Qed.

Section RankingUse.
Variable Rng : Type.
Variable poisson : R -> Rng -> Exc (Z * Rng).

(** X7: in a result that [run_simulations] returns for n >= 1,
    most_common_scores is not empty and has at most ten entries; its first
    entry has the largest count in score_counts; every entry is a scoreline of
    score_counts with its count, and its 'prob' is count / n, above 0 and at
    most 1. *)
Theorem most_common_scores_first (sim sim' : MatchSimulator R)
    (home away : Team R) (n : Z) (neutral : bool) (rng rng' : Rng)
    (r : Results R) :
  (1 <= n)%Z ->
  run_simulations poisson sim home away n neutral rng = Ok (r, sim', rng') ->
  (exists (top : ScoreEntry R) (rest : list (ScoreEntry R)),
     most_common_scores r = top :: rest /\
     forall (k : string) (v : Z),
       In (k, v) (dict_items (score_counts (tally r))) -> (v <= count top)%Z) /\
  (List.length (most_common_scores r) <= 10)%nat /\
  forall e : ScoreEntry R,
    In e (most_common_scores r) ->
    In (score e, count e) (dict_items (score_counts (tally r))) /\
    prob e = (IZR (count e) / IZR n)%R /\
    (0 < prob e <= 1)%R.
Proof.
  intros Hn Hrun.
  destruct (@run_simulations_R_inv Rng poisson sim sim' home away n neutral
              rng rng' r Hrun)
    as (_ & _ & _ & _ & _ & _ & Hm).
  assert (H0 : (0 <= n)%Z) by lia.
  destruct (@run_simulations_counts_any R _ Rng poisson sim sim' home away n
              neutral rng rng' r H0 Hrun) as (_ & _ & Hs & _).
  destruct (run_simulations_outcomes _ _ _ _ _ _ H0 Hrun)
    as (os & _ & _ & Ht & _).
  assert (Hpos : Forall (fun v => (1 <= v)%Z) (dict_values (score_counts (tally r)))).
  { rewrite Ht. unfold tally_of.
    apply (recorded_score_shape home away os empty_tally); constructor. }
  set (sc := score_counts (tally r)) in *.
  assert (Pn : (0 < IZR n)%R) by (apply IZR_lt; lia).
  split; [| split].
  - destruct sc as [| [k0 v0] sc'] eqn:Esc; [cbn in Hs; lia |].
    destruct (@sorted_desc_head_max _ (@count R) (score_entries n sc)
                {| score := k0; count := v0; prob := (IZR v0 / IZR n)%R |})
      as (top & rest & Hsort & _).
    { apply score_entries_In. rewrite Esc. cbn. split; [now left | reflexivity]. }
    exists top, (firstn 9 rest). rewrite Hm, <- Esc, Hsort. split; [reflexivity |].
    intros k v Hin.
    destruct (@sorted_desc_head_max _ (@count R) (score_entries n sc)
                {| score := k; count := v; prob := (IZR v / IZR n)%R |})
      as (top' & rest' & Hsort' & Hle).
    { apply score_entries_In. cbn. split; [assumption | reflexivity]. }
    rewrite Hsort in Hsort'. injection Hsort' as <- _. exact Hle.
  - rewrite Hm. apply firstn_le_length.
  - intros e He. rewrite Hm in He. apply In_firstn in He.
    apply (Permutation_in _ (Permutation_sym (sorted_desc_perm _ _))) in He.
    apply score_entries_In in He as [Hin Hp].
    split; [assumption |]. split; [assumption |].
    assert (Hv : In (count e) (dict_values sc)).
    { unfold dict_values. apply in_map_iff. now exists (score e, count e). }
    assert (L : (1 <= count e)%Z)
      by (rewrite Forall_forall in Hpos; now apply Hpos).
    assert (U : (count e <= n)%Z)
      by (rewrite <- Hs; now apply dict_value_le_total).
    apply IZR_le in U. apply IZR_le in L. rewrite Hp. split.
    + apply Rdiv_lt_0_compat; lra.
    + apply Rmult_le_reg_r with (IZR n); [exact Pn |].
      unfold Rdiv. rewrite Rmult_assoc, Rinv_l by lra. lra.
Qed.

End RankingUse.

Lemma most_common_scores_first_witness :
  exists (r : Results R) (rng' : list Z),
    run_simulations tape_poisson_R nosim teamA teamB 3 false sample_tape
    = Ok (r, {| last_simulation_results := Some r |}, rng') /\
    (1 <= 3)%Z /\
    (exists (top : ScoreEntry R) (rest : list (ScoreEntry R)),
       most_common_scores r = top :: rest /\
       forall (k : string) (v : Z),
         In (k, v) (dict_items (score_counts (tally r))) -> (v <= count top)%Z) /\
    (List.length (most_common_scores r) <= 10)%nat /\
    forall e : ScoreEntry R,
      In e (most_common_scores r) ->
      In (score e, count e) (dict_items (score_counts (tally r))) /\
      prob e = (IZR (count e) / IZR 3)%R /\
      (0 < prob e <= 1)%R.
Proof.
  destruct sample_run_R as (r & g & Hrun).
  assert (H1 : (1 <= 3)%Z) by lia.
  exists r, g. split; [exact Hrun |]. split; [exact H1 |].
  exact (most_common_scores_first tape_poisson_R nosim teamA teamB false
           sample_tape H1 Hrun).
Defined.

(** ** Venue and the expected goals *)

Lemma swap_expected_goals_neutral (home away : Team R) :
  simulate_expected_goals (Match_init away home true)
  = ('(x, y) <- simulate_expected_goals (Match_init home away true) ;; Ok (y, x)).
Proof.
  destruct (Req_dec_T (defensive_efficiency home) 0) as [Zh | Nh].
  - rewrite !simulate_expected_goals_R_zero by (first [now left | now right]).
    reflexivity.
  - destruct (Req_dec_T (defensive_efficiency away) 0) as [Za | Na].
    + rewrite !simulate_expected_goals_R_zero by (first [now left | now right]).
      reflexivity.
    + rewrite !simulate_expected_goals_R by assumption. reflexivity.
Qed.

(** X8: at a neutral venue the home and away roles do not matter:
    [calculate_expected_goals] ignores is_home, and exchanging the two teams
    of a match exchanges the two expected-goals values that [Match.simulate]
    computes (or both computations raise). *)
Theorem neutral_venue_symmetry (home away : Team R) :
  calculate_expected_goals home away true true
  = calculate_expected_goals home away false true /\
  simulate_expected_goals (Match_init away home true)
  = ('(x, y) <- simulate_expected_goals (Match_init home away true) ;; Ok (y, x)).
Proof.
  split; [reflexivity | apply swap_expected_goals_neutral].
Qed.

(** X9: in exact arithmetic the home advantage enters twice.  Against an
    opponent whose defensive_efficiency is not 0, the value for the home side
    is 1.44 times the neutral-venue value and the value for the away side is
    the neutral value divided by 1.44, so home is 2.0736 times away.  (In
    binary64 the factors hold up to rounding only, see
    [home_advantage_factor_rounded].) *)
Theorem home_advantage_factor_squared (team opp : Team R) :
  defensive_efficiency opp <> 0%R ->
  exists v : R,
    calculate_expected_goals team opp true true = Ok v /\
    calculate_expected_goals team opp true false = Ok (1.44 * v)%R /\
    calculate_expected_goals team opp false false = Ok (v / 1.44)%R /\
    (1.44 * v = 2.0736 * (v / 1.44))%R.
Proof.
  intros Nd.
  exists (expected_goals_value team opp true true).
  rewrite !calculate_expected_goals_R by assumption.
  unfold expected_goals_value.
  assert (E1 : (1.44 = 144 / 100)%R) by lra.
  assert (E2 : (2.0736 = 20736 / 10000)%R) by lra.
  rewrite E1, E2.
  split; [reflexivity |].
  split; [f_equal; field; lra |].
  split; [f_equal; field; lra |].
  field. lra.
Qed.

Lemma home_advantage_factor_squared_witness :
  defensive_efficiency teamB <> 0%R /\
  exists v : R,
    calculate_expected_goals teamA teamB true true = Ok v /\
    calculate_expected_goals teamA teamB true false = Ok (1.44 * v)%R /\
    calculate_expected_goals teamA teamB false false = Ok (v / 1.44)%R /\
    (1.44 * v = 2.0736 * (v / 1.44))%R.
Proof.
  assert (N : defensive_efficiency teamB <> 0%R) by (cbn; lra).
  split; [exact N |]. exact (@home_advantage_factor_squared teamA teamB N).
Defined.

(** The away value for (1.37, 0.93, 1.07) against a defensive efficiency of
    0.88 and the neutral value divided by 1.44 differ in the last place. *)
Example home_advantage_factor_rounded :
  calculate_expected_goals (team64 1.37 0.93 1.07) (team64 1.12 1.05 0.88)
    false false
  = Ok 1.0054450757575759%float /\
  (v <- calculate_expected_goals (team64 1.37 0.93 1.07)
          (team64 1.12 1.05 0.88) true true ;;
   Ok (PrimFloat.div v 1.44))
  = Ok 1.0054450757575761%float.
Proof. split; vm_compute; reflexivity. Qed.

(** X10: in exact arithmetic [calculate_expected_goals] raises exactly when
    the opponent's defensive_efficiency is 0, and then it is
    ZeroDivisionError; it reads neither the team's own defensive_efficiency
    nor the opponent's avg_xg_for and xg_efficiency; for valid profiles the
    value is above 0.  (In binary64 a positive value can underflow to 0, see
    [home_advantage_lost_in_binary64].) *)
Theorem calculate_expected_goals_errors (team opp : Team R) (is_home neutral : bool) :
  (defensive_efficiency opp = 0%R <->
   calculate_expected_goals team opp is_home neutral = Raise ZeroDivisionError) /\
  (defensive_efficiency opp <> 0%R <->
   exists v : R, calculate_expected_goals team opp is_home neutral = Ok v) /\
  (forall (d a e : R),
     calculate_expected_goals
       (with_defensive_efficiency team d)
       (with_xg_efficiency (with_avg_xg_for opp a) e) is_home neutral
     = calculate_expected_goals team opp is_home neutral) /\
  (valid_team team -> valid_team opp ->
   exists v : R,
     calculate_expected_goals team opp is_home neutral = Ok v /\ (0 < v)%R).
Proof.
  split; [| split; [| split]].
  - split.
    + apply calculate_expected_goals_R_zero.
    + intros E. destruct (Req_dec_T (defensive_efficiency opp) 0) as [Z0 | N];
        [assumption |].
      rewrite calculate_expected_goals_R in E by assumption. discriminate.
  - split.
    + intros N. eexists. now apply calculate_expected_goals_R.
    + intros (v & E) Z0.
      rewrite calculate_expected_goals_R_zero in E by assumption. discriminate.
  - reflexivity.
  - intros (Ha & He & _) (_ & _ & Hd). eexists. split.
    + apply calculate_expected_goals_R. lra.
    + now apply expected_goals_value_pos.
Qed.

Lemma calculate_expected_goals_errors_witness :
  valid_team teamA /\ valid_team teamB /\
  exists v : R,
    calculate_expected_goals teamA teamB true false = Ok v /\ (0 < v)%R.
Proof.
  split; [exact valid_teamA |]. split; [exact valid_teamB |].
  exact (proj2 (proj2 (proj2
           (calculate_expected_goals_errors teamA teamB true false)))
           valid_teamA valid_teamB).
Defined.

(** X11: [set_neutral_venue] changes the venue and nothing else, in any
    arithmetic.  Whatever the match was before, afterwards [simulate]
    computes the expected goals that it computes for a match constructed with
    the new venue flag; the result of a match already played is kept; of two
    calls the last one decides. *)
Theorem set_neutral_venue_effect {F : Type} `{PyFloat F} (m : Match F)
    (b b' : bool) :
  simulate_expected_goals (set_neutral_venue m b)
  = simulate_expected_goals (Match_init (home_team m) (away_team m) b) /\
  get_result (set_neutral_venue m b) = get_result m /\
  get_score_string (set_neutral_venue m b) = get_score_string m /\
  set_neutral_venue (set_neutral_venue m b) b' = set_neutral_venue m b' /\
  set_neutral_venue (Match_init (home_team m) (away_team m) b) b'
  = Match_init (home_team m) (away_team m) b'.
Proof. repeat split. Qed.

(** ** A single simulated match *)

Section SingleMatch.
Context {F : Type} `{PyFloat F}.
Variable Rng : Type.
Variable poisson : F -> Rng -> Exc (Z * Rng).

(** X12: when multiplying the home side's avg_xg_for by 1.0 returns it
    unchanged (neutral venue) and the away side's defensive_efficiency
    multiplied by [1 / 1.2] equals it divided by 1.2 (non-neutral venue),
    [simulate_match] computes the two means as [calculate_expected_goals]
    does, draws the home goals and then the away goals from the generator,
    and returns the result built from the two draws; once the draws have
    succeeded nothing else can raise.  Both conditions hold for all inputs in
    exact arithmetic. *)
Theorem simulate_match_draws (home away : Team F) (neutral : bool) (rng : Rng) :
  (neutral = true -> fmul (avg_xg_for home) lit_1_0 = avg_xg_for home) ->
  (neutral = false ->
   fmul (defensive_efficiency away) (fquot (of_int 1) lit_1_2)
   = fquot (defensive_efficiency away) lit_1_2) ->
  simulate_match poisson home away neutral rng
  = (lh <- calculate_expected_goals home away true neutral ;;
     la <- calculate_expected_goals away home false neutral ;;
     '(hg, rng1) <- poisson lh rng ;;
     '(ag, rng2) <- poisson la rng1 ;;
     Ok (result_of_goals home away (hg, ag), rng2)).
Proof.
  intros H1 H2. unfold simulate_match, simulate.
  rewrite (@simulate_expected_goals_calc F _ home away neutral H1 H2).
  destruct (calculate_expected_goals home away true neutral) as [lh | e];
    cbn [bind]; [| reflexivity].
  destruct (calculate_expected_goals away home false neutral) as [la | e];
    cbn [bind]; [| reflexivity].
  destruct (poisson lh rng) as [[hg g1] | e]; cbn [bind]; [| reflexivity].
  destruct (poisson la g1) as [[ag g2] | e]; cbn [bind]; reflexivity.
Qed.

End SingleMatch.

Lemma simulate_match_draws_witness :
  (false = true ->
   fmul (avg_xg_for (team64 1.37 0.93 1.07)) lit_1_0
   = avg_xg_for (team64 1.37 0.93 1.07)) /\
  (false = false ->
   fmul (defensive_efficiency (team64 1.12 1.05 0.88))
     (fquot (of_int 1) lit_1_2)
   = fquot (defensive_efficiency (team64 1.12 1.05 0.88)) lit_1_2) /\
  simulate_match tape_poisson_64 (team64 1.37 0.93 1.07)
    (team64 1.12 1.05 0.88) false [2; 1]%Z
  = (lh <- calculate_expected_goals (team64 1.37 0.93 1.07)
             (team64 1.12 1.05 0.88) true false ;;
     la <- calculate_expected_goals (team64 1.12 1.05 0.88)
             (team64 1.37 0.93 1.07) false false ;;
     '(hg, rng1) <- tape_poisson_64 lh [2; 1]%Z ;;
     '(ag, rng2) <- tape_poisson_64 la rng1 ;;
     Ok (result_of_goals (team64 1.37 0.93 1.07) (team64 1.12 1.05 0.88)
           (hg, ag), rng2)).
Proof.
  assert (H1 : false = true ->
               fmul (avg_xg_for (team64 1.37 0.93 1.07)) lit_1_0
               = avg_xg_for (team64 1.37 0.93 1.07))
    by (intros _; vm_compute; reflexivity).
  assert (H2 : false = false ->
               fmul (defensive_efficiency (team64 1.12 1.05 0.88))
                 (fquot (of_int 1) lit_1_2)
               = fquot (defensive_efficiency (team64 1.12 1.05 0.88)) lit_1_2)
    by (intros _; vm_compute; reflexivity).
  split; [exact H1 |]. split; [exact H2 |].
  exact (@simulate_match_draws float _ (list Z) tape_poisson_64
           (team64 1.37 0.93 1.07) (team64 1.12 1.05 0.88) false [2; 1]%Z
           H1 H2).
Defined.

(** ** The score string *)

Lemma score_string_has_dash {F : Type} (m : Match F) :
  played m = true -> has_char "-" (get_score_string m) = true.
Proof.
  intros E. unfold get_score_string. rewrite E. cbn [negb].
  rewrite !has_char_app. cbn. now rewrite !orb_true_r.
Qed.

(** X13: [get_score_string] never raises; it returns the text
    "Match not played yet" exactly for a match that has not been played,
    since the text for a played match contains a '-'; and for the match that
    [simulate] returns it is the two team names around the two draws. *)
Theorem get_score_string_played {F : Type} `{PyFloat F} (Rng : Type)
    (poisson : F -> Rng -> Exc (Z * Rng)) (m : Match F) :
  (get_score_string m = "Match not played yet"%string <-> played m = false) /\
  (get_score_string m = "Match not played yet"%string <->
   get_result m = Raise ValueError) /\
  forall (rng rng' : Rng) (m' : Match F),
    simulate poisson m rng = Ok (m', rng') ->
    get_score_string m'
    = (name (home_team m) ++ " " ++ str_int (home_goals m') ++ " - "
       ++ str_int (away_goals m') ++ " " ++ name (away_team m))%string.
Proof.
  assert (A : get_score_string m = "Match not played yet"%string
              <-> played m = false).
  { split.
    - intros E. destruct (played m) eqn:Ep; [| reflexivity].
      pose proof (score_string_has_dash m Ep) as Hd. rewrite E in Hd.
      discriminate.
    - intros E. unfold get_score_string. now rewrite E. }
  split; [exact A |]. split.
  - rewrite A. split.
    + apply get_result_unplayed.
    + intros E. destruct (played m) eqn:Ep; [| reflexivity].
      rewrite (get_result_of_played m Ep) in E. discriminate.
  - intros rng rng' m' Hsim.
    destruct (simulate_inv _ _ _ Hsim) as (Hp & Hh & Ha & _).
    unfold get_score_string. now rewrite Hp, Hh, Ha.
Qed.

Lemma get_score_string_played_witness :
  simulate tape_poisson_64 (Match_init teamA64 teamB64 false) [2; 1]%Z
  = Ok (played_match64, []) /\
  get_score_string played_match64 = "Team A 2 - 1 Team B"%string.
Proof.
  assert (E : simulate tape_poisson_64 (Match_init teamA64 teamB64 false)
                [2; 1]%Z = Ok (played_match64, []))
    by (vm_compute; reflexivity).
  split; [exact E |].
  exact (proj2 (proj2 (get_score_string_played tape_poisson_64
                         (Match_init teamA64 teamB64 false))) _ _ _ E).
Defined.

(** ** The exact scoreline probability *)

Lemma exp_series_term_le (x : R) (k : nat) :
  (0 <= x)%R -> (x ^ k / INR (fact k) <= exp x)%R.
Proof.
  intros Hx.
  set (An := fun i : nat => (/ INR (fact i) * x ^ i)%R).
  assert (Hpos : forall i : nat, (0 <= An i)%R).
  { intros i. unfold An. apply Rmult_le_pos.
    - left. apply Rinv_0_lt_compat, INR_fact_lt_0.
    - now apply pow_le. }
  assert (Hcv : Un_cv (fun n : nat => sum_f_R0 An n) (exp x)).
  { unfold exp. destruct (exist_exp x) as [l Hl]. exact Hl. }
  apply Rle_trans with (sum_f_R0 An k).
  - replace (x ^ k / INR (fact k))%R with (An k) by (unfold An, Rdiv; ring).
    destruct k as [| k]; [right; reflexivity |].
    cbn [sum_f_R0].
    pose proof (cond_pos_sum An k Hpos). lra.
  - now apply sum_incr.
Qed.

Lemma poisson_pmf_R_range (k : Z) (mu : R) :
  (0 <= k)%Z -> (0 < mu)%R -> (0 < poisson_pmf_R k mu <= 1)%R.
Proof.
  intros Hk Hmu. unfold poisson_pmf_R.
  destruct (Z.ltb_spec k 0) as [L | _]; [lia |].
  pose proof (exp_pos (- mu)) as He.
  pose proof (pow_lt mu (Z.to_nat k) Hmu) as Hp.
  pose proof (INR_fact_lt_0 (Z.to_nat k)) as Hf.
  split.
  - apply Rdiv_lt_0_compat; [| assumption]. now apply Rmult_lt_0_compat.
  - pose proof (@exp_series_term_le mu (Z.to_nat k) (Rlt_le _ _ Hmu)) as Hle.
    assert (E1 : (exp (- mu) * exp mu = 1)%R)
      by (rewrite <- exp_plus, Rplus_opp_l; apply exp_0).
    replace (exp (- mu) * mu ^ Z.to_nat k / INR (fact (Z.to_nat k)))%R
      with (exp (- mu) * (mu ^ Z.to_nat k / INR (fact (Z.to_nat k))))%R
      by (unfold Rdiv; ring).
    rewrite <- E1. apply Rmult_le_compat_l; [lra | exact Hle].
Qed.

(** X14: for valid profiles and goal counts that are not negative,
    [predict_score_probability] returns a probability: a number above 0 and
    at most 1. *)
Theorem predict_score_probability_range (home away : Team R)
    (hgoals agoals : Z) (neutral : bool) :
  valid_team home -> valid_team away ->
  (0 <= hgoals)%Z -> (0 <= agoals)%Z ->
  exists p : R,
    predict_score_probability poisson_pmf_R home away hgoals agoals neutral = Ok p
    /\ (0 < p <= 1)%R.
Proof.
  intros (Hha & Hhe & Hhd) (Haa & Hae & Had) Hh Ha.
  rewrite predict_score_probability_R by lra.
  eexists. split; [reflexivity |].
  pose proof (@poisson_pmf_R_range hgoals _ Hh
                (expected_goals_value_pos home away true neutral Hha Hhe Had))
    as [L1 U1].
  pose proof (@poisson_pmf_R_range agoals _ Ha
                (expected_goals_value_pos away home false neutral Haa Hae Hhd))
    as [L2 U2].
  split; [now apply Rmult_lt_0_compat |].
  rewrite <- (Rmult_1_l 1). apply Rmult_le_compat; lra.
Qed.

Lemma predict_score_probability_range_witness :
  valid_team teamA /\ valid_team teamB /\ (0 <= 2)%Z /\ (0 <= 1)%Z /\
  exists p : R,
    predict_score_probability poisson_pmf_R teamA teamB 2 1 true = Ok p
    /\ (0 < p <= 1)%R.
Proof.
  assert (H2 : (0 <= 2)%Z) by lia.
  assert (H1 : (0 <= 1)%Z) by lia.
  split; [exact valid_teamA |]. split; [exact valid_teamB |].
  split; [exact H2 |]. split; [exact H1 |].
  exact (predict_score_probability_range true valid_teamA valid_teamB H2 H1).
Defined.

(** X15: at a neutral venue [predict_score_probability] gives the same
    answer when the two teams and the two goal counts are exchanged, for
    every mass function (both calls raise when a defensive_efficiency is
    0). *)
Theorem predict_score_probability_neutral_swap (pmf : Z -> R -> R)
    (home away : Team R) (hgoals agoals : Z) :
  predict_score_probability pmf home away hgoals agoals true
  = predict_score_probability pmf away home agoals hgoals true.
Proof.
  destruct (Req_dec_T (defensive_efficiency home) 0) as [Zh | Nh];
    destruct (Req_dec_T (defensive_efficiency away) 0) as [Za | Na].
  - unfold predict_score_probability.
    rewrite (calculate_expected_goals_R_zero home away true true Za).
    rewrite (calculate_expected_goals_R_zero away home true true Zh).
    reflexivity.
  - unfold predict_score_probability.
    rewrite (calculate_expected_goals_R home away true true Na).
    rewrite (calculate_expected_goals_R_zero away home false true Zh).
    rewrite (calculate_expected_goals_R_zero away home true true Zh).
    reflexivity.
  - unfold predict_score_probability.
    rewrite (calculate_expected_goals_R_zero home away true true Za).
    rewrite (calculate_expected_goals_R away home true true Nh).
    rewrite (calculate_expected_goals_R_zero home away false true Za).
    reflexivity.
  - rewrite !predict_score_probability_R by assumption.
    unfold expected_goals_value. f_equal. apply Rmult_comm.
Qed.

(** ** Looking teams up *)

Section FindTeam.
Context {F : Type}.
Variable lower : string -> string.

Lemma team_matches_iff (nm se : string) (t : Team F) :
  team_matches lower nm se t = true <->
  lower (name t) = lower nm /\ season t = se.
Proof.
  unfold team_matches. rewrite andb_true_iff, !String.eqb_eq. reflexivity.
Qed.

Lemma find_team_in_none (l : list (Team F)) (nm se : string) :
  find_team_in lower l nm se = None <->
  forall t : Team F, In t l -> team_matches lower nm se t = false.
Proof.
  induction l as [| u l IH]; cbn.
  - split; [intros _ t [] | reflexivity].
  - destruct (team_matches lower nm se u) eqn:E.
    + split; [discriminate |]. intros Hall.
      rewrite (Hall u (or_introl eq_refl)) in E. discriminate.
    + rewrite IH. split.
      * intros Hall t [<- | Hin]; [assumption | now apply Hall].
      * intros Hall t Hin. apply Hall. now right.
Qed.

Lemma find_team_in_some (l : list (Team F)) (nm se : string) (t : Team F) :
  find_team_in lower l nm se = Some t <->
  exists before after : list (Team F),
    l = (before ++ t :: after)%list /\
    team_matches lower nm se t = true /\
    forall u : Team F, In u before -> team_matches lower nm se u = false.
Proof.
  induction l as [| u l IH]; cbn.
  - split; [discriminate |].
    intros (before & after & E & _). now destruct before.
  - destruct (team_matches lower nm se u) eqn:Eu.
    + split.
      * intros E. injection E as <-. exists [], l. repeat split; [assumption |].
        intros ? [].
      * intros (before & after & E & Ht & Hb).
        destruct before as [| b before]; cbn in E; injection E as E1 E2;
          subst; [reflexivity |].
        rewrite (Hb b (or_introl eq_refl)) in Eu. discriminate.
    + rewrite IH. split.
      * intros (before & after & -> & Ht & Hb).
        exists (u :: before), after. repeat split; [assumption |].
        intros v [<- | Hin]; [assumption | now apply Hb].
      * intros (before & after & E & Ht & Hb).
        destruct before as [| b before]; cbn in E; injection E as E1 E2; subst.
        -- rewrite Ht in Eu. discriminate.
        -- exists before, after. repeat split; [assumption |].
           intros v Hin. apply Hb. now right.
Qed.

(** X16: [find_team] returns the first team, in loading order, whose name
    equals the requested name after both are lower-cased and whose season
    equals the requested season exactly; it returns None exactly when no team
    qualifies; and two names with the same lower-case form find the same
    team. *)
Theorem find_team_first_match (self : TeamManager F) (nm se : string) :
  (find_team lower self nm se = None <->
   forall t : Team F,
     In t (teams self) -> ~ (lower (name t) = lower nm /\ season t = se)) /\
  (forall t : Team F,
     find_team lower self nm se = Some t <->
     exists before after : list (Team F),
       teams self = (before ++ t :: after)%list /\
       lower (name t) = lower nm /\ season t = se /\
       forall u : Team F,
         In u before -> ~ (lower (name u) = lower nm /\ season u = se)) /\
  (forall nm' : string,
     lower nm' = lower nm ->
     find_team lower self nm' se = find_team lower self nm se).
Proof.
  unfold find_team. split; [| split].
  - rewrite find_team_in_none. split; intros Hall t Hin.
    + rewrite <- team_matches_iff. rewrite (Hall t Hin). discriminate.
    + specialize (Hall t Hin). rewrite <- team_matches_iff in Hall.
      now destruct (team_matches lower nm se t).
  - intros t. rewrite find_team_in_some. split.
    + intros (before & after & E & Ht & Hb). exists before, after.
      apply team_matches_iff in Ht as [H1 H2]. repeat split; try assumption.
      intros u Hin. rewrite <- team_matches_iff. rewrite (Hb u Hin). discriminate.
    + intros (before & after & E & H1 & H2 & Hb). exists before, after.
      split; [assumption |]. split; [now apply team_matches_iff |].
      intros u Hin. specialize (Hb u Hin). rewrite <- team_matches_iff in Hb.
      now destruct (team_matches lower nm se u).
  - intros nm' E. induction (teams self) as [| u l IH]; cbn; [reflexivity |].
    rewrite IH. unfold team_matches. now rewrite E.
Qed.

Lemma find_team_in_filter_season (l : list (Team F)) (nm se : string) :
  find_team_in lower (filter (fun team => String.eqb (season team) se) l) nm se
  = find_team_in lower l nm se.
Proof.
  induction l as [| u l IH]; cbn [filter find_team_in]; [reflexivity |].
  destruct (String.eqb (season u) se) eqn:Es; cbn [find_team_in].
  - now rewrite IH.
  - rewrite IH. unfold team_matches. now rewrite Es, andb_false_r.
Qed.

(** X17: every team of the manager is found under its own name and season:
    the lookup returns a team with the same lower-cased name and the same
    season, which is the team itself when no two teams share both; and
    looking a team up is the same as looking it up among
    [get_teams_by_season] of the season asked for. *)
Theorem find_team_of_loaded (self : TeamManager F) (t : Team F) :
  In t (get_all_teams self) ->
  (exists u : Team F,
     find_team lower self (name t) (season t) = Some u /\
     lower (name u) = lower (name t) /\ season u = season t /\
     In u (get_teams_by_season self (season t))) /\
  ((forall u v : Team F,
      In u (teams self) -> In v (teams self) ->
      lower (name u) = lower (name v) -> season u = season v -> u = v) ->
   find_team lower self (name t) (season t) = Some t) /\
  (forall nm se : string,
     find_team lower (mkTeamManager (get_teams_by_season self se)) nm se
     = find_team lower self nm se).
Proof.
  intros Hin. unfold get_all_teams in Hin.
  assert (Hex : exists u : Team F,
             find_team lower self (name t) (season t) = Some u).
  { unfold find_team.
    destruct (find_team_in lower (teams self) (name t) (season t)) as [u |] eqn:E;
      [now exists u |].
    rewrite find_team_in_none in E. specialize (E t Hin).
    assert (M : team_matches lower (name t) (season t) t = true)
      by now apply team_matches_iff.
    congruence. }
  destruct Hex as (u & Hu).
  assert (Hspec := Hu). unfold find_team in Hspec.
  apply find_team_in_some in Hspec as (before & after & E & Hm & _).
  apply team_matches_iff in Hm as [H1 H2].
  assert (Hinu : In u (teams self))
    by (rewrite E; apply in_or_app; right; now left).
  split; [| split].
  - exists u. repeat split; try assumption.
    unfold get_teams_by_season. apply filter_In. split; [assumption |].
    now apply String.eqb_eq.
  - intros Huniq. rewrite Hu. f_equal. now apply Huniq.
  - intros nm se. unfold find_team, get_teams_by_season. cbn [teams].
    apply find_team_in_filter_season.
Qed.

End FindTeam.

Lemma find_team_of_loaded_witness :
  In teamB64 (get_all_teams sample_manager64) /\
  (exists u : Team float,
     find_team lower_ascii sample_manager64 (name teamB64) (season teamB64)
     = Some u /\
     lower_ascii (name u) = lower_ascii (name teamB64) /\
     season u = season teamB64 /\
     In u (get_teams_by_season sample_manager64 (season teamB64))) /\
  ((forall u v : Team float,
      In u (teams sample_manager64) -> In v (teams sample_manager64) ->
      lower_ascii (name u) = lower_ascii (name v) -> season u = season v ->
      u = v) ->
   find_team lower_ascii sample_manager64 (name teamB64) (season teamB64)
   = Some teamB64) /\
  (forall nm se : string,
     find_team lower_ascii
       (mkTeamManager (get_teams_by_season sample_manager64 se)) nm se
     = find_team lower_ascii sample_manager64 nm se).
Proof.
  assert (Hin : In teamB64 (get_all_teams sample_manager64))
    by (right; left; reflexivity).
  split; [exact Hin |].
  exact (find_team_of_loaded lower_ascii sample_manager64 teamB64 Hin).
Defined.

(** The lookup ignores the case of the name but not of the season. *)
Example find_team_case :
  find_team lower_ascii sample_manager64 "TEAM b" "2024-2025" = Some teamB64 /\
  find_team lower_ascii sample_manager64 "Team B" "2024-2026" = None.
Proof. split; reflexivity. Qed.

(** ** The goal distributions of [plot_simulation_results] *)

Lemma fold_max_le (ks : list Z) :
  forall k0 : Z,
    (k0 <= fold_left Z.max ks k0)%Z /\
    forall k, In k ks -> (k <= fold_left Z.max ks k0)%Z.
Proof.
  induction ks as [| a ks IH]; intros k0; cbn [fold_left].
  - split; [lia | intros k []].
  - destruct (IH (Z.max k0 a)) as [H0 H1]. split; [lia |].
    intros k [<- | Hin]; [lia | now apply H1].
Qed.

Lemma max_key_or_0_upper (d : dict Z Z) (k : Z) :
  In k (dict_keys d) -> (k <= max_key_or_0 d)%Z.
Proof.
  unfold max_key_or_0. destruct (dict_keys d) as [| k0 ks]; [intros [] |].
  destruct (fold_max_le ks k0) as [H0 H1].
  intros [<- | Hin]; [exact H0 | now apply H1].
Qed.

Lemma range_In (n k : Z) : In k (range n) <-> (0 <= k < n)%Z.
Proof.
  unfold range. rewrite in_map_iff. split.
  - intros (i & <- & Hi). apply in_seq in Hi. lia.
  - intros Hk. exists (Z.to_nat k). split; [lia |]. apply in_seq. lia.
Qed.

Lemma range_NoDup (n : Z) : NoDup (range n).
Proof.
  unfold range. apply NoDup_map_NoDup_ForallPairs; [| apply seq_NoDup].
  intros x y _ _ E. lia.
Qed.

Lemma range_length (n : Z) : List.length (range n) = Z.to_nat n.
Proof. unfold range. now rewrite length_map, length_seq. Qed.

Lemma dict_get_absent (d : dict Z Z) (k : Z) :
  ~ In k (dict_keys d) -> dict_get Z.eqb d k 0%Z = 0%Z.
Proof.
  unfold dict_keys. induction d as [| [k0 v0] rest IH]; cbn; intros Hk.
  - reflexivity.
  - destruct (Z.eqb_spec k0 k) as [E | N]; [exfalso; apply Hk; now left |].
    apply IH. intros Hin. apply Hk. now right.
Qed.

(** Adding [v] at one place of a list without repetition adds [v] to the
    sum. *)
Lemma Zsum_update (f : Z -> Z) (k v : Z) (l : list Z) :
  NoDup l ->
  Zsum (map (fun i => if (k =? i)%Z then v else f i) l)
  = (Zsum (map f l) + if existsb (Z.eqb k) l then v - f k else 0)%Z.
Proof.
  induction 1 as [| a l Ha Hl IH]; cbn [map Zsum fold_right existsb].
  - reflexivity.
  - fold (Zsum (map (fun i => if (k =? i)%Z then v else f i) l)).
    fold (Zsum (map f l)). rewrite IH.
    destruct (Z.eqb_spec k a) as [<- | N]; cbn [orb].
    + destruct (existsb (Z.eqb k) l) eqn:Ex; [| lia].
      apply existsb_exists in Ex. destruct Ex as (x & Hx & E).
      apply Z.eqb_eq in E. subst x. contradiction.
    + lia.
Qed.

(** Reading every key of a table whose keys lie in [range n] adds up to the
    sum of its values. *)
Lemma Zsum_dict_get_range (d : dict Z Z) (n : Z) :
  NoDup (dict_keys d) ->
  (forall k, In k (dict_keys d) -> (0 <= k < n)%Z) ->
  Zsum (map (fun i => dict_get Z.eqb d i 0%Z) (range n)) = dict_total d.
Proof.
  unfold dict_total, dict_values, dict_keys.
  induction d as [| [k v] rest IH]; cbn [map fold_right dict_get fst snd];
    intros Hnd Hin.
  - induction (range n) as [| a l IHl]; cbn; [reflexivity | exact IHl].
  - inversion Hnd as [| ? ? Hk Hrest]; subst.
    rewrite (Zsum_update (fun i => dict_get Z.eqb rest i 0%Z) k v (range_NoDup n)).
    rewrite IH by (try assumption; intros k' Hk'; apply Hin; now right).
    assert (Ex : existsb (Z.eqb k) (range n) = true).
    { apply existsb_exists. exists k. split; [| apply Z.eqb_refl].
      apply range_In, Hin. now left. }
    rewrite Ex, (dict_get_absent rest k Hk). lia.
Qed.

Lemma dict_incr_key_in {K : Type} (keq : K -> K -> bool) (d : dict K Z)
    (k k' : K) :
  In k' (dict_keys (dict_incr keq d k)) -> In k' (dict_keys d) \/ k' = k.
Proof.
  rewrite dict_incr_keys. destruct (dict_mem keq d k); [now left |].
  rewrite in_app_iff. intros [Hin | [<- | []]]; [now left | now right].
Qed.

Section GoalKeys.
Context {F : Type}.
Variables home away : Team F.

(** The keys of the goal tables are the goal counts recorded, each once. *)
Lemma recorded_goal_keys (os : list (Z * Z)) :
  forall t : Tally,
    Forall nonneg_outcome os ->
    NoDup (dict_keys (home_goal_counts t)) ->
    NoDup (dict_keys (away_goal_counts t)) ->
    Forall (fun k => (0 <= k)%Z) (dict_keys (home_goal_counts t)) ->
    Forall (fun k => (0 <= k)%Z) (dict_keys (away_goal_counts t)) ->
    let t' := fold_left record_result (map (result_of_goals home away) os) t in
    NoDup (dict_keys (home_goal_counts t')) /\
    NoDup (dict_keys (away_goal_counts t')) /\
    Forall (fun k => (0 <= k)%Z) (dict_keys (home_goal_counts t')) /\
    Forall (fun k => (0 <= k)%Z) (dict_keys (away_goal_counts t')).
Proof.
  induction os as [| o os IH]; intros t Hos Nh Na Ph Pa.
  - cbn. repeat split; assumption.
  - inversion Hos as [| ? ? [Ho1 Ho2] Hrest]; subst.
    cbn [map fold_left]. cbv zeta.
    destruct (record_result_of_goals home away t o)
      as (_ & _ & _ & _ & _ & _ & R1 & R2).
    apply IH; [assumption | | | |]; rewrite ?R1, ?R2.
    + now apply (@dict_incr_NoDup Z Z.eqb Z_eqb_spec_iff).
    + now apply (@dict_incr_NoDup Z Z.eqb Z_eqb_spec_iff).
    + apply Forall_forall. intros k Hk.
      destruct (dict_incr_key_in _ _ _ _ Hk) as [Hin | ->]; [| assumption].
      rewrite Forall_forall in Ph, Pa. auto.
    + apply Forall_forall. intros k Hk.
      destruct (dict_incr_key_in _ _ _ _ Hk) as [Hin | ->]; [| assumption].
      rewrite Forall_forall in Ph, Pa. auto.
Qed.

End GoalKeys.

Lemma Rsum_scaled (g : Z -> Z) (n : Z) (l : list Z) :
  Rsum (map (fun i => (IZR (g i) / IZR n)%R) l)
  = (IZR (Zsum (map g l)) / IZR n)%R.
Proof.
  induction l as [| a l IH]; cbn [map Rsum Zsum fold_right].
  - lra.
  - fold (Rsum (map (fun i => (IZR (g i) / IZR n)%R) l)).
    fold (Zsum (map g l)). rewrite IH, plus_IZR. lra.
Qed.

Lemma count_poisson_R_total : sampler_total count_poisson_R.
Proof.
  intros lam g Hl. unfold count_poisson_R.
  destruct (Rlt_dec lam 0) as [L | _]; [lra |].
  destruct g as [| k rest]; eauto.
Qed.

Lemma count_poisson_R_nonneg : sampler_nonneg count_poisson_R.
Proof.
  intros lam g g' k. unfold count_poisson_R.
  destruct (Rlt_dec lam 0) as [_ | _]; [discriminate |].
  destruct g as [| k0 rest]; intros E; injection E as <- _; lia.
Qed.

Section PlotR.
Variable Rng : Type.
Variable poisson : R -> Rng -> Exc (Z * Rng).

(** X18: after a run of n >= 1 trials whose draws are not negative,
    [plot_simulation_results] called without results uses the results of
    that run, and the two goal distributions it plots have the same length,
    [max_goals + 1], and each adds up to 1. *)
Theorem plot_goal_distributions_sum (sim sim' : MatchSimulator R)
    (home away : Team R) (n : Z) (neutral : bool) (rng rng' : Rng)
    (r : Results R) :
  sampler_nonneg poisson ->
  (1 <= n)%Z ->
  run_simulations poisson sim home away n neutral rng = Ok (r, sim', rng') ->
  plot_results_used sim' None = Ok r /\
  exists home_goals_distribution away_goals_distribution : list R,
    plot_goal_distributions r
    = Ok (home_goals_distribution, away_goals_distribution) /\
    List.length home_goals_distribution = List.length away_goals_distribution /\
    Z.of_nat (List.length home_goals_distribution)
    = (Z.max (max_key_or_0 (home_goal_counts (tally r)))
             (max_key_or_0 (away_goal_counts (tally r))) + 1)%Z /\
    Rsum home_goals_distribution = 1%R /\
    Rsum away_goals_distribution = 1%R.
Proof.
  intros Hnn Hn Hrun.
  assert (H0 : (0 <= n)%Z) by lia.
  destruct (run_simulations_outcomes _ _ _ _ _ _ H0 Hrun)
    as (os & Hlen & Hplay & Ht & Hnum & Hsim).
  destruct (@run_simulations_counts_any R _ Rng poisson sim sim' home away n
              neutral rng rng' r H0 Hrun) as (_ & _ & _ & Th & Ta).
  pose proof (@played_out_nonneg R _ Rng poisson home away neutral os Hnn
                rng rng' Hplay) as Hos.
  destruct (recorded_goal_keys home away empty_tally Hos
              (NoDup_nil Z) (NoDup_nil Z) (Forall_nil _) (Forall_nil _))
    as (Nh & Na & Ph & Pa).
  fold (tally_of home away os) in Nh, Na, Ph, Pa. rewrite <- Ht in Nh, Na, Ph, Pa.
  split; [subst sim'; reflexivity |].
  unfold plot_goal_distributions. rewrite Hnum.
  set (M := Z.max (max_key_or_0 (home_goal_counts (tally r)))
                  (max_key_or_0 (away_goal_counts (tally r)))).
  assert (Nn : IZR n <> 0%R) by (apply not_0_IZR; lia).
  rewrite (map_exc_ok _
             (fun i => (IZR (dict_get Z.eqb (home_goal_counts (tally r)) i 0%Z)
                        / IZR n)%R))
    by (intros i _; cbn [of_int PyFloat_R]; now apply pydiv_R_ok).
  cbn [bind].
  rewrite (map_exc_ok _
             (fun i => (IZR (dict_get Z.eqb (away_goal_counts (tally r)) i 0%Z)
                        / IZR n)%R))
    by (intros i _; cbn [of_int PyFloat_R]; now apply pydiv_R_ok).
  cbn [bind]. eexists _, _. split; [reflexivity |].
  assert (HM : (0 <= M)%Z).
  { destruct os as [| o os']; [cbn in Hlen; lia |].
    assert (Hk : exists k, In k (dict_keys (home_goal_counts (tally r)))).
    { destruct (dict_keys (home_goal_counts (tally r))) as [| k ks] eqn:Ek.
      - exfalso. unfold dict_total, dict_values, dict_keys in *.
        destruct (home_goal_counts (tally r)); [cbn in Th; lia | discriminate].
      - exists k. now left. }
    destruct Hk as (k & Hk).
    pose proof (max_key_or_0_upper _ _ Hk) as Hu.
    rewrite Forall_forall in Ph. specialize (Ph k Hk). unfold M. lia. }
  rewrite !length_map, !range_length. repeat split.
  - lia.
  - rewrite Rsum_scaled, Zsum_dict_get_range, Th; [now field | assumption |].
    intros k Hk. rewrite Forall_forall in Ph. specialize (Ph k Hk).
    pose proof (max_key_or_0_upper _ _ Hk). unfold M. lia.
  - rewrite Rsum_scaled, Zsum_dict_get_range, Ta; [now field | assumption |].
    intros k Hk. rewrite Forall_forall in Pa. specialize (Pa k Hk).
    pose proof (max_key_or_0_upper _ _ Hk). unfold M. lia.
Qed.

End PlotR.

(** Without a run and without results there is nothing to plot. *)
Example plot_results_used_none :
  plot_results_used nosim None = Raise ValueError /\
  plot_results_used nosim64 (Some sample_results64) = Ok sample_results64.
Proof. split; reflexivity. Qed.

Lemma sample_count_run_R :
  exists (r : Results R) (rng' : list nat),
    run_simulations count_poisson_R nosim teamA teamB 4 false sample_counts
    = Ok (r, {| last_simulation_results := Some r |}, rng').
Proof.
  destruct (@for_range_trial_total (list nat) count_poisson_R teamA teamB false
              (Z.to_nat 4) count_poisson_R_total valid_teamA valid_teamB
              empty_tally sample_counts) as (t & g & Hloop).
  destruct (@run_simulations_finish (list nat) count_poisson_R nosim teamA teamB 4
              false sample_counts g t) as (r & Hrun & _); [lia | exact Hloop |].
  now exists r, g.
Qed.

Lemma plot_goal_distributions_sum_witness :
  sampler_nonneg count_poisson_R /\ (1 <= 4)%Z /\
  exists (r : Results R) (rng' : list nat),
    run_simulations count_poisson_R nosim teamA teamB 4 false sample_counts
    = Ok (r, {| last_simulation_results := Some r |}, rng') /\
    plot_results_used {| last_simulation_results := Some r |} None = Ok r /\
    exists home_goals_distribution away_goals_distribution : list R,
      plot_goal_distributions r
      = Ok (home_goals_distribution, away_goals_distribution) /\
      List.length home_goals_distribution
      = List.length away_goals_distribution /\
      Z.of_nat (List.length home_goals_distribution)
      = (Z.max (max_key_or_0 (home_goal_counts (tally r)))
               (max_key_or_0 (away_goal_counts (tally r))) + 1)%Z /\
      Rsum home_goals_distribution = 1%R /\
      Rsum away_goals_distribution = 1%R.
Proof.
  split; [exact count_poisson_R_nonneg |]. split; [lia |].
  destruct sample_count_run_R as (r & g & Hrun).
  exists r, g. split; [exact Hrun |].
  refine (@plot_goal_distributions_sum (list nat) count_poisson_R nosim _ teamA
            teamB 4 false sample_counts g r count_poisson_R_nonneg _ Hrun).
  lia.
Defined.

(** ** Display names read back *)

Lemma prefix_sep_paren (c : ascii) (rest : string) :
  String.prefix " (" (String c rest)
  = Ascii.eqb c " " &&
    match rest with
    | EmptyString => false
    | String d _ => Ascii.eqb d "("
    end.
Proof.
  cbn [String.prefix]. destruct (ascii_dec " " c) as [<- | N].
  - rewrite Ascii.eqb_refl. cbn [andb]. destruct rest as [| d rest']; [reflexivity |].
    cbn [String.prefix]. destruct (ascii_dec "(" d) as [<- | N'].
    + rewrite Ascii.eqb_refl. now destruct rest'.
    + symmetry. apply Ascii.eqb_neq. congruence.
  - assert (E : Ascii.eqb c " " = false) by (apply Ascii.eqb_neq; congruence).
    now rewrite E.
Qed.

Lemma split_paren_free (s cur : string) :
  has_char "(" s = false -> split_from " (" 0 cur s = [(cur ++ s)%string].
Proof.
  revert cur. induction s as [| c rest IH]; intros cur Hs.
  - cbn. now rewrite append_empty_r.
  - cbn [has_char] in Hs. apply orb_false_elim in Hs as [Hc Hrest].
    cbn [split_from]. rewrite prefix_sep_paren.
    assert (Hd : match rest with
                 | EmptyString => false
                 | String d _ => Ascii.eqb d "("
                 end = false).
    { destruct rest as [| d rest']; [reflexivity |].
      cbn [has_char] in Hrest. now apply orb_false_elim in Hrest as [Hd _]. }
    rewrite Hd, andb_false_r, IH by assumption. now rewrite append_assoc.
Qed.

Lemma split_at_paren (s1 s2 cur : string) :
  has_char "(" s1 = false ->
  split_from " (" 0 cur (s1 ++ " (" ++ s2)
  = (cur ++ s1)%string :: split_from " (" 0 EmptyString s2.
Proof.
  change (" (" ++ s2)%string with (String " " (String "(" s2)).
  revert cur. induction s1 as [| c rest IH]; intros cur Hs.
  - cbn [String.append split_from]. rewrite prefix_sep_paren.
    cbn. now rewrite append_empty_r.
  - cbn [has_char] in Hs. apply orb_false_elim in Hs as [Hc Hrest].
    cbn [String.append split_from]. rewrite prefix_sep_paren.
    assert (Hd : match (rest ++ String " " (String "(" s2))%string with
                 | EmptyString => false
                 | String d _ => Ascii.eqb d "("
                 end = false).
    { destruct rest as [| d rest']; [reflexivity |].
      cbn [has_char] in Hrest. now apply orb_false_elim in Hrest as [Hd _]. }
    rewrite Hd, andb_false_r, IH by assumption. now rewrite append_assoc.
Qed.

Lemma rstrip_char_closing (c : ascii) (s : string) :
  has_char c s = false ->
  rstrip_char c (s ++ String c EmptyString) = s.
Proof.
  induction s as [| a rest IH]; intros Hs.
  - cbn. now rewrite Ascii.eqb_refl.
  - cbn [has_char] in Hs. apply orb_false_elim in Hs as [Ha Hrest].
    cbn [String.append rstrip_char]. rewrite IH by assumption.
    destruct rest; [now rewrite Ha | reflexivity].
Qed.

Section DisplayNames.
Context {F : Type} `{PyFloat F}.

Lemma display_name_split (t : Team F) :
  has_char "(" (name t) = false ->
  has_char "(" (season t) = false ->
  py_split " (" (get_display_name t)
  = [name t; (season t ++ ")")%string].
Proof.
  intros Hn Hs. unfold py_split, get_display_name.
  rewrite split_at_paren by assumption.
  rewrite split_paren_free.
  - reflexivity.
  - rewrite has_char_app, Hs. reflexivity.
Qed.

Lemma display_name_first_piece (t : Team F) :
  has_char "(" (name t) = false ->
  nth_error (py_split " (" (get_display_name t)) 0 = Some (name t).
Proof.
  intros Hn. unfold py_split, get_display_name.
  now rewrite split_at_paren by assumption.
Qed.

Variable Rng : Type.
Variable poisson : F -> Rng -> Exc (Z * Rng).

Lemma run_simulations_names (sim sim' : MatchSimulator F)
    (home away : Team F) (n : Z) (neutral : bool) (rng rng' : Rng)
    (r : Results F) :
  run_simulations poisson sim home away n neutral rng = Ok (r, sim', rng') ->
  r_home_team r = get_display_name home /\
  r_away_team r = get_display_name away /\
  venue_type r = (if neutral then "Neutral Venue" else "Home/Away")%string.
Proof.
  unfold run_simulations.
  destruct (for_range (Z.to_nat n) (trial poisson home away neutral)
              (empty_tally, rng)) as [[t g] | e];
    cbn [bind]; [| discriminate].
  destruct (pydiv _ _); cbn [bind]; [| discriminate].
  destruct (pydiv _ _); cbn [bind]; [| discriminate].
  destruct (pydiv _ _); cbn [bind]; [| discriminate].
  destruct (pydiv _ _); cbn [bind]; [| discriminate].
  destruct (pydiv _ _); cbn [bind]; [| discriminate].
  destruct (most_common _ _); cbn [bind]; [| discriminate].
  intros E. injection E as <- _ _. repeat split.
Qed.

(** X19: when neither team's name contains an opening parenthesis, the
    legend labels that [plot_simulation_results] derives from the results of
    a run are the two teams' names, without the season. *)
Theorem plot_team_labels_names (sim sim' : MatchSimulator F)
    (home away : Team F) (n : Z) (neutral : bool) (rng rng' : Rng)
    (r : Results F) :
  has_char "(" (name home) = false ->
  has_char "(" (name away) = false ->
  run_simulations poisson sim home away n neutral rng = Ok (r, sim', rng') ->
  plot_team_labels r = (Some (name home), Some (name away)).
Proof.
  intros Hh Ha Hrun.
  destruct (run_simulations_names _ _ _ _ _ _ Hrun) as (Eh & Ea & _).
  unfold plot_team_labels. rewrite Eh, Ea.
  now rewrite !display_name_first_piece by assumption.
Qed.

End DisplayNames.

Lemma plot_team_labels_names_witness :
  has_char "(" (name teamA64) = false /\
  has_char "(" (name teamB64) = false /\
  run_simulations tape_poisson_64 nosim64 teamA64 teamB64 3 false sample_tape
  = Ok (sample_results64,
        {| last_simulation_results := Some sample_results64 |}, []) /\
  plot_team_labels sample_results64 = (Some (name teamA64), Some (name teamB64)).
Proof.
  split; [reflexivity |]. split; [reflexivity |]. split; [exact sample_run64 |].
  exact (@plot_team_labels_names float _ (list Z) tape_poisson_64 nosim64 _
           teamA64 teamB64 3 false sample_tape [] sample_results64
           eq_refl eq_refl sample_run64).
Defined.

(** A name with a parenthesised part is cut at it in the legend. *)
Example plot_team_label_cut :
  nth_error
    (py_split " (" (get_display_name (mkTeam "Inter (Milan)" "2009-2010" 1%R 1%R 1%R)))
    0
  = Some "Inter"%string.
Proof. reflexivity. Qed.

Section Selection.
Context {F : Type}.
Variable lower : string -> string.

Lemma find_team_member (self : TeamManager F) (t : Team F) :
  In t (teams self) ->
  exists u : Team F,
    find_team lower self (name t) (season t) = Some u /\
    In u (teams self) /\
    lower (name u) = lower (name t) /\ season u = season t.
Proof.
  intros Hin. unfold find_team.
  destruct (find_team_in lower (teams self) (name t) (season t)) as [u |] eqn:E.
  - exists u. split; [reflexivity |].
    apply find_team_in_some in E as (before & after & E & Hm & _).
    apply team_matches_iff in Hm as [H1 H2].
    repeat split; try assumption.
    rewrite E. apply in_or_app. right. now left.
  - rewrite find_team_in_none in E. specialize (E t Hin).
    assert (M : team_matches lower (name t) (season t) t = true)
      by now apply team_matches_iff.
    congruence.
Qed.

(** X20: in the web page, the entry that the selection boxes show for a
    loaded team leads back to a team with the same lower-cased name and the
    same season, and to that very team when no two loaded teams share both,
    provided the name and the season contain no opening parenthesis and the
    season no closing one. *)
Theorem selected_team_roundtrip (team_manager : TeamManager F) (t : Team F) :
  In t (get_all_teams team_manager) ->
  has_char "(" (name t) = false ->
  has_char "(" (season t) = false ->
  has_char ")" (season t) = false ->
  In (get_display_name t) (team_options (get_all_teams team_manager)) /\
  (exists u : Team F,
     selected_team lower team_manager (get_display_name t) = Ok (Some u) /\
     In u (get_all_teams team_manager) /\
     lower (name u) = lower (name t) /\ season u = season t) /\
  ((forall u v : Team F,
      In u (teams team_manager) -> In v (teams team_manager) ->
      lower (name u) = lower (name v) -> season u = season v -> u = v) ->
   selected_team lower team_manager (get_display_name t) = Ok (Some t)).
Proof.
  intros Hin Hn Hs Hc. unfold get_all_teams in *.
  assert (Esel : selected_team lower team_manager (get_display_name t)
                 = Ok (find_team lower team_manager (name t) (season t))).
  { unfold selected_team, py_split, get_display_name.
    rewrite split_at_paren by assumption.
    rewrite split_paren_free by (rewrite has_char_app, Hs; reflexivity).
    cbn [String.append]. now rewrite rstrip_char_closing. }
  destruct (find_team_member team_manager t Hin) as (u & Hu & Hinu & H1 & H2).
  split; [| split].
  - unfold team_options. apply in_map_iff. exists t. now split.
  - exists u. rewrite Esel, Hu. repeat split; assumption.
  - intros Huniq. rewrite Esel, Hu. do 2 f_equal. now apply Huniq.
Qed.

End Selection.

Lemma selected_team_roundtrip_witness :
  In teamB64 (get_all_teams sample_manager64) /\
  has_char "(" (name teamB64) = false /\
  has_char "(" (season teamB64) = false /\
  has_char ")" (season teamB64) = false /\
  In (get_display_name teamB64) (team_options (get_all_teams sample_manager64)) /\
  (exists u : Team float,
     selected_team lower_ascii sample_manager64 (get_display_name teamB64)
     = Ok (Some u) /\
     In u (get_all_teams sample_manager64) /\
     lower_ascii (name u) = lower_ascii (name teamB64) /\
     season u = season teamB64) /\
  ((forall u v : Team float,
      In u (teams sample_manager64) -> In v (teams sample_manager64) ->
      lower_ascii (name u) = lower_ascii (name v) -> season u = season v ->
      u = v) ->
   selected_team lower_ascii sample_manager64 (get_display_name teamB64)
   = Ok (Some teamB64)).
Proof.
  assert (Hin : In teamB64 (get_all_teams sample_manager64))
    by (right; left; reflexivity).
  split; [exact Hin |].
  split; [reflexivity |]. split; [reflexivity |]. split; [reflexivity |].
  exact (selected_team_roundtrip lower_ascii sample_manager64 teamB64 Hin
           eq_refl eq_refl eq_refl).
Defined.

(** A name with a parenthesised part cannot be selected: the unpacking of
    the split raises. *)
Example selected_team_parenthesised_name :
  selected_team lower_ascii
    (mkTeamManager [mkTeam "Inter (Milan)" "2009-2010" 1%R 1%R 1%R])
    "Inter (Milan) (2009-2010)"
  = Raise ValueError.
Proof. reflexivity. Qed.

(** ** The figures of the web page *)

Lemma sum_counts_if_set {K : Type} (keq : K -> K -> bool)
    (keq_spec : forall a b : K, keq a b = true <-> a = b)
    (p : K -> bool) (d : dict K Z) (k : K) (v : Z) :
  sum_counts_if p (dict_set keq d k v)
  = (sum_counts_if p d + if p k then v - dict_get keq d k 0 else 0)%Z.
Proof.
  unfold sum_counts_if, dict_items, Zsum.
  induction d as [| [k' v'] rest IH]; cbn [dict_set dict_get].
  - cbn. destruct (p k); cbn; lia.
  - destruct (keq k' k) eqn:E.
    + apply keq_spec in E. subst k'. cbn [filter fst].
      destruct (p k); cbn [map snd fold_right]; lia.
    + cbn [filter fst].
      destruct (p k'); cbn [map snd fold_right]; rewrite IH; lia.
Qed.

Lemma sum_counts_if_incr {K : Type} (keq : K -> K -> bool)
    (keq_spec : forall a b : K, keq a b = true <-> a = b)
    (p : K -> bool) (d : dict K Z) (k : K) :
  sum_counts_if p (dict_incr keq d k)
  = (sum_counts_if p d + if p k then 1 else 0)%Z.
Proof.
  unfold dict_incr. rewrite sum_counts_if_set by assumption.
  destruct (p k); lia.
Qed.

Lemma sum_counts_where_ok (pe : string -> Exc bool) (p : string -> bool)
    (items : dict string Z) :
  (forall k, In k (dict_keys items) -> pe k = Ok (p k)) ->
  sum_counts_where pe items = Ok (sum_counts_if p items).
Proof.
  unfold sum_counts_if, dict_items, dict_keys, Zsum.
  induction items as [| [k v] rest IH]; intros Hp; cbn [sum_counts_where].
  - reflexivity.
  - rewrite (Hp k) by now left. cbn [bind].
    rewrite IH by (intros k' Hk'; apply Hp; now right). cbn [bind filter fst].
    destruct (p k); reflexivity.
Qed.

Lemma score_line_pieces (o : Z * Z) :
  nonneg_outcome o ->
  py_split "-" (score_line o) = [str_int (fst o); str_int (snd o)].
Proof.
  intros [Hh Ha]. unfold py_split, score_line.
  change ("-" ++ str_int (snd o))%string with (String "-" (str_int (snd o))).
  rewrite split_at_dash by now apply str_int_no_dash.
  rewrite split_dash_free by now apply str_int_no_dash.
  reflexivity.
Qed.

Lemma score_total_line (o : Z * Z) :
  nonneg_outcome o -> score_total (score_line o) = Ok (fst o + snd o)%Z.
Proof.
  intros Ho. unfold score_total. rewrite score_line_pieces by assumption.
  cbn [map_exc]. rewrite !py_int_str_int. cbn [bind Zsum fold_right].
  f_equal. lia.
Qed.

Lemma all_positive_line (o : Z * Z) :
  nonneg_outcome o ->
  all_positive (py_split "-" (score_line o))
  = Ok ((fst o >? 0)%Z && (snd o >? 0)%Z).
Proof.
  intros Ho. rewrite score_line_pieces by assumption.
  cbn [all_positive]. rewrite py_int_str_int. cbn [bind].
  destruct (fst o >? 0)%Z; [| reflexivity].
  rewrite py_int_str_int. cbn [bind]. now destruct (snd o >? 0)%Z.
Qed.

Lemma gt_2_5_spec (x : Z) : gt_2_5 x = (3 <=? x)%Z.
Proof.
  unfold gt_2_5, QArith_base.Qle_bool, QArith_base.inject_Z.
  cbn [QArith_base.Qnum QArith_base.Qden].
  destruct (Z.leb_spec (x * 2) (5 * 1)); destruct (Z.leb_spec 3 x);
    cbn [negb]; try reflexivity; lia.
Qed.

Lemma count_where_app {A : Type} (p : A -> bool) (l1 l2 : list A) :
  count_where p (l1 ++ l2) = (count_where p l1 + count_where p l2)%Z.
Proof.
  unfold count_where. rewrite filter_app, length_app. lia.
Qed.

Lemma existsb_score_line (o : Z * Z) (acc : list (Z * Z)) :
  nonneg_outcome o -> Forall nonneg_outcome acc ->
  existsb (fun k' => String.eqb k' (score_line o)) (map score_line acc)
  = existsb (fun o' => outcome_eqb o' o) acc.
Proof.
  intros Ho. induction 1 as [| o' acc Ho' _ IH]; cbn [map existsb].
  - reflexivity.
  - now rewrite IH, score_line_eqb.
Qed.

(** The distinct scorelines are the scorelines of the distinct outcomes. *)
Lemma first_occurrences_lines (os : list (Z * Z)) :
  Forall nonneg_outcome os ->
  forall acc : list (Z * Z),
    Forall nonneg_outcome acc ->
    fold_left (fun acc k => if existsb (fun k' => String.eqb k' k) acc then acc
                            else (acc ++ [k])%list)
      (map score_line os) (map score_line acc)
    = map score_line
        (fold_left (fun acc o => if existsb (fun o' => outcome_eqb o' o) acc
                                 then acc else (acc ++ [o])%list) os acc) /\
    Forall nonneg_outcome
      (fold_left (fun acc o => if existsb (fun o' => outcome_eqb o' o) acc
                               then acc else (acc ++ [o])%list) os acc).
Proof.
  induction 1 as [| o os Ho _ IH]; intros acc Hacc; cbn [map fold_left].
  - now split.
  - rewrite existsb_score_line by assumption.
    destruct (existsb (fun o' => outcome_eqb o' o) acc).
    + now apply IH.
    + replace (map score_line acc ++ [score_line o])%list
        with (map score_line (acc ++ [o])%list) by now rewrite map_app.
      apply IH. apply Forall_app. split; [assumption | now constructor].
Qed.

Lemma count_first_occurrences_le (q : Z * Z -> bool) (os : list (Z * Z)) :
  forall acc : list (Z * Z),
    (count_where q
       (fold_left (fun acc o => if existsb (fun o' => outcome_eqb o' o) acc
                                then acc else (acc ++ [o])%list) os acc)
     <= count_where q acc + count_where q os)%Z.
Proof.
  induction os as [| o os IH]; intros acc; cbn [fold_left].
  - unfold count_where at 3. cbn. lia.
  - rewrite count_where_cons.
    destruct (existsb (fun o' => outcome_eqb o' o) acc).
    + specialize (IH acc). destruct (q o); lia.
    + specialize (IH (acc ++ [o])%list).
      rewrite count_where_app, count_where_cons in IH.
      unfold count_where at 3 in IH. cbn in IH. lia.
Qed.

Lemma count_keys_where_lines (pe : string -> Exc bool) (q : Z * Z -> bool)
    (l : list (Z * Z)) :
  Forall nonneg_outcome l ->
  (forall o, nonneg_outcome o -> pe (score_line o) = Ok (q o)) ->
  count_keys_where pe (map score_line l) = Ok (count_where q l).
Proof.
  intros Hl Hpe. induction Hl as [| o l Ho _ IH]; cbn [map count_keys_where].
  - reflexivity.
  - rewrite (Hpe o Ho), IH. cbn [bind]. rewrite count_where_cons.
    destruct (q o); f_equal; lia.
Qed.

Section FigureSums.
Context {F : Type}.
Variables home away : Team F.

(** Summing the counts of the keys that pass a test counts the trials whose
    key passes it. *)
Lemma recorded_sums (ps : string -> bool) (ph pa : Z -> bool)
    (os : list (Z * Z)) :
  forall t : Tally,
    sum_counts_if ps
      (score_counts
         (fold_left record_result (map (result_of_goals home away) os) t))
    = (sum_counts_if ps (score_counts t)
       + count_where (fun o => ps (score_line o)) os)%Z /\
    sum_counts_if ph
      (home_goal_counts
         (fold_left record_result (map (result_of_goals home away) os) t))
    = (sum_counts_if ph (home_goal_counts t)
       + count_where (fun o => ph (fst o)) os)%Z /\
    sum_counts_if pa
      (away_goal_counts
         (fold_left record_result (map (result_of_goals home away) os) t))
    = (sum_counts_if pa (away_goal_counts t)
       + count_where (fun o => pa (snd o)) os)%Z.
Proof.
  induction os as [| o os IH]; intros t.
  - unfold count_where. cbn. repeat split; lia.
  - cbn [map fold_left].
    destruct (IH (record_result t (result_of_goals home away o)))
      as (H1 & H2 & H3).
    destruct (record_result_of_goals home away t o)
      as (_ & _ & _ & _ & _ & R0 & R1 & R2).
    rewrite H1, H2, H3, R0, R1, R2, !count_where_cons.
    rewrite (sum_counts_if_incr String.eqb String.eqb_eq).
    rewrite !(sum_counts_if_incr Z.eqb Z_eqb_spec_iff).
    repeat split; lia.
Qed.

Lemma recorded_score_key_in (os : list (Z * Z)) :
  forall (t : Tally) (k : string),
    In k (dict_keys
            (score_counts
               (fold_left record_result (map (result_of_goals home away) os) t))) ->
    In k (dict_keys (score_counts t)) \/
    exists o : Z * Z, In o os /\ k = score_line o.
Proof.
  induction os as [| o os IH]; intros t k; cbn [map fold_left].
  - now left.
  - intros Hk. destruct (IH _ _ Hk) as [Hin | (o' & Ho' & E)].
    + destruct (record_result_of_goals home away t o)
        as (_ & _ & _ & _ & _ & R0 & _).
      rewrite R0 in Hin.
      destruct (dict_incr_key_in _ _ _ _ Hin) as [Hin' | ->]; [now left |].
      right. exists o. split; [now left | reflexivity].
    + right. exists o'. split; [now right | assumption].
Qed.

End FigureSums.

Section Figures.
Context {F : Type} `{PyFloat F}.
Variable Rng : Type.
Variable poisson : F -> Rng -> Exc (Z * Rng).

(** What a test on scorelines gives on the keys of score_counts. *)
Lemma score_keys_test (home away : Team F) (os : list (Z * Z))
    (pe : string -> Exc bool) (q : Z * Z -> bool) :
  Forall nonneg_outcome os ->
  (forall o, nonneg_outcome o -> pe (score_line o) = Ok (q o)) ->
  forall k : string,
    In k (dict_keys (score_counts (tally_of home away os))) ->
    pe k = Ok (match pe k with Ok b => b | Raise _ => false end).
Proof.
  intros Hos Hpe k Hk.
  destruct (recorded_score_key_in home away os empty_tally k Hk)
    as [[] | (o & Ho & ->)].
  rewrite Forall_forall in Hos. now rewrite (Hpe o (Hos o Ho)).
Qed.

Lemma sum_counts_where_scores (home away : Team F) (os : list (Z * Z))
    (pe : string -> Exc bool) (q : Z * Z -> bool) :
  Forall nonneg_outcome os ->
  (forall o, nonneg_outcome o -> pe (score_line o) = Ok (q o)) ->
  sum_counts_where pe (dict_items (score_counts (tally_of home away os)))
  = Ok (count_where q os).
Proof.
  intros Hos Hpe. unfold dict_items.
  rewrite (sum_counts_where_ok pe
             (fun k => match pe k with Ok b => b | Raise _ => false end))
    by (apply score_keys_test with (q := q); assumption).
  f_equal. unfold tally_of.
  destruct (recorded_sums home away
              (fun k => match pe k with Ok b => b | Raise _ => false end)
              (fun _ => true) (fun _ => true) os empty_tally) as (E & _).
  rewrite E. unfold sum_counts_if. cbn [empty_tally score_counts dict_items
    filter map Zsum fold_right]. rewrite Z.add_0_l.
  apply count_where_ext. rewrite Forall_forall in *.
  intros o Ho. now rewrite (Hpe o (Hos o Ho)).
Qed.

(** X21: for the results of a run whose draws are not negative, the web
    page's figure 'home scores 2+' is the number of trials with at least two
    home goals (likewise for the away side), 'both teams score' is the number
    of trials in which both sides scored, and 'over 2.5 goals' is the number
    of trials with at least three goals in all; reading the scorelines back
    raises no error. *)
Theorem streamlit_match_insights (sim sim' : MatchSimulator F)
    (home away : Team F) (n : Z) (neutral : bool) (rng rng' : Rng)
    (r : Results F) :
  sampler_nonneg poisson ->
  (0 <= n)%Z ->
  run_simulations poisson sim home away n neutral rng = Ok (r, sim', rng') ->
  exists os : list (Z * Z),
    Z.of_nat (List.length os) = n /\
    played_out poisson home away neutral rng os rng' /\
    home_2plus r = count_where (fun o => (2 <=? fst o)%Z) os /\
    away_2plus r = count_where (fun o => (2 <=? snd o)%Z) os /\
    both_score r
    = Ok (count_where (fun o => (0 <? fst o)%Z && (0 <? snd o)%Z) os) /\
    over_2_5 r = Ok (count_where (fun o => (3 <=? fst o + snd o)%Z) os).
Proof.
  intros Hnn Hn Hrun.
  destruct (run_simulations_outcomes _ _ _ _ _ _ Hn Hrun)
    as (os & Hlen & Hplay & Ht & _).
  pose proof (@played_out_nonneg F _ Rng poisson home away neutral os Hnn
                rng rng' Hplay) as Hos.
  exists os. split; [assumption |]. split; [assumption |].
  unfold home_2plus, away_2plus, both_score, over_2_5. rewrite Ht.
  destruct (recorded_sums home away (fun _ => true)
              (fun goals => (goals >=? 2)%Z) (fun goals => (goals >=? 2)%Z)
              os empty_tally) as (_ & E1 & E2).
  fold (tally_of home away os) in E1, E2.
  unfold sum_counts_if at 2 in E1. unfold sum_counts_if at 2 in E2.
  cbn [empty_tally home_goal_counts away_goal_counts dict_items filter map
       Zsum fold_right] in E1, E2.
  rewrite Z.add_0_l in E1, E2.
  split; [| split; [| split]].
  - rewrite E1. apply count_where_ext, Forall_forall. intros o _.
    now rewrite Z.geb_leb.
  - rewrite E2. apply count_where_ext, Forall_forall. intros o _.
    now rewrite Z.geb_leb.
  - apply sum_counts_where_scores; [assumption |].
    intros o Ho. rewrite all_positive_line by assumption.
    now rewrite !Z.gtb_ltb.
  - apply sum_counts_where_scores; [assumption |].
    intros o Ho. rewrite score_total_line by assumption. cbn [bind].
    now rewrite gt_2_5_spec.
Qed.

(** X22: for the results of a run whose draws are not negative, the web
    page's figure 'high-scoring matches (4+ goals)' is the number of distinct
    scorelines with four goals or more, not the number of trials that ended
    so, which it never exceeds; likewise 'low-scoring matches' is the number
    of distinct scorelines with at most one goal. *)
Theorem streamlit_high_scoring_counts_scorelines (sim sim' : MatchSimulator F)
    (home away : Team F) (n : Z) (neutral : bool) (rng rng' : Rng)
    (r : Results F) :
  sampler_nonneg poisson ->
  (0 <= n)%Z ->
  run_simulations poisson sim home away n neutral rng = Ok (r, sim', rng') ->
  exists os : list (Z * Z),
    Z.of_nat (List.length os) = n /\
    played_out poisson home away neutral rng os rng' /\
    high_scoring r
    = Ok (count_where (fun o => (4 <=? fst o + snd o)%Z)
            (first_occurrences outcome_eqb os)) /\
    low_scoring r
    = Ok (count_where (fun o => (fst o + snd o <=? 1)%Z)
            (first_occurrences outcome_eqb os)) /\
    (count_where (fun o => (4 <=? fst o + snd o)%Z)
       (first_occurrences outcome_eqb os)
     <= count_where (fun o => (4 <=? fst o + snd o)%Z) os)%Z /\
    (count_where (fun o => (fst o + snd o <=? 1)%Z)
       (first_occurrences outcome_eqb os)
     <= count_where (fun o => (fst o + snd o <=? 1)%Z) os)%Z.
Proof.
  intros Hnn Hn Hrun.
  destruct (run_simulations_outcomes _ _ _ _ _ _ Hn Hrun)
    as (os & Hlen & Hplay & Ht & _).
  pose proof (@played_out_nonneg F _ Rng poisson home away neutral os Hnn
                rng rng' Hplay) as Hos.
  exists os. split; [assumption |]. split; [assumption |].
  assert (Hkeys : dict_keys (score_counts (tally r))
                  = map score_line (first_occurrences outcome_eqb os)).
  { rewrite Ht. unfold tally_of.
    rewrite (recorded_score_keys home away os empty_tally).
    exact (proj1 (first_occurrences_lines Hos (Forall_nil _))). }
  pose proof (proj2 (first_occurrences_lines Hos (Forall_nil _))) as Hfirst.
  fold (first_occurrences outcome_eqb os) in Hfirst.
  assert (Hcount : forall (pe : string -> Exc bool) (q : Z * Z -> bool),
             (forall o, nonneg_outcome o -> pe (score_line o) = Ok (q o)) ->
             count_keys_where pe (dict_keys (score_counts (tally r)))
             = Ok (count_where q (first_occurrences outcome_eqb os))).
  { intros pe q Hpe. rewrite Hkeys. now apply count_keys_where_lines. }
  split; [| split; [| split]].
  - unfold high_scoring. apply Hcount. intros o Ho.
    rewrite score_total_line by assumption. cbn [bind]. now rewrite Z.geb_leb.
  - unfold low_scoring. apply Hcount. intros o Ho.
    now rewrite score_total_line by assumption.
  - pose proof (count_first_occurrences_le
                  (fun o => (4 <=? fst o + snd o)%Z) os []) as L.
    unfold count_where at 2 in L. cbn in L. exact L.
  - pose proof (count_first_occurrences_le
                  (fun o => (fst o + snd o <=? 1)%Z) os []) as L.
    unfold count_where at 2 in L. cbn in L. exact L.
Qed.

End Figures.

Lemma streamlit_match_insights_witness :
  sampler_nonneg count_poisson_64 /\ (0 <= 4)%Z /\
  run_simulations count_poisson_64 nosim64 teamA64 teamB64 4 false sample_counts
  = Ok (sample_count_results64,
        {| last_simulation_results := Some sample_count_results64 |}, []) /\
  exists os : list (Z * Z),
    Z.of_nat (List.length os) = 4%Z /\
    played_out count_poisson_64 teamA64 teamB64 false sample_counts os [] /\
    home_2plus sample_count_results64
    = count_where (fun o => (2 <=? fst o)%Z) os /\
    away_2plus sample_count_results64
    = count_where (fun o => (2 <=? snd o)%Z) os /\
    both_score sample_count_results64
    = Ok (count_where (fun o => (0 <? fst o)%Z && (0 <? snd o)%Z) os) /\
    over_2_5 sample_count_results64
    = Ok (count_where (fun o => (3 <=? fst o + snd o)%Z) os).
Proof.
  split; [exact count_poisson_64_nonneg |]. split; [lia |].
  split; [exact sample_count_run64 |].
  refine (@streamlit_match_insights float _ (list nat) count_poisson_64 nosim64
            _ teamA64 teamB64 4 false sample_counts [] sample_count_results64
            count_poisson_64_nonneg _ sample_count_run64).
  lia.
Defined.

Lemma streamlit_high_scoring_counts_scorelines_witness :
  sampler_nonneg count_poisson_64 /\ (0 <= 4)%Z /\
  run_simulations count_poisson_64 nosim64 teamA64 teamB64 4 false sample_counts
  = Ok (sample_count_results64,
        {| last_simulation_results := Some sample_count_results64 |}, []) /\
  exists os : list (Z * Z),
    Z.of_nat (List.length os) = 4%Z /\
    played_out count_poisson_64 teamA64 teamB64 false sample_counts os [] /\
    high_scoring sample_count_results64
    = Ok (count_where (fun o => (4 <=? fst o + snd o)%Z)
            (first_occurrences outcome_eqb os)) /\
    low_scoring sample_count_results64
    = Ok (count_where (fun o => (fst o + snd o <=? 1)%Z)
            (first_occurrences outcome_eqb os)) /\
    (count_where (fun o => (4 <=? fst o + snd o)%Z)
       (first_occurrences outcome_eqb os)
     <= count_where (fun o => (4 <=? fst o + snd o)%Z) os)%Z /\
    (count_where (fun o => (fst o + snd o <=? 1)%Z)
       (first_occurrences outcome_eqb os)
     <= count_where (fun o => (fst o + snd o <=? 1)%Z) os)%Z.
Proof.
  split; [exact count_poisson_64_nonneg |]. split; [lia |].
  split; [exact sample_count_run64 |].
  refine (@streamlit_high_scoring_counts_scorelines float _ (list nat)
            count_poisson_64 nosim64 _ teamA64 teamB64 4 false sample_counts []
            sample_count_results64 count_poisson_64_nonneg _ sample_count_run64).
  lia.
Defined.

(** Two trials that both end 2-2 give one high-scoring scoreline, and a
    negative goal count makes the figures raise. *)
Example high_scoring_two_draws :
  run_simulations count_poisson_64 nosim64 teamA64 teamB64 2 false [2; 2; 2; 2]%nat
  = Ok (sample_draws64, {| last_simulation_results := Some sample_draws64 |}, []) /\
  high_scoring sample_draws64 = Ok 1%Z /\
  over_2_5 sample_draws64 = Ok 2%Z /\
  score_total "-1-2" = Raise ValueError.
Proof. repeat split; vm_compute; reflexivity. Qed.
